(** * UltrasoundCalibrationWizard: the calibration logic, embedded and verified

    The two Slicer modules of the repository are
    [ImagelessUSCalibration.py] and [PointerBasedUSCalibration.py].  Their
    [...Logic] classes hold the code that decides the calibration: the
    bookkeeping of the fiducial lists ([UndoPoints], [ResetPoints],
    [DeleteNthPoint], [AddPointToCalibration], [SelectMarkedPoint]), the
    residual table ([ComputeErrors]) and the imageless reconstruction
    ([ComputeCalibration]).

    Conventions of the embedding.
    - A scene node that Python mutates in place is a record; a method that
      mutates it returns the new record.  A node reference that may be
      [None] is an [option].
    - A Python exception that is not caught is the [Raise] outcome of the
      [result] type.
    - Python's [float] is the carrier [F] of the class [Scalar].  The
      theorems are stated at the instance over the real numbers, which reads
      every floating-point operation as the exact one; the instance over
      binary64 runs the same definitions on the machine numbers.
    - What belongs to VTK or to Slicer (vtkMath, the markups list, the
      landmark registration) is written out from its documented behaviour,
      and VTK's landmark solver stays a parameter.  The module logics the
      code asks Slicer for are taken to be loaded, and a vtkPoints is read
      as keeping the coordinates it is given. *)

From Stdlib Require Import ZArith NArith List String Ascii Bool Lia.
From Stdlib Require Import Reals Lra.
From Stdlib Require PrimFloat SpecFloat FloatOps.
From Stdlib Require DecimalString DecimalPos.
Import ListNotations.

Set Implicit Arguments.

(** ** Scalars: what the code asks of Python's float *)

(** What a float literal denotes before it becomes a number. *)
Inductive literal : Type :=
| Decimal (neg : bool) (digits : N) (exp10 : Z)
| Infinity (neg : bool)
| NaN.

Class Scalar (F : Type) : Type := {
  fzero : F;
  fhalf : F;                       (* the literal 0.5 *)
  fone : F;
  fadd : F -> F -> F;
  fsub : F -> F -> F;
  fmul : F -> F -> F;
  fdiv : F -> F -> F;
  fsqrt : F -> F;                  (* sqrt of vtkMath and of math *)
  fnonzero : F -> bool;            (* the C++ test [x != 0.0] *)
  of_int : Z -> F;                 (* an int met by a float operand *)
  of_literal : literal -> F        (* the value of a parsed literal *)
}.

Declare Scope scalar_scope.
Delimit Scope scalar_scope with sc.
Infix "+" := fadd : scalar_scope.
Infix "-" := fsub : scalar_scope.
Infix "*" := fmul : scalar_scope.
Infix "/" := fdiv : scalar_scope.

(** The exact reading: the real numbers. *)
Module RealScalar.

Definition nonzero (x : R) : bool :=
  if Req_dec_T x 0%R then false else true.

Definition real_of_decimal (neg : bool) (m : N) (e : Z) : R :=
  ((if neg then Ropp else fun x => x) (IZR (Z.of_N m) * powerRZ 10 e))%R.

(** The reals have no infinity and no NaN: a literal that denotes one is
    read as 0, and a statement at this instance says nothing about the
    numbers of a machine run that goes through one. *)
Definition real_of_literal (l : literal) : R :=
  match l with
  | Decimal neg m e => real_of_decimal neg m e
  | Infinity _ | NaN => 0%R
  end.

#[global] Instance R_scalar : Scalar R := {|
  fzero := 0%R;
  fhalf := (/ 2)%R;
  fone := 1%R;
  fadd := Rplus;
  fsub := Rminus;
  fmul := Rmult;
  fdiv := Rdiv;
  fsqrt := sqrt;
  fnonzero := nonzero;
  of_int := IZR;
  of_literal := real_of_literal
|}.

End RealScalar.

(** The machine reading: IEEE 754 binary64, as CPython's float. *)
Module FloatScalar.

Import PrimFloat.

(** The conversion of a Python int to a float: the binary64 number nearest
    to it, ties to even, as [PyLong_AsDouble] rounds.  (An int too large
    for a float, which Python refuses with an OverflowError, comes out as
    infinity; the ints the code converts are image dimensions.) *)
Definition float_of_Z (z : Z) : float :=
  FloatOps.SF2Prim
    (SpecFloat.binary_normalize FloatOps.prec FloatOps.emax z 0 false).

(** The value of a decimal literal: the binary64 number nearest to
    digits * 10^exp10, ties to even, as [float] of a string rounds.  The
    product or the quotient is taken on the integers and rounded once. *)
Definition float_of_decimal (neg : bool) (m : N) (e : Z) : float :=
  match m with
  | N0 => if neg then neg_zero else zero
  | Npos digits =>
      FloatOps.SF2Prim
        match e with
        | Z0 =>
            SpecFloat.binary_normalize FloatOps.prec FloatOps.emax
              (if neg then Zneg digits else Zpos digits) 0 neg
        | Zpos p =>
            SpecFloat.binary_normalize FloatOps.prec FloatOps.emax
              (if neg then Zneg (digits * Pos.pow 10 p)
               else Zpos (digits * Pos.pow 10 p)) 0 neg
        | Zneg p =>
            SpecFloat.SFdiv FloatOps.prec FloatOps.emax
              (SpecFloat.S754_finite neg digits 0)
              (SpecFloat.S754_finite false (Pos.pow 10 p) 0)
        end
  end.

Definition float_of_literal (l : literal) : float :=
  match l with
  | Decimal neg m e => float_of_decimal neg m e
  | Infinity neg => if neg then neg_infinity else infinity
  | NaN => nan
  end.

#[global] Instance float_scalar : Scalar float := {|
  fzero := 0%float;
  fhalf := 0.5%float;
  fone := 1%float;
  fadd := PrimFloat.add;
  fsub := PrimFloat.sub;
  fmul := PrimFloat.mul;
  fdiv := PrimFloat.div;
  fsqrt := PrimFloat.sqrt;
  fnonzero := fun x => negb (PrimFloat.eqb x 0%float);
  of_int := float_of_Z;
  of_literal := float_of_literal
|}.

End FloatScalar.

(** ** Outcomes of a Python call *)

Inductive exn : Type :=
| TypeError
| ValueError
| ZeroDivisionError.

Inductive result (A : Type) : Type :=
| Ok (a : A)
| Raise (e : exn).

Arguments Ok {A} a.
Arguments Raise {A} e.

(** ** vtkMath and vtkMatrix4x4 *)

Section VtkMath.
Context {F : Type} `{Scalar F}.
Local Open Scope scalar_scope.

Definition vec3 : Type := (F * F * F)%type.
Definition vec4 : Type := (F * F * F * F)%type.
(** A vtkMatrix4x4, row by row. *)
Definition matrix4 : Type := (vec4 * vec4 * vec4 * vec4)%type.

Definition Add (a b : vec3) : vec3 :=
  let '(a0, a1, a2) := a in
  let '(b0, b1, b2) := b in
  (a0 + b0, a1 + b1, a2 + b2).

Definition Subtract (a b : vec3) : vec3 :=
  let '(a0, a1, a2) := a in
  let '(b0, b1, b2) := b in
  (a0 - b0, a1 - b1, a2 - b2).

Definition MultiplyScalar (a : vec3) (s : F) : vec3 :=
  let '(a0, a1, a2) := a in
  (a0 * s, a1 * s, a2 * s).

Definition Cross (a b : vec3) : vec3 :=
  let '(a0, a1, a2) := a in
  let '(b0, b1, b2) := b in
  (a1 * b2 - a2 * b1, a2 * b0 - a0 * b2, a0 * b1 - a1 * b0).


Definition Norm (a : vec3) : F :=
  let '(a0, a1, a2) := a in
  fsqrt (a0 * a0 + a1 * a1 + a2 * a2).

(** [vtkMath::Normalize] divides by the norm unless the norm is zero. *)
Definition Normalize (a : vec3) : vec3 :=
  let den := Norm a in
  if fnonzero den then
    let '(a0, a1, a2) := a in (a0 / den, a1 / den, a2 / den)
  else a.

Definition Distance2BetweenPoints (p q : vec3) : F :=
  let '(p0, p1, p2) := p in
  let '(q0, q1, q2) := q in
  (p0 - q0) * (p0 - q0) + (p1 - q1) * (p1 - q1) + (p2 - q2) * (p2 - q2).

Definition row_times (r v : vec4) : F :=
  let '(r0, r1, r2, r3) := r in
  let '(v0, v1, v2, v3) := v in
  r0 * v0 + r1 * v1 + r2 * v2 + r3 * v3.

(** [vtkMatrix4x4::MultiplyPoint]: no division by the last coordinate. *)
Definition MultiplyPoint (m : matrix4) (v : vec4) : vec4 :=
  let '(m0, m1, m2, m3) := m in
  (row_times m0 v, row_times m1 v, row_times m2 v, row_times m3 v).

Definition column (m : matrix4) (j : nat) : vec4 :=
  let pick (r : vec4) : F :=
    let '(r0, r1, r2, r3) := r in
    match j with
    | 0%nat => r0
    | 1%nat => r1
    | 2%nat => r2
    | _ => r3
    end in
  let '(m0, m1, m2, m3) := m in
  (pick m0, pick m1, pick m2, pick m3).

Definition Multiply4x4 (a b : matrix4) : matrix4 :=
  let times (r : vec4) : vec4 :=
    (row_times r (column b 0), row_times r (column b 1),
     row_times r (column b 2), row_times r (column b 3)) in
  let '(a0, a1, a2, a3) := a in
  (times a0, times a1, times a2, times a3).

Definition Identity : matrix4 :=
  ((fone, fzero, fzero, fzero),
   (fzero, fone, fzero, fzero),
   (fzero, fzero, fone, fzero),
   (fzero, fzero, fzero, fone)).

(** [vtkTransform::Scale] on a fresh transform. *)
Definition ScaleMatrix (sx sy sz : F) : matrix4 :=
  ((sx, fzero, fzero, fzero),
   (fzero, sy, fzero, fzero),
   (fzero, fzero, sz, fzero),
   (fzero, fzero, fzero, fone)).

(** The translation column: where the transform sends the origin. *)
Definition Origin (m : matrix4) : vec3 :=
  let '(x, y, z, _) := column m 3 in (x, y, z).

End VtkMath.

Arguments vec3 F : clear implicits.
Arguments vec4 F : clear implicits.
Arguments matrix4 F : clear implicits.

(** ** Python's [float(...)] on a node attribute *)

Module PyFloat.
Local Open Scope char_scope.

(** C's [isspace], which [float] uses to strip both ends. *)
Definition is_space (c : ascii) : bool :=
  let n := nat_of_ascii c in
  (Nat.eqb n 32 || (Nat.leb 9 n && Nat.leb n 13))%bool.

Definition digit (c : ascii) : option N :=
  let n := N_of_ascii c in
  if (N.leb 48 n && N.leb n 57)%bool then Some (n - 48)%N else None.

Definition lower (c : ascii) : ascii :=
  let n := nat_of_ascii c in
  if (Nat.leb 65 n && Nat.leb n 90)%bool then ascii_of_nat (n + 32) else c.

Fixpoint lstrip (l : list ascii) : list ascii :=
  match l with
  | c :: t => if is_space c then lstrip t else l
  | [] => []
  end.

Definition strip (l : list ascii) : list ascii :=
  rev (lstrip (rev (lstrip l))).

Definition sign (l : list ascii) : bool * list ascii :=
  match l with
  | "-" :: t => (true, t)
  | "+" :: t => (false, t)
  | _ => (false, l)
  end.

(** Reads a run of digits onto [acc]; also says how many it read. *)
Fixpoint digits (l : list ascii) (acc : N) (count : nat)
  : N * nat * list ascii :=
  match l with
  | c :: t =>
      match digit c with
      | Some d => digits t (10 * acc + d)%N (S count)
      | None => (acc, count, l)
      end
  | [] => (acc, count, l)
  end.

Definition exponent (l : list ascii) : option Z :=
  match l with
  | [] => Some 0%Z
  | c :: t =>
      if Ascii.eqb (lower c) "e" then
        let '(neg, t') := sign t in
        match digits t' 0%N 0 with
        | (_, O, _) => None
        | (e, S _, []) => Some (if neg then (- Z.of_N e)%Z else Z.of_N e)
        | (_, S _, _ :: _) => None
        end
      else None
  end.

(** digits [. digits] [e sign digits], with a digit on one side of the dot. *)
Definition decimal (neg : bool) (l : list ascii) : option literal :=
  let '(m1, n1, r1) := digits l 0%N 0 in
  let '(m2, n2, r2) :=
    match r1 with
    | "." :: r => digits r m1 0
    | _ => (m1, 0, r1)
    end in
  if Nat.eqb (n1 + n2) 0 then None
  else
    match exponent r2 with
    | Some e => Some (Decimal neg m2 (e - Z.of_nat n2))
    | None => None
    end.

Definition special (neg : bool) (l : list ascii) : option literal :=
  let w := string_of_list_ascii (map lower l) in
  if (String.eqb w "inf" || String.eqb w "infinity")%bool
  then Some (Infinity neg)
  else if String.eqb w "nan" then Some NaN else None.

Definition parse (s : string) : option literal :=
  let '(neg, body) := sign (strip (list_ascii_of_string s)) in
  match special neg body with
  | Some v => Some v
  | None => decimal neg body
  end.

End PyFloat.


(** [float(x)]: [None] is a TypeError, text that is no literal a ValueError. *)
Definition py_float {F : Type} `{Scalar F} (x : option string) : result F :=
  match x with
  | None => Raise TypeError
  | Some s =>
      match PyFloat.parse s with
      | Some l => Ok (of_literal l)
      | None => Raise ValueError
      end
  end.

(** [range(n)] *)
Definition range (n : Z) : list Z := map Z.of_nat (seq 0 (Z.to_nat n)).

(** [l[i] = v] for an index inside the list. *)
Fixpoint set_item {A : Type} (l : list A) (i : nat) (v : A) : list A :=
  match l, i with
  | [], _ => []
  | _ :: t, O => v :: t
  | h :: t, S k => h :: set_item t k v
  end.

(** [str(n)] of a Python int: its decimal digits, after a minus sign when
    it is below zero. *)
Definition py_str_int (n : Z) : string :=
  DecimalString.NilZero.string_of_int (Z.to_int n).

(** ** The markups fiducial list (vtkMRMLMarkupsFiducialNode) *)

Section Markups.
Context {F : Type} `{Scalar F}.

Record fiducial : Type := {
  label : string;
  position : vec3 F
}.

Definition fiducialList : Type := list fiducial.

Definition GetNumberOfFiducials (l : fiducialList) : Z :=
  Z.of_nat (List.length l).

Definition MarkupExists (n : Z) (l : fiducialList) : bool :=
  ((0 <=? n) && (n <? Z.of_nat (List.length l)))%Z.

Fixpoint erase (n : nat) (l : fiducialList) : fiducialList :=
  match l, n with
  | [], _ => []
  | _ :: t, O => t
  | h :: t, S k => h :: erase k t
  end.

(** [RemoveMarkup(n)] erases the n-th markup when there is one. *)
Definition RemoveMarkup (n : Z) (l : fiducialList) : fiducialList :=
  if MarkupExists n l then erase (Z.to_nat n) l else l.

Definition RemoveAllMarkups (l : fiducialList) : fiducialList := [].

Definition GetNthFiducialLabel (n : Z) (l : fiducialList) : string :=
  if MarkupExists n l then
    match nth_error l (Z.to_nat n) with
    | Some f => label f
    | None => EmptyString
    end
  else EmptyString.

(** [GetNthFiducialPosition(n, out)] fills [out] when the markup exists. *)
Definition GetNthFiducialPosition (n : Z) (l : fiducialList) (out : vec3 F)
  : vec3 F :=
  if MarkupExists n l then
    match nth_error l (Z.to_nat n) with
    | Some f => position f
    | None => out
    end
  else out.

(** The FiducialRegistrationWizard logic's [AddFiducial(transform, list)]:
    a new markup where the transform puts the origin, under the label
    Slicer gives it; nothing without a transform. *)
Definition AddFiducial (newLabel : string) (transform : option (matrix4 F))
    (l : fiducialList) : fiducialList :=
  match transform with
  | Some m => (l ++ [ {| label := newLabel; position := Origin m |} ])%list
  | None => l
  end.

End Markups.

Arguments fiducial F : clear implicits.
Arguments fiducialList F : clear implicits.

(** ** PointerBasedUSCalibrationLogic *)

Module PointerBased.
Section Logic.
Context {F : Type} `{Scalar F}.
Local Open Scope Z_scope.

(** The FiducialRegistrationWizard node, as far as the logic reads and
    writes it.  The two list references name two different list nodes, as
    [SetupCalibrationNode] creates them. *)
Record frwNode : Type := {
  FromFiducialListNode : option (fiducialList F);   (* Image_Points *)
  ToFiducialListNode : option (fiducialList F);     (* Probe_Points *)
  OutputTransformNode : option (matrix4 F);
  ProbeTransformToNode : option (matrix4 F)
}.

Definition with_lists (node : frwNode) (from to : fiducialList F) : frwNode :=
  {| FromFiducialListNode := Some from;
     ToFiducialListNode := Some to;
     OutputTransformNode := OutputTransformNode node;
     ProbeTransformToNode := ProbeTransformToNode node |}.

Definition UndoPoints (frw : option frwNode) : option frwNode :=
  match frw with
  | None => None
  | Some node =>
      match FromFiducialListNode node, ToFiducialListNode node with
      | Some fromFiducialList, Some toFiducialList =>
          let from' :=
            if GetNumberOfFiducials fromFiducialList >? 0
            then RemoveMarkup (GetNumberOfFiducials fromFiducialList - 1)
                              fromFiducialList
            else fromFiducialList in
          let to' :=
            if GetNumberOfFiducials toFiducialList >? 0
            then RemoveMarkup (GetNumberOfFiducials toFiducialList - 1)
                              toFiducialList
            else toFiducialList in
          Some (with_lists node from' to')
      | _, _ => Some node
      end
  end.

Definition ResetPoints (frw : option frwNode) : option frwNode :=
  match frw with
  | None => None
  | Some node =>
      match FromFiducialListNode node, ToFiducialListNode node with
      | Some fromFiducialList, Some toFiducialList =>
          Some (with_lists node (RemoveAllMarkups fromFiducialList)
                                (RemoveAllMarkups toFiducialList))
      | _, _ => Some node
      end
  end.

Definition DeleteNthPoint (frw : option frwNode) (n : Z) : option frwNode :=
  match frw with
  | None => None
  | Some node =>
      match FromFiducialListNode node, ToFiducialListNode node with
      | Some fromFiducialList, Some toFiducialList =>
          let from' :=
            if GetNumberOfFiducials fromFiducialList >? n
            then RemoveMarkup n fromFiducialList
            else fromFiducialList in
          let to' :=
            if GetNumberOfFiducials toFiducialList >? n
            then RemoveMarkup n toFiducialList
            else toFiducialList in
          Some (with_lists node from' to')
      | _, _ => Some node
      end
  end.

(** Which list node the MarkupAddedEvent came from. *)
Inductive listRef : Type := FromList | ToList | OtherList.

Definition unsynchronized : string :=
  "Image and probe points lists have become unsynchronized.".

(** The observer of the added markup: pairs it with a point in the other
    list.  Returns the node and the warnings logged. *)
Definition AddPointToCalibration (newLabel : string) (frw : option frwNode)
    (addedFiducialList : listRef) : option frwNode * list string :=
  match frw with
  | None => (None, [])
  | Some node =>
      let lists :=
        match addedFiducialList with
        | FromList =>
            match FromFiducialListNode node, ToFiducialListNode node with
            | Some added, Some toAdd => Some (added, toAdd)
            | _, _ => None
            end
        | ToList =>
            match ToFiducialListNode node, FromFiducialListNode node with
            | Some added, Some toAdd => Some (added, toAdd)
            | _, _ => None
            end
        | OtherList => None
        end in
      match lists with
      | None => (Some node, [])
      | Some (added, fiducialListToAddPoint) =>
          if negb (GetNumberOfFiducials added
                   - GetNumberOfFiducials fiducialListToAddPoint =? 1)
          then (Some node, [unsynchronized])
          else
            let grown :=
              AddFiducial newLabel (ProbeTransformToNode node)
                          fiducialListToAddPoint in
            match addedFiducialList with
            | FromList => (Some (with_lists node added grown), [])
            | _ => (Some (with_lists node grown added), [])
            end
      end
  end.

(** A cell of a row of the results table: a label or a number. *)
Inductive cell : Type :=
| Text (s : string)
| Number (x : F).

Definition RESULTS_IMAGE_POINTS_INDEX : nat := 0.
Definition RESULTS_PROBE_POINTS_INDEX : nat := 1.
Definition RESULTS_ERROR_INDEX : nat := 2.

(** The residual of pair [i]: the target against the transformed source.
    [math.sqrt] is given a sum of squares, which it never rejects. *)
Definition currError (outputMatrix : matrix4 F)
    (fromFiducialList toFiducialList : fiducialList F) (i : Z) : F :=
  let origin : vec3 F := (of_int 0, of_int 0, of_int 0) in
  let '(x, y, z) := GetNthFiducialPosition i fromFiducialList origin in
  let currFromPoint : vec4 F := (x, y, z, of_int 1) in
  let currToPoint := GetNthFiducialPosition i toFiducialList origin in
  let '(tx, ty, tz, _) := MultiplyPoint outputMatrix currFromPoint in
  fsqrt (Distance2BetweenPoints currToPoint (tx, ty, tz)).

(** One pass of the loop of [ComputeErrors]. *)
Definition errorElement (outputMatrix : matrix4 F)
    (fromFiducialList toFiducialList : fiducialList F) (i : Z) : list cell :=
  let e0 := [Text EmptyString; Text EmptyString; Text EmptyString] in
  let e1 :=
    if GetNumberOfFiducials fromFiducialList >? i
    then set_item e0 RESULTS_IMAGE_POINTS_INDEX
                  (Text (GetNthFiducialLabel i fromFiducialList))
    else e0 in
  let e2 :=
    if GetNumberOfFiducials toFiducialList >? i
    then set_item e1 RESULTS_PROBE_POINTS_INDEX
                  (Text (GetNthFiducialLabel i toFiducialList))
    else e1 in
  if ((GetNumberOfFiducials fromFiducialList >? i)
      && (GetNumberOfFiducials toFiducialList >? i))%bool
  then set_item e2 RESULTS_ERROR_INDEX
                (Number (currError outputMatrix fromFiducialList
                                   toFiducialList i))
  else e2.

Definition ComputeErrors (frw : option frwNode) : list (list cell) :=
  match frw with
  | None => []
  | Some node =>
      match FromFiducialListNode node, ToFiducialListNode node,
            OutputTransformNode node with
      | Some fromFiducialList, Some toFiducialList, Some outputMatrix =>
          let maxNumFiducials :=
            Z.max (GetNumberOfFiducials fromFiducialList)
                  (GetNumberOfFiducials toFiducialList) in
          if (negb (GetNumberOfFiducials fromFiducialList
                    =? GetNumberOfFiducials toFiducialList)
              || (maxNumFiducials <? 3))%bool
          then []
          else map (errorElement outputMatrix fromFiducialList toFiducialList)
                   (range maxNumFiducials)
      | _, _, _ => []
      end
  end.

(** What [SetupCalibrationNode] calls on the objects behind the record:
    [SetRegistrationModeToSimilarity] on the node, and [AddObserver] of
    MarkupAddedEvent on a list, with [AddPointToCalibration] for this node
    as the callback.  VTK keeps every observer it is given: adding the
    same callback again adds one more. *)
Inductive setupCall : Type :=
| SetRegistrationModeToSimilarity
| AddObserver_MarkupAddedEvent (observed : listRef).

(** [SetupCalibrationNode]: the node it leaves and the calls it makes, in
    the order of the source.  A list that is not there is created empty,
    a list that is there is kept; the mode is set and the observer is
    added on every call. *)
Definition SetupCalibrationNode (frw : option frwNode)
  : option frwNode * list setupCall :=
  match frw with
  | None => (None, [])
  | Some node =>
      let fromFiducialList :=
        match FromFiducialListNode node with
        | None => Some []
        | Some imagePoints => Some imagePoints
        end in
      let toFiducialList :=
        match ToFiducialListNode node with
        | None => Some []
        | Some probePoints => Some probePoints
        end in
      (Some {| FromFiducialListNode := fromFiducialList;
               ToFiducialListNode := toFiducialList;
               OutputTransformNode := OutputTransformNode node;
               ProbeTransformToNode := ProbeTransformToNode node |},
       [ SetRegistrationModeToSimilarity;
         AddObserver_MarkupAddedEvent FromList ])
  end.

End Logic.
Arguments frwNode F : clear implicits.
Arguments cell F : clear implicits.
End PointerBased.

(** ** ImagelessUSCalibrationLogic *)

Module Imageless.
Section Logic.
Context {F : Type} `{Scalar F}.
Local Open Scope string_scope.
Local Open Scope Z_scope.

(** [vtkLandmarkTransform] in rigid-body mode, from the source landmarks
    and the target landmarks to its matrix: VTK's, taken as it comes. *)
Variable LandmarkRigidBody : list (vec3 F) -> list (vec3 F) -> matrix4 F.

(** The volume node: [GetImageData()] and, when there is one, its
    [GetDimensions]. *)
Record usImageNode : Type := {
  ImageData : option (Z * Z * Z)
}.

(** The calibration node: its node references and attributes by role. *)
Record usCalibrationNode : Type := {
  MarkedPoints : option (fiducialList F);
  UnmarkedPoints : option (fiducialList F);
  StylusTipToProbeTransform : option (matrix4 F);
  ImageToProbeTransform : option (matrix4 F);
  UltrasoundImage : option usImageNode;
  Depth : option string;
  OutputMessage : option string
}.

Definition SetOutputMessage (node : usCalibrationNode) (msg : string)
  : usCalibrationNode :=
  {| MarkedPoints := MarkedPoints node;
     UnmarkedPoints := UnmarkedPoints node;
     StylusTipToProbeTransform := StylusTipToProbeTransform node;
     ImageToProbeTransform := ImageToProbeTransform node;
     UltrasoundImage := UltrasoundImage node;
     Depth := Depth node;
     OutputMessage := Some msg |}.

Definition SetMatrixTransformToParent (node : usCalibrationNode)
    (m : matrix4 F) : usCalibrationNode :=
  {| MarkedPoints := MarkedPoints node;
     UnmarkedPoints := UnmarkedPoints node;
     StylusTipToProbeTransform := StylusTipToProbeTransform node;
     ImageToProbeTransform := Some m;
     UltrasoundImage := UltrasoundImage node;
     Depth := Depth node;
     OutputMessage := OutputMessage node |}.

Definition SetMarkedPoints (node : usCalibrationNode) (l : fiducialList F)
  : usCalibrationNode :=
  {| MarkedPoints := Some l;
     UnmarkedPoints := UnmarkedPoints node;
     StylusTipToProbeTransform := StylusTipToProbeTransform node;
     ImageToProbeTransform := ImageToProbeTransform node;
     UltrasoundImage := UltrasoundImage node;
     Depth := Depth node;
     OutputMessage := OutputMessage node |}.

Definition SetUnmarkedPoints (node : usCalibrationNode) (l : fiducialList F)
  : usCalibrationNode :=
  {| MarkedPoints := MarkedPoints node;
     UnmarkedPoints := Some l;
     StylusTipToProbeTransform := StylusTipToProbeTransform node;
     ImageToProbeTransform := ImageToProbeTransform node;
     UltrasoundImage := UltrasoundImage node;
     Depth := Depth node;
     OutputMessage := OutputMessage node |}.

Definition points_not_used : string :=
  "Newly selected points not used. Points list already contains previously selected points.".

(** Returns the node and the warnings logged: the point is appended also
    when the warning is given. *)
Definition SelectMarkedPoint (newLabel : string)
    (cal : option usCalibrationNode)
  : option usCalibrationNode * list string :=
  match cal with
  | None => (None, [])
  | Some node =>
      match MarkedPoints node with
      | None => (Some node, [])
      | Some markedPointsList =>
          let log :=
            if GetNumberOfFiducials markedPointsList >=? 2
            then [points_not_used] else [] in
          (Some (SetMarkedPoints node
                   (AddFiducial newLabel (StylusTipToProbeTransform node)
                                markedPointsList)), log)
      end
  end.

Definition SelectUnmarkedPoint (newLabel : string)
    (cal : option usCalibrationNode)
  : option usCalibrationNode * list string :=
  match cal with
  | None => (None, [])
  | Some node =>
      match UnmarkedPoints node with
      | None => (Some node, [])
      | Some unmarkedPointsList =>
          let log :=
            if GetNumberOfFiducials unmarkedPointsList >=? 2
            then [points_not_used] else [] in
          (Some (SetUnmarkedPoints node
                   (AddFiducial newLabel (StylusTipToProbeTransform node)
                                unmarkedPointsList)), log)
      end
  end.

Definition ResetMarkedPoints (cal : option usCalibrationNode)
  : option usCalibrationNode :=
  match cal with
  | None => None
  | Some node =>
      match MarkedPoints node with
      | None => Some node
      | Some l => Some (SetMarkedPoints node (RemoveAllMarkups l))
      end
  end.

Definition ResetUnmarkedPoints (cal : option usCalibrationNode)
  : option usCalibrationNode :=
  match cal with
  | None => None
  | Some node =>
      match UnmarkedPoints node with
      | None => Some node
      | Some l => Some (SetUnmarkedPoints node (RemoveAllMarkups l))
      end
  end.

(** The vectors [ComputeCalibration] builds from the four corners, under
    the names it gives them; the two far vectors as [Normalize] leaves
    them, before they are stretched by the depth. *)
Record reconstruction : Type := {
  markedNearPoint : vec3 F;
  unmarkedNearPoint : vec3 F;
  markedUnmarkedVector : vec3 F;
  markedCornerVector : vec3 F;
  unmarkedCornerVector : vec3 F;
  markedFarVector : vec3 F;
  unmarkedFarVector : vec3 F
}.

Definition reconstruct
    (markedCorner1 markedCorner2 unmarkedCorner1 unmarkedCorner2 : vec3 F)
  : reconstruction :=
  let markedNearPoint :=
    MultiplyScalar (Add markedCorner1 markedCorner2) fhalf in
  let unmarkedNearPoint :=
    MultiplyScalar (Add unmarkedCorner1 unmarkedCorner2) fhalf in
  let markedUnmarkedVector := Subtract unmarkedNearPoint markedNearPoint in
  let markedCornerVector := Subtract markedCorner2 markedCorner1 in
  let unmarkedCornerVector := Subtract unmarkedCorner2 unmarkedCorner1 in
  {| markedNearPoint := markedNearPoint;
     unmarkedNearPoint := unmarkedNearPoint;
     markedUnmarkedVector := markedUnmarkedVector;
     markedCornerVector := markedCornerVector;
     unmarkedCornerVector := unmarkedCornerVector;
     markedFarVector :=
       Normalize (Cross markedUnmarkedVector markedCornerVector);
     unmarkedFarVector :=
       Normalize (Cross markedUnmarkedVector unmarkedCornerVector) |}.

Definition markedFarPoint (r : reconstruction) (depth : F) : vec3 F :=
  Add (markedNearPoint r) (MultiplyScalar (markedFarVector r) depth).

Definition unmarkedFarPoint (r : reconstruction) (depth : F) : vec3 F :=
  Add (unmarkedNearPoint r) (MultiplyScalar (unmarkedFarVector r) depth).

(** Unmarked near, marked near, unmarked far, marked far. *)
Definition probePoints (r : reconstruction) (depth : F) : list (vec3 F) :=
  [ unmarkedNearPoint r; markedNearPoint r;
    unmarkedFarPoint r depth; markedFarPoint r depth ].

(** The ratio of depth to y pixels; the caller has excluded 0 pixels. *)
Definition pixelsToMmScale (depth : F) (usImageDimensions : Z * Z * Z) : F :=
  let '(_, dimY, _) := usImageDimensions in
  (depth / of_int dimY)%sc.

Definition imagePoints_ImageMm (depth : F) (usImageDimensions : Z * Z * Z)
  : list (vec3 F) :=
  let '(dimX, _, _) := usImageDimensions in
  let scale := pixelsToMmScale depth usImageDimensions in
  [ (of_int 0, of_int 0, of_int 0);
    ((of_int dimX * scale)%sc, of_int 0, of_int 0);
    (of_int 0, depth, of_int 0);
    ((of_int dimX * scale)%sc, depth, of_int 0) ].

(** ImageToProbe = ImageMmToProbe * ImagePixelToImageMm. *)
Definition imageToProbeMatrix (r : reconstruction) (depth : F)
    (usImageDimensions : Z * Z * Z) : matrix4 F :=
  let scale := pixelsToMmScale depth usImageDimensions in
  let imagePixelToImageMm := ScaleMatrix scale scale scale in
  let imageMmToProbe :=
    LandmarkRigidBody (imagePoints_ImageMm depth usImageDimensions)
                      (probePoints r depth) in
  Multiply4x4 imageMmToProbe imagePixelToImageMm.

(** The body of [ComputeCalibration] once the four corners are read:
    from "Find the near points" to the end. *)
Definition calibrate (node : usCalibrationNode)
    (markedCorner1 markedCorner2 unmarkedCorner1 unmarkedCorner2 : vec3 F)
  : result (option usCalibrationNode) :=
  let r := reconstruct markedCorner1 markedCorner2
                       unmarkedCorner1 unmarkedCorner2 in
  match py_float (Depth node) with
  | Raise TypeError =>
      Ok (Some (SetOutputMessage node "Depth improperly specified."))
  | Raise e => Raise e
  | Ok depth =>
      match UltrasoundImage node with
      | None =>
          Ok (Some (SetOutputMessage node "No ultrasound image is selected."))
      | Some usImageNode =>
          match ImageData usImageNode with
          | None =>
              Ok (Some (SetOutputMessage node
                          "No ultrasound image is selected."))
          | Some usImageDimensions =>
              let '(_, dimY, _) := usImageDimensions in
              (* depth / usImageDimensions[ 1 ] *)
              if dimY =? 0 then Raise ZeroDivisionError
              else
                match ImageToProbeTransform node with
                | None =>
                    Ok (Some (SetOutputMessage node
                      "No output ImageToProbe transform specified."))
                | Some _ =>
                    Ok (Some (SetOutputMessage
                      (SetMatrixTransformToParent node
                         (imageToProbeMatrix r depth usImageDimensions))
                      "Success!"))
                end
          end
      end
  end.

Definition ComputeCalibration (cal : option usCalibrationNode)
  : result (option usCalibrationNode) :=
  match cal with
  | None => Ok None
  | Some node =>
      match MarkedPoints node, UnmarkedPoints node with
      | Some markedPointsList, Some unmarkedPointsList =>
          if GetNumberOfFiducials markedPointsList <? 2 then
            Ok (Some (SetOutputMessage node
              "Insufficient number of marked corner points selected."))
          else if GetNumberOfFiducials unmarkedPointsList <? 2 then
            Ok (Some (SetOutputMessage node
              "Insufficient number of unmarked corner points selected."))
          else
            let origin : vec3 F := (of_int 0, of_int 0, of_int 0) in
            let markedCorner1 :=
              GetNthFiducialPosition 0 markedPointsList origin in
            let markedCorner2 :=
              GetNthFiducialPosition 1 markedPointsList origin in
            let unmarkedCorner1 :=
              GetNthFiducialPosition 0 unmarkedPointsList origin in
            let unmarkedCorner2 :=
              GetNthFiducialPosition 1 unmarkedPointsList origin in
            calibrate node markedCorner1 markedCorner2
                      unmarkedCorner1 unmarkedCorner2
      | _, _ => Ok (Some node)
      end
  end.

(** [SetDepth] with the int the depth spin box holds. *)
Definition SetDepth (depth : Z) (cal : option usCalibrationNode)
  : option usCalibrationNode :=
  match cal with
  | None => None
  | Some node =>
      Some {| MarkedPoints := MarkedPoints node;
              UnmarkedPoints := UnmarkedPoints node;
              StylusTipToProbeTransform := StylusTipToProbeTransform node;
              ImageToProbeTransform := ImageToProbeTransform node;
              UltrasoundImage := UltrasoundImage node;
              Depth := Some (py_str_int depth);
              OutputMessage := OutputMessage node |}
  end.

(** The objects [SetupCalibrationNode] adds an observer of ModifiedEvent
    to, each with [ComputeCalibration] for this node as the callback.  VTK
    keeps every observer it is given: adding the same callback again adds
    one more. *)
Inductive observed : Type :=
| UnmarkedPointsList
| MarkedPointsList
| CalibrationNode.

(** [SetupCalibrationNode]: the node it leaves and the observers it adds,
    in the order of the source.  A corner list that is not there is
    created empty, one that is there is kept; the three observers are
    added on every call. *)
Definition SetupCalibrationNode (cal : option usCalibrationNode)
  : option usCalibrationNode * list observed :=
  match cal with
  | None => (None, [])
  | Some node =>
      let node1 :=
        match MarkedPoints node with
        | None => SetMarkedPoints node []
        | Some _ => node
        end in
      let node2 :=
        match UnmarkedPoints node1 with
        | None => SetUnmarkedPoints node1 []
        | Some _ => node1
        end in
      (Some node2, [ UnmarkedPointsList; MarkedPointsList; CalibrationNode ])
  end.

End Logic.
Arguments usImageNode : clear implicits.
Arguments usCalibrationNode F : clear implicits.
Arguments reconstruction F : clear implicits.
End Imageless.

(** ** The helpers the two logics share *)

Module Scene.
Local Open Scope string_scope.

(** A node of the MRML scene: its name, when it has one, and the names of
    its class and of the classes above it. *)
Record mrmlNode : Type := {
  GetName : option string;
  classes : list string
}.

Definition IsA (className : string) (node : mrmlNode) : bool :=
  existsb (String.eqb className) (classes node).

(** [scene.GetNodesByClass(className)], in the order of the scene. *)
Definition GetNodesByClass (className : string) (scene : list mrmlNode)
  : list mrmlNode :=
  filter (IsA className) scene.

(** Python's [sub in s] on two strings. *)
Fixpoint contains (sub s : string) : bool :=
  if String.prefix sub s then true
  else
    match s with
    | EmptyString => false
    | String _ rest => contains sub rest
    end.

(** The inner loop: is one of the prefixes in the name?  A node without a
    name gives [None] for a name, and [prefix in None] is a TypeError. *)
Fixpoint any_prefix_in (prefixes : list string) (name : option string)
  : result bool :=
  match prefixes with
  | [] => Ok false
  | prefix :: others =>
      match name with
      | None => Raise TypeError
      | Some s =>
          if contains prefix s then Ok true else any_prefix_in others name
      end
  end.

(** The outer loop, over the nodes of the class. *)
Fixpoint first_node_by_prefix (nodeCollection : list mrmlNode)
    (prefixes : list string) : result (option mrmlNode) :=
  match nodeCollection with
  | [] => Ok None
  | currNode :: others =>
      match any_prefix_in prefixes (GetName currNode) with
      | Raise e => Raise e
      | Ok true => Ok (Some currNode)
      | Ok false => first_node_by_prefix others prefixes
      end
  end.

Definition GetFirstNodeByClassByPrefix (scene : list mrmlNode)
    (className : string) (prefixes : list string) : result (option mrmlNode) :=
  first_node_by_prefix (GetNodesByClass className scene) prefixes.

(** The volume node, as [ApplyTransformToImage] sees it: the ID of the
    transform it is under, empty when it is under none.  The ID of a node
    of the scene is never empty. *)
Record volumeNode : Type := {
  GetTransformNodeID : string
}.

Definition SetAndObserveTransformNodeID (id : string) (volume : volumeNode)
  : volumeNode :=
  {| GetTransformNodeID := id |}.

(** [ApplyTransformToImage], given the two nodes the calibration node
    refers to: the ID of the ImageToProbe transform and the image. *)
Definition ApplyTransformToImage (imageToProbeTransformNode : option string)
    (usImageNode : option volumeNode) : option volumeNode :=
  match imageToProbeTransformNode, usImageNode with
  | Some id, Some image =>
      if String.eqb (GetTransformNodeID image) id
      then Some (SetAndObserveTransformNodeID "" image)
      else Some (SetAndObserveTransformNodeID id image)
  | _, _ => usImageNode
  end.

End Scene.

(** ** Starting the placement of a point *)

Module MarkPoint.
Local Open Scope string_scope.

Inductive interactionMode : Type := ViewTransform | Place.

(** The two singleton nodes the application logic hands out, each of which
    may be missing: the selection node with its active place node ID, the
    interaction node with its current mode. *)
Record applicationLogic : Type := {
  GetSelectionNode : option string;
  GetInteractionNode : option interactionMode
}.

(** A call of a method on [None] is an AttributeError; the state is the
    one reached when it is raised. *)
Inductive outcome : Type :=
| Returned (app : applicationLogic) (warnings : list string)
| AttributeError (app : applicationLogic).

Definition not_found : string :=
  "Could not find selection node or interaction node".

(** [StartMarkPoint]; [fromFiducialList] is the ID of the image list of the
    node, [None] when the node or its image list is missing. *)
Definition StartMarkPoint (fromFiducialList : option string)
    (app : applicationLogic) : outcome :=
  match fromFiducialList with
  | None => Returned app []
  | Some id =>
      match GetSelectionNode app, GetInteractionNode app with
      | None, None => Returned app [not_found]
      | None, Some _ =>
          (* selectionNode.SetActivePlaceNodeID on None *)
          AttributeError app
      | Some _, None =>
          (* interactionNode.SetCurrentInteractionMode on None, after the
             selection node was set *)
          AttributeError {| GetSelectionNode := Some id;
                            GetInteractionNode := None |}
      | Some _, Some _ =>
          Returned {| GetSelectionNode := Some id;
                      GetInteractionNode := Some Place |} []
      end
  end.

End MarkPoint.

(** ** The vocabulary of the specification *)

Section Vocabulary.
Context {F : Type} `{Scalar F}.

(** DeleteAt, in the words of the specification: the entry at [index] is
    removed when the list has one, and the list is left alone otherwise. *)
Definition DeleteAt (index : nat) (l : fiducialList F) : fiducialList F :=
  if Nat.ltb index (List.length l)
  then (firstn index l ++ skipn (S index) l)%list
  else l.

(** The equal-length invariant of the two correspondence lists. *)
Definition synchronized (frw : option (PointerBased.frwNode F)) : bool :=
  match frw with
  | Some node =>
      match PointerBased.FromFiducialListNode node,
            PointerBased.ToFiducialListNode node with
      | Some from, Some to => Nat.eqb (List.length from) (List.length to)
      | _, _ => false
      end
  | None => false
  end.

(** The Euclidean distance, as [ComputeErrors] takes it. *)
Definition Distance (p q : vec3 F) : F :=
  fsqrt (Distance2BetweenPoints p q).

(** A transform applied to a point. *)
Definition TransformPoint (m : matrix4 F) (p : vec3 F) : vec3 F :=
  let '(x, y, z) := p in
  let '(tx, ty, tz, _) := MultiplyPoint m (x, y, z, of_int 1) in
  (tx, ty, tz).

(** What a caller sees of a run of [ComputeCalibration]: the status
    message and the output transform, or the exception. *)
Definition observe (r : result (option (Imageless.usCalibrationNode F)))
  : result (option (option string * option (matrix4 F))) :=
  match r with
  | Ok (Some node) =>
      Ok (Some (Imageless.OutputMessage node,
                Imageless.ImageToProbeTransform node))
  | Ok None => Ok None
  | Raise e => Raise e
  end.

(** The corner positions [ComputeCalibration] can read: the first two. *)
Definition corners (l : option (fiducialList F)) : option (list (vec3 F)) :=
  option_map (fun l => map (@position F) (firstn 2 l)) l.

End Vocabulary.

Section VocabularyOfErrors.
Context {F : Type} `{Scalar F}.

(** The error record of one pair, in the words of the specification: the
    label of the source, the label of the target, and the distance from
    the transformed source to the target. *)
Definition ErrorRecord (outputMatrix : matrix4 F) (pair : fiducial F * fiducial F)
  : list (PointerBased.cell F) :=
  [ PointerBased.Text (label (fst pair));
    PointerBased.Text (label (snd pair));
    PointerBased.Number
      (Distance (TransformPoint outputMatrix (position (fst pair)))
                (position (snd pair))) ].

Definition ErrorRecords (outputMatrix : matrix4 F)
    (source target : fiducialList F) : list (list (PointerBased.cell F)) :=
  map (ErrorRecord outputMatrix) (combine source target).

End VocabularyOfErrors.

(** The square of the length of a vector of reals. *)
Definition sum_of_squares (c : vec3 R) : R :=
  let '(c0, c1, c2) := c in (c0 * c0 + c1 * c1 + c2 * c2)%R.

(** A list without its entry at [index]; the list itself when it has none. *)
Definition without_row {A : Type} (index : nat) (rows : list A) : list A :=
  (firstn index rows ++ skipn (S index) rows)%list.

(** The number a run of decimal digits stands for, read from the left
    onto what has been read so far. *)
Fixpoint uint_value (u : Decimal.uint) (acc : N) : N :=
  match u with
  | Decimal.Nil => acc
  | Decimal.D0 u => uint_value u (10 * acc + 0)
  | Decimal.D1 u => uint_value u (10 * acc + 1)
  | Decimal.D2 u => uint_value u (10 * acc + 2)
  | Decimal.D3 u => uint_value u (10 * acc + 3)
  | Decimal.D4 u => uint_value u (10 * acc + 4)
  | Decimal.D5 u => uint_value u (10 * acc + 5)
  | Decimal.D6 u => uint_value u (10 * acc + 6)
  | Decimal.D7 u => uint_value u (10 * acc + 7)
  | Decimal.D8 u => uint_value u (10 * acc + 8)
  | Decimal.D9 u => uint_value u (10 * acc + 9)
  end%N.

(** A node whose name holds one of the prefixes, at any place in it. *)
Definition holds_a_prefix (prefixes : list string) (node : Scene.mrmlNode)
  : Prop :=
  exists (prefix name before after : string),
    In prefix prefixes /\ Scene.GetName node = Some name
    /\ name = (before ++ prefix ++ after)%string.

(** A node that has a name, and a name that holds none of the prefixes. *)
Definition named_without_prefix (prefixes : list string)
    (node : Scene.mrmlNode) : Prop :=
  exists name : string,
    Scene.GetName node = Some name
    /\ forall prefix, In prefix prefixes ->
                      ~ exists before after : string,
                          name = (before ++ prefix ++ after)%string.

(** ** Sample states *)

Module Samples.
Import RealScalar.
Local Open Scope string_scope.

Definition point (name : string) (x y z : Z) : fiducial R :=
  {| label := name; position := (IZR x, IZR y, IZR z) |}.

(** Three points on the image and where a tracked pointer found them. *)
Definition image_points : fiducialList R :=
  [ point "Image_Points-1" 0 0 0; point "Image_Points-2" 10 0 0;
    point "Image_Points-3" 0 10 0 ].

Definition probe_points : fiducialList R :=
  [ point "Probe_Points-1" 1 2 3; point "Probe_Points-2" 11 2 3;
    point "Probe_Points-3" 1 12 3 ].

Definition pointer_node : PointerBased.frwNode R :=
  {| PointerBased.FromFiducialListNode := Some image_points;
     PointerBased.ToFiducialListNode := Some probe_points;
     PointerBased.OutputTransformNode := Some Identity;
     PointerBased.ProbeTransformToNode := Some Identity |}.

(** The probe footprint: two corners on the marked side, two on the
    unmarked side, 4 mm across and 2 mm wide. *)
Definition marked_corners : fiducialList R :=
  [ point "MarkedPoints-1" 0 0 0; point "MarkedPoints-2" 0 2 0 ].

Definition unmarked_corners : fiducialList R :=
  [ point "UnmarkedPoints-1" 4 0 0; point "UnmarkedPoints-2" 4 2 0 ].

(** A third corner on each side, selected after the first two. *)
Definition marked_corners_and_more : fiducialList R :=
  (marked_corners ++ [ point "MarkedPoints-3" 7 7 7 ])%list.

Definition unmarked_corners_and_more : fiducialList R :=
  (unmarked_corners ++ [ point "UnmarkedPoints-3" 9 9 9 ])%list.



(** An image of 400 by 500 pixels. *)
Definition image_400_500 : Imageless.usImageNode :=
  {| Imageless.ImageData := Some (400, 500, 1)%Z |}.

Definition imageless_node (marked unmarked : fiducialList R)
    (depth : option string) : Imageless.usCalibrationNode R :=
  {| Imageless.MarkedPoints := Some marked;
     Imageless.UnmarkedPoints := Some unmarked;
     Imageless.StylusTipToProbeTransform := Some Identity;
     Imageless.ImageToProbeTransform := Some Identity;
     Imageless.UltrasoundImage := Some image_400_500;
     Imageless.Depth := depth;
     Imageless.OutputMessage := None |}.

(** What the run reconstructs from the footprint above. *)
Definition reconstruction_of_footprint : Imageless.reconstruction R :=
  Imageless.reconstruct (0, 0, 0)%R (0, 2, 0)%R (4, 0, 0)%R (4, 2, 0)%R.



(** An image that holds no rows. *)
Definition image_without_rows : Imageless.usImageNode :=
  {| Imageless.ImageData := Some (400, 0, 1)%Z |}.

(** The footprint, a depth of 100 and the image without rows; no output
    transform is set. *)
Definition node_without_rows : Imageless.usCalibrationNode R :=
  {| Imageless.MarkedPoints := Some marked_corners;
     Imageless.UnmarkedPoints := Some unmarked_corners;
     Imageless.StylusTipToProbeTransform := Some Identity;
     Imageless.ImageToProbeTransform := None;
     Imageless.UltrasoundImage := Some image_without_rows;
     Imageless.Depth := Some "100";
     Imageless.OutputMessage := None |}.

(** A solver that answers the identity, to run the samples with. *)
Definition identity_solver (source target : list (vec3 R)) : matrix4 R :=
  Identity.

End Samples.


(** ** Tactics for the real reading *)

(** Unfolds the operations of the class at the instance of the reals. *)
Ltac real_ops :=
  cbv [fadd fsub fmul fdiv fsqrt fzero fone fhalf of_int fnonzero of_literal
       RealScalar.R_scalar].

Ltac real_ops_in H :=
  cbv [fadd fsub fmul fdiv fsqrt fzero fone fhalf of_int fnonzero of_literal
       RealScalar.R_scalar] in H.

(** Splits an equation between lists of vectors into its coordinates. *)
Ltac vec_eq :=
  repeat match goal with
         | |- (_ :: _) = (_ :: _) => apply (f_equal2 cons)
         | |- (_, _) = (_, _) => apply (f_equal2 pair)
         | |- @eq (list _) [] [] => reflexivity
         end.

(** * Properties *)

(** ** The markups list *)

Section MarkupsFacts.
Context {F : Type} `{Scalar F}.
Implicit Types l : fiducialList F.

Lemma erase_firstn_skipn (n : nat) l :
  erase n l = (firstn n l ++ skipn (S n) l)%list.
Proof.
  revert n; induction l as [|h t IH]; intros [|n]; simpl; trivial.
  now rewrite IH.
Qed.

Lemma erase_beyond (n : nat) l : (List.length l <= n)%nat -> erase n l = l.
Proof.
  revert n; induction l as [|h t IH]; intros [|n] Hn; simpl in *; trivial.
  - lia.
  - f_equal; apply IH; lia.
Qed.

Lemma erase_length (n : nat) l :
  (n < List.length l)%nat -> S (List.length (erase n l)) = List.length l.
Proof.
  revert n; induction l as [|h t IH]; intros [|n] Hn; simpl in *;
    try lia.
  rewrite IH; lia.
Qed.

Lemma erase_last l (x : fiducial F) : erase (List.length l) (l ++ [x]) = l.
Proof. induction l as [|h t IH]; simpl; [trivial | now rewrite IH]. Qed.

Lemma MarkupExists_iff (n : Z) l :
  MarkupExists n l = true <-> (0 <= n < Z.of_nat (List.length l))%Z.
Proof. unfold MarkupExists; rewrite andb_true_iff; lia. Qed.

Lemma RemoveMarkup_nat (n : nat) l :
  RemoveMarkup (Z.of_nat n) l = erase n l.
Proof.
  unfold RemoveMarkup.
  destruct (MarkupExists (Z.of_nat n) l) eqn:E.
  - now rewrite Nat2Z.id.
  - symmetry; apply erase_beyond.
    destruct (le_lt_dec (List.length l) n) as [Hle|Hlt]; trivial.
    assert (MarkupExists (Z.of_nat n) l = true) as E'
      by (apply MarkupExists_iff; lia).
    congruence.
Qed.

Lemma RemoveMarkup_negative (n : Z) l : (n < 0)%Z -> RemoveMarkup n l = l.
Proof.
  intros Hn; unfold RemoveMarkup.
  destruct (MarkupExists n l) eqn:E; trivial.
  apply MarkupExists_iff in E; lia.
Qed.

Lemma RemoveMarkup_length (n : Z) l :
  List.length (RemoveMarkup n l)
  = if MarkupExists n l then pred (List.length l) else List.length l.
Proof.
  unfold RemoveMarkup.
  destruct (MarkupExists n l) eqn:E; trivial.
  apply MarkupExists_iff in E.
  assert (Z.to_nat n < List.length l)%nat as Hlt by lia.
  pose proof (erase_length l Hlt); lia.
Qed.

(** What [UndoPoints] does to one list. *)
Lemma undo_one_list l :
  (if (GetNumberOfFiducials l >? 0)%Z
   then RemoveMarkup (GetNumberOfFiducials l - 1) l else l) = removelast l.
Proof.
  unfold GetNumberOfFiducials.
  induction l as [|x l _] using rev_ind; [reflexivity|].
  rewrite removelast_last, length_app; simpl.
  replace (Z.of_nat (List.length l + 1) >? 0)%Z with true
    by (symmetry; apply Z.gtb_lt; lia).
  replace (Z.of_nat (List.length l + 1) - 1)%Z
    with (Z.of_nat (List.length l)) by lia.
  rewrite RemoveMarkup_nat; apply erase_last.
Qed.

End MarkupsFacts.

(** ** Bookkeeping of the two correspondence lists *)

Section Bookkeeping.
Context {F : Type} `{Scalar F}.
Import PointerBased.
Implicit Types (node : frwNode F) (from to l : fiducialList F).

Lemma UndoPoints_lists node from to :
  UndoPoints (Some (with_lists node from to))
  = Some (with_lists node (removelast from) (removelast to)).
Proof.
  unfold UndoPoints; cbn [with_lists FromFiducialListNode ToFiducialListNode].
  now rewrite !undo_one_list.
Qed.

Lemma delete_one_list (n : nat) l :
  (if (GetNumberOfFiducials l >? Z.of_nat n)%Z
   then RemoveMarkup (Z.of_nat n) l else l) = DeleteAt n l.
Proof.
  unfold GetNumberOfFiducials, DeleteAt.
  destruct (Nat.ltb_spec n (List.length l)) as [Hlt|Hge].
  - replace (Z.of_nat (List.length l) >? Z.of_nat n)%Z with true
      by (symmetry; apply Z.gtb_lt; lia).
    now rewrite RemoveMarkup_nat, erase_firstn_skipn.
  - replace (Z.of_nat (List.length l) >? Z.of_nat n)%Z with false; trivial.
    symmetry; rewrite Z.gtb_ltb; apply Z.ltb_ge; lia.
Qed.

Lemma DeleteAt_length (n : nat) l :
  List.length (DeleteAt n l)
  = if Nat.ltb n (List.length l) then pred (List.length l)
    else List.length l.
Proof.
  unfold DeleteAt.
  destruct (Nat.ltb_spec n (List.length l)) as [Hlt|Hge]; trivial.
  rewrite <- erase_firstn_skipn.
  pose proof (erase_length l Hlt); lia.
Qed.

Lemma synchronized_with_lists node from to :
  synchronized (Some (with_lists node from to))
  = Nat.eqb (List.length from) (List.length to).
Proof. reflexivity. Qed.

Lemma synchronized_inv (frw : option (frwNode F)) :
  synchronized frw = true ->
  exists node from to,
    frw = Some node /\ FromFiducialListNode node = Some from /\
    ToFiducialListNode node = Some to /\ List.length from = List.length to.
Proof.
  destruct frw as [node|]; simpl; try discriminate.
  destruct (FromFiducialListNode node) as [from|] eqn:Ef; try discriminate.
  destruct (ToFiducialListNode node) as [to|] eqn:Et; try discriminate.
  intros E; apply Nat.eqb_eq in E.
  exists node, from, to; auto.
Qed.

Lemma removelast_length {A : Type} (l : list A) :
  List.length (removelast l) = pred (List.length l).
Proof.
  induction l as [|x l _] using rev_ind; trivial.
  rewrite removelast_last, length_app; simpl; lia.
Qed.

(** A markup placed in the image list while the lists are aligned: the
    observer pairs it with a pointer position in the probe list, and
    [UndoPoints] then takes both back. *)
Lemma placed_point_then_undo node from to (x : fiducial F) (newLabel : string)
    (m : matrix4 F) :
  List.length from = List.length to ->
  ProbeTransformToNode node = Some m ->
  AddPointToCalibration newLabel
    (Some (with_lists node (from ++ [x]) to)) FromList
  = (Some (with_lists node (from ++ [x])
             (to ++ [ {| label := newLabel; position := Origin m |} ])), [])
  /\ UndoPoints
       (Some (with_lists node (from ++ [x])
                (to ++ [ {| label := newLabel; position := Origin m |} ])))
     = Some (with_lists node from to).
Proof.
  intros Hlen Hm; split.
  - unfold AddPointToCalibration.
    cbn [with_lists FromFiducialListNode ToFiducialListNode
         ProbeTransformToNode].
    unfold GetNumberOfFiducials.
    replace (Z.of_nat (List.length (from ++ [x]))
             - Z.of_nat (List.length to) =? 1)%Z with true
      by (symmetry; apply Z.eqb_eq; rewrite length_app; simpl; lia).
    cbn [negb]; rewrite Hm; reflexivity.
  - rewrite UndoPoints_lists, !removelast_last; reflexivity.
Qed.

End Bookkeeping.

(** C7.  On a node with both lists, [UndoPoints] leaves each list without
    its last entry: a list that ends in an entry loses exactly that entry,
    an empty list stays empty (and the call returns, as every call of this
    total function does), whatever the other list holds.  So a pair of
    entries appended, one to each list, and then undone gives back the two
    lists as they were; and so does, list by list, one entry appended and
    undone. *)
Theorem UndoPoints_removes_last_entry :
  forall (F : Type) (num : Scalar F) (node : PointerBased.frwNode F)
         (from to : fiducialList F),
    PointerBased.UndoPoints (Some (PointerBased.with_lists node from to))
    = Some (PointerBased.with_lists node (removelast from) (removelast to))
    /\ (forall x y,
          PointerBased.UndoPoints
            (Some (PointerBased.with_lists node (from ++ [x]) (to ++ [y])))
          = Some (PointerBased.with_lists node from to))
    /\ (forall x,
          PointerBased.UndoPoints
            (Some (PointerBased.with_lists node (from ++ [x]) []))
          = Some (PointerBased.with_lists node from []))
    /\ (forall y,
          PointerBased.UndoPoints
            (Some (PointerBased.with_lists node [] (to ++ [y])))
          = Some (PointerBased.with_lists node [] to))
    /\ PointerBased.UndoPoints (Some (PointerBased.with_lists node [] []))
       = Some (PointerBased.with_lists node [] []).
Proof.
  intros F num node from to.
  repeat split; intros; rewrite UndoPoints_lists;
    rewrite ?removelast_last; reflexivity.
Qed.

(** C8.  On a node with both lists and for every index [n],
    [DeleteNthPoint] is DeleteAt on each list: the entry at [n] is removed
    from a list longer than [n], and a list of length at most [n] is left
    as it is; the call returns in either case. *)
Theorem DeleteNthPoint_is_DeleteAt :
  forall (F : Type) (num : Scalar F) (node : PointerBased.frwNode F)
         (from to : fiducialList F) (n : nat),
    PointerBased.DeleteNthPoint (Some (PointerBased.with_lists node from to))
                                (Z.of_nat n)
    = Some (PointerBased.with_lists node (DeleteAt n from) (DeleteAt n to)).
Proof.
  intros F num node from to n.
  unfold PointerBased.DeleteNthPoint.
  cbn [PointerBased.with_lists PointerBased.FromFiducialListNode
       PointerBased.ToFiducialListNode].
  now rewrite !delete_one_list.
Qed.

(** An index below zero, which no row of the results table has, deletes
    nothing. *)
Lemma DeleteNthPoint_negative :
  forall (F : Type) (num : Scalar F) (node : PointerBased.frwNode F)
         (from to : fiducialList F) (n : Z),
    (n < 0)%Z ->
    PointerBased.DeleteNthPoint (Some (PointerBased.with_lists node from to)) n
    = Some (PointerBased.with_lists node from to).
Proof.
  intros F num node from to n Hn.
  unfold PointerBased.DeleteNthPoint.
  cbn [PointerBased.with_lists PointerBased.FromFiducialListNode
       PointerBased.ToFiducialListNode].
  rewrite !RemoveMarkup_negative by trivial.
  now destruct (_ >? _)%Z, (_ >? _)%Z.
Qed.

(** What DeleteAt means entry by entry. *)
Lemma DeleteAt_entries :
  forall (F : Type) (num : Scalar F) (l : fiducialList F) (n : nat),
    ((List.length l <= n)%nat -> DeleteAt n l = l)
    /\ ((n < List.length l)%nat ->
        List.length (DeleteAt n l) = pred (List.length l)
        /\ (forall i, (i < n)%nat ->
                      nth_error (DeleteAt n l) i = nth_error l i)
        /\ (forall i, (n <= i)%nat ->
                      nth_error (DeleteAt n l) i = nth_error l (S i))).
Proof.
  intros F num l n; unfold DeleteAt; split; intros Hn.
  - destruct (Nat.ltb_spec n (List.length l)); [lia | trivial].
  - destruct (Nat.ltb_spec n (List.length l)) as [_|]; [|lia].
    assert (List.length (firstn n l) = n) as Hf
      by (rewrite length_firstn; lia).
    repeat split.
    + rewrite length_app, length_skipn, Hf; lia.
    + intros i Hi.
      rewrite nth_error_app1 by lia.
      now rewrite nth_error_firstn, (proj2 (Nat.ltb_lt i n) Hi).
    + intros i Hi.
      rewrite nth_error_app2 by lia.
      rewrite Hf, nth_error_skipn; f_equal; lia.
Qed.

(** C9.  When the two lists have equal length, they have equal length
    again after [UndoPoints], after [DeleteNthPoint] at any [n], and after
    [ResetPoints]. *)
Theorem bookkeeping_keeps_lists_aligned :
  forall (F : Type) (num : Scalar F) (frw : option (PointerBased.frwNode F)),
    synchronized frw = true ->
    synchronized (PointerBased.UndoPoints frw) = true
    /\ (forall n : Z, synchronized (PointerBased.DeleteNthPoint frw n) = true)
    /\ synchronized (PointerBased.ResetPoints frw) = true.
Proof.
  intros F num frw Hs.
  destruct (synchronized_inv frw Hs) as (node & from & to & -> & Ef & Et & Hlen).
  repeat split.
  - unfold PointerBased.UndoPoints; rewrite Ef, Et, !undo_one_list.
    rewrite synchronized_with_lists, !removelast_length, Hlen.
    apply Nat.eqb_refl.
  - intros n.
    unfold PointerBased.DeleteNthPoint; rewrite Ef, Et.
    rewrite synchronized_with_lists.
    unfold GetNumberOfFiducials; rewrite Hlen.
    destruct (Z.of_nat (List.length to) >? n)%Z.
    + rewrite !RemoveMarkup_length.
      unfold MarkupExists; rewrite Hlen.
      destruct (_ && _)%bool; apply Nat.eqb_eq; lia.
    + now apply Nat.eqb_eq.
  - unfold PointerBased.ResetPoints; rewrite Ef, Et.
    reflexivity.
Qed.

Lemma bookkeeping_keeps_lists_aligned_on_sample :
  synchronized (PointerBased.UndoPoints (Some Samples.pointer_node)) = true
  /\ (forall n : Z,
        synchronized (PointerBased.DeleteNthPoint (Some Samples.pointer_node) n)
        = true)
  /\ synchronized (PointerBased.ResetPoints (Some Samples.pointer_node)) = true.
Proof.
  exact (@bookkeeping_keeps_lists_aligned R RealScalar.R_scalar
           (Some Samples.pointer_node) eq_refl).
Defined.

(** ** The residual table *)

Section ErrorTable.
Context {F : Type} `{Scalar F}.
Import PointerBased.
Implicit Types (node : frwNode F) (from to : fiducialList F).

Lemma range_length (n : Z) : List.length (range n) = Z.to_nat n.
Proof. unfold range; now rewrite length_map, length_seq. Qed.

Lemma range_nth (n : nat) (i : nat) :
  nth_error (range (Z.of_nat n)) i
  = if Nat.ltb i n then Some (Z.of_nat i) else None.
Proof.
  unfold range; rewrite nth_error_map, Nat2Z.id, nth_error_seq.
  now destruct (Nat.ltb i n).
Qed.

Lemma combine_nth {A B : Type} (l : list A) (l' : list B) (i : nat) :
  nth_error (combine l l') i
  = match nth_error l i, nth_error l' i with
    | Some a, Some b => Some (a, b)
    | _, _ => None
    end.
Proof.
  revert l' i; induction l as [|a l IH]; intros [|b l'] [|i]; simpl;
    trivial; now destruct (nth_error l i).
Qed.

(** The guard of [ComputeErrors], on the lengths. *)
Lemma guard_spec from to :
  (negb (GetNumberOfFiducials from =? GetNumberOfFiducials to)%Z
   || (Z.max (GetNumberOfFiducials from) (GetNumberOfFiducials to) <? 3)%Z)%bool
  = false
  <-> List.length from = List.length to /\ (3 <= List.length from)%nat.
Proof.
  unfold GetNumberOfFiducials.
  rewrite orb_false_iff, negb_false_iff, Z.eqb_eq, Z.ltb_ge; lia.
Qed.

Lemma ComputeErrors_computable from to out probe :
  List.length from = List.length to -> (3 <= List.length from)%nat ->
  ComputeErrors (Some (Build_frwNode (Some from) (Some to) (Some out) probe))
  = map (errorElement out from to) (range (Z.of_nat (List.length from))).
Proof.
  intros Hlen H3; unfold ComputeErrors; simpl.
  rewrite (proj2 (guard_spec from to) (conj Hlen H3)).
  unfold GetNumberOfFiducials; rewrite <- Hlen, Z.max_id; reflexivity.
Qed.

(** One pass of the loop, at an index both lists have. *)
Lemma errorElement_at out from to (i : nat) (f t : fiducial F) :
  nth_error from i = Some f -> nth_error to i = Some t ->
  errorElement out from to (Z.of_nat i)
  = [ Text (label f); Text (label t);
      Number (Distance (position t) (TransformPoint out (position f))) ].
Proof.
  intros Hf Ht.
  assert (i < List.length from)%nat as Lf
    by (apply nth_error_Some; congruence).
  assert (i < List.length to)%nat as Lt
    by (apply nth_error_Some; congruence).
  assert (MarkupExists (Z.of_nat i) from = true) as Mf
    by (apply MarkupExists_iff; lia).
  assert (MarkupExists (Z.of_nat i) to = true) as Mt
    by (apply MarkupExists_iff; lia).
  unfold errorElement, currError, GetNthFiducialLabel,
    GetNthFiducialPosition, GetNumberOfFiducials.
  rewrite Mf, Mt, Nat2Z.id, Hf, Ht.
  replace (Z.of_nat (List.length from) >? Z.of_nat i)%Z with true
    by (symmetry; apply Z.gtb_lt; lia).
  replace (Z.of_nat (List.length to) >? Z.of_nat i)%Z with true
    by (symmetry; apply Z.gtb_lt; lia).
  cbn [andb set_item RESULTS_IMAGE_POINTS_INDEX RESULTS_PROBE_POINTS_INDEX
       RESULTS_ERROR_INDEX].
  unfold Distance, TransformPoint.
  destruct (position f) as [[x y] z].
  destruct (MultiplyPoint out (x, y, z, of_int 1)) as [[[tx ty] tz] tw].
  reflexivity.
Qed.

(** The loop as a whole: the rows pair the two lists entry by entry. *)
Lemma ComputeErrors_rows from to out probe :
  List.length from = List.length to -> (3 <= List.length from)%nat ->
  ComputeErrors (Some (Build_frwNode (Some from) (Some to) (Some out) probe))
  = map (fun pair : fiducial F * fiducial F =>
           [ Text (label (fst pair)); Text (label (snd pair));
             Number (Distance (position (snd pair))
                              (TransformPoint out (position (fst pair)))) ])
        (combine from to).
Proof.
  intros Hlen H3.
  rewrite ComputeErrors_computable by trivial.
  apply nth_error_ext; intros i.
  rewrite !nth_error_map, range_nth, combine_nth.
  destruct (Nat.ltb_spec i (List.length from)) as [Hlt|Hge].
  - destruct (nth_error from i) as [f|] eqn:Ef;
      [|apply nth_error_None in Ef; lia].
    destruct (nth_error to i) as [t|] eqn:Et;
      [|apply nth_error_None in Et; lia].
    simpl; f_equal; now apply errorElement_at.
  - replace (nth_error from i) with (@None (fiducial F)); trivial.
    symmetry; now apply nth_error_None.
Qed.

End ErrorTable.

(** C4.  [ComputeErrors] is a total function to a list of rows: no state
    makes it raise.  It returns rows only on a node whose two lists and
    output transform are there, with lists of one length that is 3 or
    more; in particular lists of unequal length, or with fewer than 3
    pairs, give the empty list. *)
Theorem ComputeErrors_empty_unless_three_pairs :
  forall (F : Type) (num : Scalar F) (frw : option (PointerBased.frwNode F)),
    (PointerBased.ComputeErrors frw <> []
     <-> exists node from to out,
           frw = Some node
           /\ PointerBased.FromFiducialListNode node = Some from
           /\ PointerBased.ToFiducialListNode node = Some to
           /\ PointerBased.OutputTransformNode node = Some out
           /\ List.length from = List.length to
           /\ (3 <= List.length from)%nat)
    /\ (forall node from to,
          frw = Some node ->
          PointerBased.FromFiducialListNode node = Some from ->
          PointerBased.ToFiducialListNode node = Some to ->
          List.length from <> List.length to
          \/ (Nat.min (List.length from) (List.length to) < 3)%nat ->
          PointerBased.ComputeErrors frw = []).
Proof.
  intros F num frw.
  assert (forall node from to out,
            frw = Some node ->
            PointerBased.FromFiducialListNode node = Some from ->
            PointerBased.ToFiducialListNode node = Some to ->
            PointerBased.OutputTransformNode node = Some out ->
            PointerBased.ComputeErrors frw
            = if (negb (GetNumberOfFiducials from =? GetNumberOfFiducials to)%Z
                  || (Z.max (GetNumberOfFiducials from)
                            (GetNumberOfFiducials to) <? 3)%Z)%bool
              then []
              else map (PointerBased.errorElement out from to)
                       (range (Z.max (GetNumberOfFiducials from)
                                     (GetNumberOfFiducials to)))) as Hrun.
  { intros node from to out -> Ef Et Eo.
    unfold PointerBased.ComputeErrors; now rewrite Ef, Et, Eo. }
  split; [split|].
  - intros Hne.
    destruct frw as [node|]; [|now elim Hne].
    destruct (PointerBased.FromFiducialListNode node) as [from|] eqn:Ef;
      [|elim Hne; unfold PointerBased.ComputeErrors; now rewrite Ef].
    destruct (PointerBased.ToFiducialListNode node) as [to|] eqn:Et;
      [|elim Hne; unfold PointerBased.ComputeErrors; now rewrite Ef, Et].
    destruct (PointerBased.OutputTransformNode node) as [out|] eqn:Eo;
      [|elim Hne; unfold PointerBased.ComputeErrors; now rewrite Ef, Et, Eo].
    rewrite (Hrun node from to out eq_refl Ef Et Eo) in Hne.
    destruct (negb _ || _)%bool eqn:G; [now elim Hne|].
    apply guard_spec in G.
    exists node, from, to, out; intuition.
  - intros (node & from & to & out & E & Ef & Et & Eo & Hlen & H3).
    rewrite (Hrun node from to out E Ef Et Eo).
    rewrite (proj2 (guard_spec from to) (conj Hlen H3)).
    intros Hnil; apply (f_equal (@List.length _)) in Hnil.
    rewrite length_map, range_length in Hnil; simpl in Hnil.
    unfold GetNumberOfFiducials in Hnil; lia.
  - intros node from to -> Ef Et Hbad.
    unfold PointerBased.ComputeErrors; rewrite Ef, Et.
    destruct (PointerBased.OutputTransformNode node) as [out|]; trivial.
    destruct (negb _ || _)%bool eqn:G; trivial.
    apply guard_spec in G; lia.
Qed.

(** On the samples: three pairs give three rows; after a point is deleted
    from the probe list alone, or with two pairs, there are none. *)
Example ComputeErrors_on_samples :
  List.length (PointerBased.ComputeErrors (Some Samples.pointer_node)) = 3%nat
  /\ PointerBased.ComputeErrors
       (Some (PointerBased.with_lists Samples.pointer_node
                Samples.image_points (removelast Samples.probe_points)))
     = []
  /\ PointerBased.ComputeErrors
       (PointerBased.UndoPoints (Some Samples.pointer_node))
     = [].
Proof. repeat split. Qed.

(** ** The real reading of the vector operations *)

Section RealVectors.
Import RealScalar.
Local Open Scope R_scope.
Implicit Types p q a b : vec3 R.

Lemma Distance2_sym p q :
  Distance2BetweenPoints p q = Distance2BetweenPoints q p.
Proof.
  destruct p as [[p0 p1] p2], q as [[q0 q1] q2]; simpl; real_ops; ring.
Qed.

Lemma Distance2_nonneg p q : 0 <= Distance2BetweenPoints p q.
Proof.
  destruct p as [[p0 p1] p2], q as [[q0 q1] q2]; simpl; real_ops.
  pose proof (Rle_0_sqr (p0 - q0)); pose proof (Rle_0_sqr (p1 - q1));
    pose proof (Rle_0_sqr (p2 - q2)).
  unfold Rsqr in *; lra.
Qed.

Lemma Distance_sym p q : Distance p q = Distance q p.
Proof. unfold Distance; now rewrite Distance2_sym. Qed.

Lemma Distance_nonneg p q : 0 <= Distance p q.
Proof. unfold Distance; real_ops; apply sqrt_pos. Qed.

End RealVectors.

(** C3.  With two lists of one length, 3 or more, and a stored output
    transform, [ComputeErrors] returns the error records of the pairs in
    the order of the lists: row [i] holds the label of [source[i]], the
    label of [target[i]] and the distance from the transformed
    [source[i]] to [target[i]].  Every number in the error column is 0 or
    more. *)
Theorem ComputeErrors_rows_are_the_residuals :
  forall (source target : fiducialList R) (out : matrix4 R)
         (probe : option (matrix4 R)),
    List.length source = List.length target ->
    (3 <= List.length source)%nat ->
    PointerBased.ComputeErrors
      (Some (PointerBased.Build_frwNode (Some source) (Some target) (Some out)
                                        probe))
    = ErrorRecords out source target
    /\ List.length (ErrorRecords out source target) = List.length source
    /\ (forall (i : nat) (s t : fiducial R),
          nth_error source i = Some s -> nth_error target i = Some t ->
          nth_error (ErrorRecords out source target) i
          = Some [ PointerBased.Text (label s); PointerBased.Text (label t);
                   PointerBased.Number
                     (Distance (TransformPoint out (position s))
                               (position t)) ])
    /\ (forall (row : list (PointerBased.cell R)) (d : R),
          In row (ErrorRecords out source target) ->
          nth_error row PointerBased.RESULTS_ERROR_INDEX
          = Some (PointerBased.Number d) ->
          (0 <= d)%R).
Proof.
  intros source target out probe Hlen H3.
  repeat split.
  - rewrite ComputeErrors_rows by trivial.
    unfold ErrorRecords; apply map_ext; intros [s t].
    unfold ErrorRecord; cbn [fst snd]; now rewrite Distance_sym.
  - unfold ErrorRecords; rewrite length_map, length_combine; lia.
  - intros i s t Hs Ht.
    unfold ErrorRecords; rewrite nth_error_map, combine_nth, Hs, Ht.
    reflexivity.
  - intros row d Hin Hd.
    unfold ErrorRecords in Hin; apply in_map_iff in Hin.
    destruct Hin as ([s t] & <- & _).
    unfold ErrorRecord in Hd; cbn [fst snd nth_error PointerBased.RESULTS_ERROR_INDEX] in Hd.
    injection Hd as <-; apply Distance_nonneg.
Qed.

Lemma ComputeErrors_rows_on_sample :
  PointerBased.ComputeErrors (Some Samples.pointer_node)
  = ErrorRecords Identity Samples.image_points Samples.probe_points
  /\ List.length
       (ErrorRecords Identity Samples.image_points Samples.probe_points)
     = 3%nat.
Proof.
  pose proof (@ComputeErrors_rows_are_the_residuals
                Samples.image_points Samples.probe_points Identity
                (Some Identity) eq_refl (le_n 3)) as (Hrows & Hlen & _).
  split; [exact Hrows | exact Hlen].
Defined.

(** ** The reconstruction of the probe landmarks *)

Section RealGeometry.
Local Open Scope R_scope.
Implicit Types a b c p : vec3 R.

Lemma sum_of_squares_nonneg c : 0 <= sum_of_squares c.
Proof.
  destruct c as [[c0 c1] c2]; simpl.
  pose proof (Rle_0_sqr c0); pose proof (Rle_0_sqr c1);
    pose proof (Rle_0_sqr c2).
  unfold Rsqr in *; lra.
Qed.

Lemma sum_of_squares_zero c : sum_of_squares c = 0 -> c = (0, 0, 0).
Proof.
  destruct c as [[c0 c1] c2]; simpl; intros E.
  pose proof (Rle_0_sqr c0) as H0; pose proof (Rle_0_sqr c1) as H1;
    pose proof (Rle_0_sqr c2) as H2.
  unfold Rsqr in *.
  assert (c0 * c0 = 0) as E0 by lra.
  assert (c1 * c1 = 0) as E1 by lra.
  assert (c2 * c2 = 0) as E2 by lra.
  apply Rsqr_0_uniq in E0, E1, E2; now subst.
Qed.

Lemma Norm_sqrt c : Norm c = sqrt (sum_of_squares c).
Proof. destruct c as [[c0 c1] c2]; reflexivity. Qed.

Lemma Norm_positive c : c <> (0, 0, 0) -> 0 < Norm c.
Proof.
  intros Hc; rewrite Norm_sqrt; apply sqrt_lt_R0.
  destruct (sum_of_squares_nonneg c) as [Hlt|Heq]; trivial.
  elim Hc; now apply sum_of_squares_zero.
Qed.

Lemma Norm_square c : Norm c * Norm c = sum_of_squares c.
Proof. rewrite Norm_sqrt; apply sqrt_sqrt, sum_of_squares_nonneg. Qed.

(** [Normalize] on a vector that is not zero: each entry over the norm. *)
Lemma Normalize_nonzero c :
  c <> (0, 0, 0) ->
  Normalize c
  = (fst (fst c) / Norm c, snd (fst c) / Norm c, snd c / Norm c).
Proof.
  intros Hc; pose proof (Norm_positive Hc) as Hpos.
  unfold Normalize; cbv zeta.
  change (fnonzero (Norm c)) with (RealScalar.nonzero (Norm c)).
  unfold RealScalar.nonzero.
  destruct (Req_dec_T (Norm c) 0) as [E|_]; [lra|].
  now destruct c as [[c0 c1] c2].
Qed.

(** [Normalize] leaves the zero vector as it is. *)
Lemma Normalize_zero : Normalize (0, 0, 0) = ((0, 0, 0) : vec3 R).
Proof.
  unfold Normalize, Norm; real_ops; unfold RealScalar.nonzero.
  replace (0 * 0 + 0 * 0 + 0 * 0) with 0 by ring.
  rewrite sqrt_0.
  destruct (Req_dec_T 0 0) as [_|N]; [reflexivity | now elim N].
Qed.






End RealGeometry.

(** ** What [ComputeCalibration] reads and writes *)

Section CalibrationRuns.
Context {F : Type} `{Scalar F}.
Variable fit : list (vec3 F) -> list (vec3 F) -> matrix4 F.
Import Imageless.
Implicit Types (node : usCalibrationNode F) (l : fiducialList F)
         (a b : fiducial F).
Local Open Scope string_scope.

Lemma two_or_more a b l : (GetNumberOfFiducials (a :: b :: l) <? 2)%Z = false.
Proof. apply Z.ltb_ge; unfold GetNumberOfFiducials; simpl List.length; lia. Qed.

Lemma fewer_than_two l :
  (List.length l < 2)%nat -> (GetNumberOfFiducials l <? 2)%Z = true.
Proof. intros Hl; apply Z.ltb_lt; unfold GetNumberOfFiducials; lia. Qed.

Lemma first_corner a b l (out : vec3 F) :
  GetNthFiducialPosition 0 (a :: b :: l) out = position a.
Proof.
  unfold GetNthFiducialPosition.
  replace (MarkupExists 0 (a :: b :: l)) with true; trivial.
  all: symmetry; apply MarkupExists_iff; simpl List.length; lia.
Qed.

Lemma second_corner a b l (out : vec3 F) :
  GetNthFiducialPosition 1 (a :: b :: l) out = position b.
Proof.
  unfold GetNthFiducialPosition.
  replace (MarkupExists 1 (a :: b :: l)) with true; trivial.
  all: symmetry; apply MarkupExists_iff; simpl List.length; lia.
Qed.

(** With two corners or more on each side, the run is [calibrate] on the
    first two of each side. *)
Lemma ComputeCalibration_on_corners node m1 m2 ml u1 u2 ul :
  MarkedPoints node = Some (m1 :: m2 :: ml) ->
  UnmarkedPoints node = Some (u1 :: u2 :: ul) ->
  ComputeCalibration fit (Some node)
  = calibrate fit node (position m1) (position m2)
              (position u1) (position u2).
Proof.
  intros Em Eu; unfold ComputeCalibration.
  now rewrite Em, Eu, !two_or_more, !first_corner, !second_corner.
Qed.

Lemma ComputeCalibration_few_marked node ml ul :
  MarkedPoints node = Some ml -> UnmarkedPoints node = Some ul ->
  (List.length ml < 2)%nat ->
  ComputeCalibration fit (Some node)
  = Ok (Some (SetOutputMessage node
                "Insufficient number of marked corner points selected.")).
Proof.
  intros Em Eu Hl; unfold ComputeCalibration.
  now rewrite Em, Eu, (fewer_than_two ml Hl).
Qed.

Lemma ComputeCalibration_few_unmarked node m1 m2 ml ul :
  MarkedPoints node = Some (m1 :: m2 :: ml) -> UnmarkedPoints node = Some ul ->
  (List.length ul < 2)%nat ->
  ComputeCalibration fit (Some node)
  = Ok (Some (SetOutputMessage node
                "Insufficient number of unmarked corner points selected.")).
Proof.
  intros Em Eu Hl; unfold ComputeCalibration.
  now rewrite Em, Eu, two_or_more, (fewer_than_two ul Hl).
Qed.

(** The run that goes through: the transform is written, then the
    message. *)
Lemma calibrate_success node c1 c2 c3 c4 (depth : F) img dimX dimY dimZ prior :
  py_float (Depth node) = Ok depth ->
  UltrasoundImage node = Some img ->
  ImageData img = Some (dimX, dimY, dimZ) ->
  dimY <> 0%Z ->
  ImageToProbeTransform node = Some prior ->
  calibrate fit node c1 c2 c3 c4
  = Ok (Some (SetOutputMessage
                (SetMatrixTransformToParent node
                   (imageToProbeMatrix fit (reconstruct c1 c2 c3 c4) depth
                                       (dimX, dimY, dimZ)))
                "Success!")).
Proof.
  intros Ed Eu Ei Hy Et; unfold calibrate.
  rewrite Ed, Eu, Ei, Et.
  now rewrite (proj2 (Z.eqb_neq dimY 0) Hy).
Qed.

(** [calibrate] reads the node through three roles only. *)
Lemma calibrate_frame node node' c1 c2 c3 c4 :
  Depth node = Depth node' ->
  UltrasoundImage node = UltrasoundImage node' ->
  ImageToProbeTransform node = ImageToProbeTransform node' ->
  observe (calibrate fit node c1 c2 c3 c4)
  = observe (calibrate fit node' c1 c2 c3 c4).
Proof.
  intros Ed Eu Et; unfold calibrate; rewrite Ed, Eu, Et.
  destruct (py_float (Depth node')) as [depth|[]]; simpl; rewrite ?Et;
    trivial.
  destruct (UltrasoundImage node') as [img|]; simpl; rewrite ?Et; trivial.
  destruct (ImageData img) as [[[dimX dimY] dimZ]|]; simpl; rewrite ?Et;
    trivial.
  destruct (dimY =? 0)%Z; trivial.
  destruct (ImageToProbeTransform node') eqn:Et'; simpl;
    rewrite ?Et, ?Et'; trivial.
Qed.


End CalibrationRuns.

(** ** Only the first two corners of a side are read *)

Section FirstTwoCorners.
Context {F : Type} `{Scalar F}.
Variable fit : list (vec3 F) -> list (vec3 F) -> matrix4 F.
Import Imageless.
Implicit Types (node : usCalibrationNode F) (l : fiducialList F).
Local Open Scope string_scope.

Lemma corners_too_few l l' :
  corners (Some l) = corners (Some l') ->
  (List.length l < 2)%nat -> (List.length l' < 2)%nat.
Proof.
  destruct l as [|a [|b l]], l' as [|a' [|b' l']]; simpl;
    intros E Hl; try discriminate E; lia.
Qed.

Lemma corners_two_first a b l l' :
  corners (Some (a :: b :: l)) = corners (Some l') ->
  exists a' b' r',
    l' = a' :: b' :: r' /\ position a = position a'
    /\ position b = position b'.
Proof.
  destruct l' as [|a' [|b' r']]; simpl; intros E; try discriminate E.
  injection E as Ea Eb; now exists a', b', r'.
Qed.

Lemma two_first_or_too_few l :
  {a : fiducial F & {b : fiducial F & {r | l = a :: b :: r}}}
  + {(List.length l < 2)%nat}.
Proof.
  destruct l as [|a [|b r]]; [right; simpl; lia | right; simpl; lia | left].
  now exists a, b, r.
Qed.

Lemma ComputeCalibration_reads_first_two node node' :
  corners (MarkedPoints node) = corners (MarkedPoints node') ->
  corners (UnmarkedPoints node) = corners (UnmarkedPoints node') ->
  Depth node = Depth node' ->
  UltrasoundImage node = UltrasoundImage node' ->
  ImageToProbeTransform node = ImageToProbeTransform node' ->
  OutputMessage node = OutputMessage node' ->
  observe (ComputeCalibration fit (Some node))
  = observe (ComputeCalibration fit (Some node')).
Proof.
  intros Hm Hu Ed Ei Et Eo.
  assert (forall msg,
            observe (Ok (Some (SetOutputMessage node msg)))
            = observe (Ok (Some (SetOutputMessage node' msg)))) as Hmsg
    by (intros msg; simpl; now rewrite Et).
  destruct (MarkedPoints node) as [ml|] eqn:Em,
           (MarkedPoints node') as [ml'|] eqn:Em'; try discriminate Hm.
  2: { unfold ComputeCalibration; rewrite Em, Em'; simpl.
       now rewrite Et, Eo. }
  destruct (UnmarkedPoints node) as [ul|] eqn:Eu,
           (UnmarkedPoints node') as [ul'|] eqn:Eu'; try discriminate Hu.
  2: { unfold ComputeCalibration; rewrite Em, Em', Eu, Eu'; simpl.
       now rewrite Et, Eo. }
  destruct (two_first_or_too_few ml) as [(m1 & m2 & mr & ->)|Hml].
  - destruct (corners_two_first Hm) as (m1' & m2' & mr' & -> & Hm1 & Hm2).
    destruct (two_first_or_too_few ul) as [(u1 & u2 & ur & ->)|Hul].
    + destruct (corners_two_first Hu) as (u1' & u2' & ur' & -> & Hu1 & Hu2).
      rewrite (ComputeCalibration_on_corners fit node Em Eu).
      rewrite (ComputeCalibration_on_corners fit node' Em' Eu').
      rewrite Hm1, Hm2, Hu1, Hu2.
      now apply calibrate_frame.
    + pose proof (corners_too_few Hu Hul) as Hul'.
      rewrite (ComputeCalibration_few_unmarked fit node Em Eu Hul).
      rewrite (ComputeCalibration_few_unmarked fit node' Em' Eu' Hul').
      apply Hmsg.
  - (* fewer than two marked corners, on both nodes *)
    pose proof (corners_too_few Hm Hml) as Hml'.
    rewrite (ComputeCalibration_few_marked fit node Em Eu Hml).
    rewrite (ComputeCalibration_few_marked fit node' Em' Eu' Hml').
    apply Hmsg.
Qed.

(** A point selected when the side has its two corners is appended, with
    the warning, and the next run does not see it. *)
Lemma SelectMarkedPoint_beyond_two (newLabel : string) node m1 m2 ml :
  MarkedPoints node = Some (m1 :: m2 :: ml) ->
  snd (SelectMarkedPoint newLabel (Some node)) = [points_not_used]
  /\ exists node',
       fst (SelectMarkedPoint newLabel (Some node)) = Some node'
       /\ MarkedPoints node'
          = Some (AddFiducial newLabel (StylusTipToProbeTransform node)
                              (m1 :: m2 :: ml))
       /\ observe (ComputeCalibration fit (Some node'))
          = observe (ComputeCalibration fit (Some node)).
Proof.
  intros Em; unfold SelectMarkedPoint; rewrite Em.
  replace (GetNumberOfFiducials (m1 :: m2 :: ml) >=? 2)%Z with true
    by (symmetry; apply Z.geb_le; unfold GetNumberOfFiducials;
        simpl List.length; lia).
  split; [reflexivity|].
  eexists; split; [reflexivity|]; split; [reflexivity|].
  apply ComputeCalibration_reads_first_two; trivial.
  cbn [MarkedPoints SetMarkedPoints]; rewrite Em.
  unfold AddFiducial; now destruct (StylusTipToProbeTransform node).
Qed.

End FirstTwoCorners.

(** C10.  Two calibration nodes that agree on the positions of the first
    two marked corners, of the first two unmarked corners, on the depth,
    the image and what the output holds, and differ in the corners from
    index 2 on, give the same run of [ComputeCalibration]: the same
    status message and the same output transform, or the same
    exception. *)
Theorem corners_beyond_the_first_two_are_ignored :
  forall (F : Type) (num : Scalar F)
         (fit : list (vec3 F) -> list (vec3 F) -> matrix4 F)
         (node node' : Imageless.usCalibrationNode F),
    corners (Imageless.MarkedPoints node)
    = corners (Imageless.MarkedPoints node') ->
    corners (Imageless.UnmarkedPoints node)
    = corners (Imageless.UnmarkedPoints node') ->
    Imageless.Depth node = Imageless.Depth node' ->
    Imageless.UltrasoundImage node = Imageless.UltrasoundImage node' ->
    Imageless.ImageToProbeTransform node
    = Imageless.ImageToProbeTransform node' ->
    Imageless.OutputMessage node = Imageless.OutputMessage node' ->
    observe (Imageless.ComputeCalibration fit (Some node))
    = observe (Imageless.ComputeCalibration fit (Some node')).
Proof.
  intros F num fit node node'; apply ComputeCalibration_reads_first_two.
Qed.

Lemma corners_beyond_the_first_two_on_sample :
  observe (Imageless.ComputeCalibration Samples.identity_solver
             (Some (Samples.imageless_node Samples.marked_corners
                      Samples.unmarked_corners (Some "100"%string))))
  = observe (Imageless.ComputeCalibration Samples.identity_solver
               (Some (Samples.imageless_node Samples.marked_corners_and_more
                        Samples.unmarked_corners_and_more
                        (Some "100"%string)))).
Proof.
  exact (@corners_beyond_the_first_two_are_ignored R _ Samples.identity_solver
           (Samples.imageless_node Samples.marked_corners
              Samples.unmarked_corners (Some "100"%string))
           (Samples.imageless_node Samples.marked_corners_and_more
              Samples.unmarked_corners_and_more (Some "100"%string))
           eq_refl eq_refl eq_refl eq_refl eq_refl eq_refl).
Defined.

(** ** The depth attribute *)

Section DepthAttribute.
Local Open Scope string_scope.
Local Open Scope R_scope.

Lemma parse_minus_five : PyFloat.parse "-5" = Some (Decimal true 5 0).
Proof. vm_compute; reflexivity. Qed.

Lemma parse_abc : PyFloat.parse "abc" = None.
Proof. vm_compute; reflexivity. Qed.


Lemma parse_hundred : PyFloat.parse "100" = Some (Decimal false 100 0).
Proof. vm_compute; reflexivity. Qed.

Lemma float_minus_five : py_float (Some "-5") = Ok (-5).
Proof.
  unfold py_float; rewrite parse_minus_five; f_equal.
  real_ops; unfold RealScalar.real_of_literal, RealScalar.real_of_decimal; simpl.
  lra.
Qed.

Lemma float_abc : py_float (F := R) (Some "abc") = Raise ValueError.
Proof. unfold py_float; now rewrite parse_abc. Qed.


Lemma float_hundred : py_float (Some "100") = Ok 100.
Proof.
  unfold py_float; rewrite parse_hundred; f_equal.
  real_ops; unfold RealScalar.real_of_literal, RealScalar.real_of_decimal; simpl.
  lra.
Qed.

End DepthAttribute.

Section DepthIsNotChecked.
Import Imageless.
Local Open Scope string_scope.

Lemma sample_success (fit : list (vec3 R) -> list (vec3 R) -> matrix4 R)
    (marked unmarked : fiducialList R) (text : string) (depth : R)
    m1 m2 ml u1 u2 ul :
  marked = m1 :: m2 :: ml -> unmarked = u1 :: u2 :: ul ->
  py_float (Some text) = Ok depth ->
  ComputeCalibration fit
    (Some (Samples.imageless_node marked unmarked (Some text)))
  = Ok (Some (SetOutputMessage
                (SetMatrixTransformToParent
                   (Samples.imageless_node marked unmarked (Some text))
                   (imageToProbeMatrix fit
                      (reconstruct (position m1) (position m2)
                                   (position u1) (position u2))
                      depth (400, 500, 1)%Z))
                "Success!")).
Proof.
  intros -> -> Hd.
  set (node := Samples.imageless_node (m1 :: m2 :: ml) (u1 :: u2 :: ul)
                                      (Some text)).
  rewrite (@ComputeCalibration_on_corners R _ fit node
             m1 m2 ml u1 u2 ul eq_refl eq_refl).
  apply (@calibrate_success R _ fit node _ _ _ _ depth
           Samples.image_400_500
           400%Z 500%Z 1%Z Identity Hd eq_refl eq_refl);
    [discriminate | reflexivity].
Qed.

End DepthIsNotChecked.

(** The claim C5 fails as stated: the text "-5" is the number -5, which
    is no non-negative number, and the run goes through to "Success!" and
    writes the output transform, whatever the solver; the text "abc" is no
    number at all, and the run ends in a ValueError. *)
Lemma depth_is_not_checked_counterexample :
  py_float (Some "-5"%string) = Ok (-5)%R
  /\ (forall fit : list (vec3 R) -> list (vec3 R) -> matrix4 R,
      exists written : matrix4 R,
        observe (Imageless.ComputeCalibration fit
                   (Some (Samples.imageless_node Samples.marked_corners
                            Samples.unmarked_corners (Some "-5"%string))))
        = Ok (Some (Some "Success!"%string, Some written)))
  /\ PyFloat.parse "abc" = None
  /\ (forall fit : list (vec3 R) -> list (vec3 R) -> matrix4 R,
        Imageless.ComputeCalibration fit
          (Some (Samples.imageless_node Samples.marked_corners
                   Samples.unmarked_corners (Some "abc"%string)))
        = Raise ValueError).
Proof.
  split; [exact float_minus_five|]; split; [|split; [exact parse_abc|]].
  - intros fit; eexists.
    rewrite (@sample_success fit Samples.marked_corners
               Samples.unmarked_corners "-5"%string (-5)%R _ _ _ _ _ _
               eq_refl eq_refl float_minus_five).
    reflexivity.
  - intros fit.
    rewrite (@ComputeCalibration_on_corners R _ fit
               (Samples.imageless_node Samples.marked_corners
                  Samples.unmarked_corners (Some "abc"%string))
               _ _ _ _ _ _ eq_refl eq_refl).
    unfold Imageless.calibrate.
    change (Imageless.Depth _) with (Some "abc"%string).
    now rewrite float_abc.
Qed.

(** C5, as the code has it.  With both corner pairs there and the depth
    attribute missing, [ComputeCalibration] returns, the status is "Depth
    improperly specified." and the output transform is the one from
    before.  A depth attribute that is a number, of either sign, is taken
    as the depth.  No run with it ends in that status; and with an image
    whose height is not 0 and an output transform node, the run reports
    "Success!" and the matrix it writes is made with that number: the
    scale is the number over the height, the image landmarks reach down
    to the number on the y axis, and each far landmark is the near
    landmark moved by the number along the depth direction of its side. *)
Theorem missing_depth_is_reported :
  forall (F : Type) (num : Scalar F)
         (fit : list (vec3 F) -> list (vec3 F) -> matrix4 F)
         (node : Imageless.usCalibrationNode F)
         (m1 m2 u1 u2 : fiducial F) (ml ul : fiducialList F),
    Imageless.MarkedPoints node = Some (m1 :: m2 :: ml) ->
    Imageless.UnmarkedPoints node = Some (u1 :: u2 :: ul) ->
    (Imageless.Depth node = None ->
     Imageless.ComputeCalibration fit (Some node)
     = Ok (Some (Imageless.SetOutputMessage node
                   "Depth improperly specified."%string))
     /\ Imageless.ImageToProbeTransform
          (Imageless.SetOutputMessage node
             "Depth improperly specified."%string)
        = Imageless.ImageToProbeTransform node)
    /\ (forall (depth : F) (node' : Imageless.usCalibrationNode F),
          py_float (Imageless.Depth node) = Ok depth ->
          Imageless.ComputeCalibration fit (Some node) = Ok (Some node') ->
          Imageless.OutputMessage node'
          <> Some "Depth improperly specified."%string)
    /\ (forall (depth : F) (img : Imageless.usImageNode) (dimX dimY dimZ : Z)
               (prior : matrix4 F),
          py_float (Imageless.Depth node) = Ok depth ->
          Imageless.UltrasoundImage node = Some img ->
          Imageless.ImageData img = Some (dimX, dimY, dimZ) ->
          dimY <> 0%Z ->
          Imageless.ImageToProbeTransform node = Some prior ->
          let r := Imageless.reconstruct (position m1) (position m2)
                                         (position u1) (position u2) in
          let scale := (depth / of_int dimY)%sc in
          observe (Imageless.ComputeCalibration fit (Some node))
          = Ok (Some
                  (Some "Success!"%string,
                   Some (Multiply4x4
                           (fit [ (of_int 0, of_int 0, of_int 0);
                                  ((of_int dimX * scale)%sc, of_int 0,
                                   of_int 0);
                                  (of_int 0, depth, of_int 0);
                                  ((of_int dimX * scale)%sc, depth,
                                   of_int 0) ]
                                [ Imageless.unmarkedNearPoint r;
                                  Imageless.markedNearPoint r;
                                  Add (Imageless.unmarkedNearPoint r)
                                      (MultiplyScalar
                                         (Imageless.unmarkedFarVector r)
                                         depth);
                                  Add (Imageless.markedNearPoint r)
                                      (MultiplyScalar
                                         (Imageless.markedFarVector r)
                                         depth) ])
                           (ScaleMatrix scale scale scale))))).
Proof.
  intros F num fit node m1 m2 u1 u2 ml ul Em Eu.
  rewrite (ComputeCalibration_on_corners fit node Em Eu).
  split; [|split].
  - unfold Imageless.calibrate; intros ->; split; reflexivity.
  - unfold Imageless.calibrate; intros depth node' ->.
    destruct (Imageless.UltrasoundImage node) as [img|];
      [|intros [= <-]; discriminate].
    destruct (Imageless.ImageData img) as [[[dimX dimY] dimZ]|];
      [|intros [= <-]; discriminate].
    destruct (dimY =? 0)%Z; [discriminate|].
    destruct (Imageless.ImageToProbeTransform node);
      intros [= <-]; discriminate.
  - intros depth img dimX dimY dimZ prior Ed Ei Edim Hy Et r scale.
    rewrite (calibrate_success fit node _ _ _ _ Ed Ei Edim Hy Et).
    reflexivity.
Qed.

Lemma missing_depth_is_reported_on_sample :
  Imageless.ComputeCalibration Samples.identity_solver
    (Some (Samples.imageless_node Samples.marked_corners
             Samples.unmarked_corners None))
  = Ok (Some (Imageless.SetOutputMessage
                (Samples.imageless_node Samples.marked_corners
                   Samples.unmarked_corners None)
                "Depth improperly specified."%string)).
Proof.
  exact (proj1 (proj1 (@missing_depth_is_reported R _ Samples.identity_solver
                         (Samples.imageless_node Samples.marked_corners
                            Samples.unmarked_corners None)
                         _ _ _ _ _ _ eq_refl eq_refl) eq_refl)).
Defined.

(** ** Degenerate corners *)

Section CornersOnALine.
Import Imageless.
Local Open Scope R_scope.




End CornersOnALine.

Section NoDegeneracyCheck.
Context {F : Type} `{Scalar F}.
Variable fit : list (vec3 F) -> list (vec3 F) -> matrix4 F.
Import Imageless.
Local Open Scope string_scope.


End NoDegeneracyCheck.




(** ** The pixel scale and the image landmarks *)

(** C2.  On a run with an image of [height_px] > 0 rows, the scale from
    pixels to millimetres is the depth over [height_px], and the source
    landmarks handed to the solver are (0,0,0), (width_px*scale,0,0),
    (0,depth,0) and (width_px*scale,depth,0): the output holds the solver's
    matrix for these and the probe landmarks, times the uniform scaling.
    For a depth of 100 and 400 by 500 pixels the scale is 0.2 and the
    landmarks are (0,0,0), (80,0,0), (0,100,0), (80,100,0). *)
Theorem scale_is_depth_over_height :
  forall (fit : list (vec3 R) -> list (vec3 R) -> matrix4 R)
         (node : Imageless.usCalibrationNode R)
         (m1 m2 u1 u2 : fiducial R) (ml ul : fiducialList R)
         (depth : R) (img : Imageless.usImageNode)
         (width_px height_px dimZ : Z) (prior : matrix4 R),
    Imageless.MarkedPoints node = Some (m1 :: m2 :: ml) ->
    Imageless.UnmarkedPoints node = Some (u1 :: u2 :: ul) ->
    py_float (Imageless.Depth node) = Ok depth ->
    Imageless.UltrasoundImage node = Some img ->
    Imageless.ImageData img = Some (width_px, height_px, dimZ) ->
    (0 < height_px)%Z ->
    Imageless.ImageToProbeTransform node = Some prior ->
    Imageless.pixelsToMmScale depth (width_px, height_px, dimZ)
    = (depth / IZR height_px)%R
    /\ Imageless.imagePoints_ImageMm depth (width_px, height_px, dimZ)
       = [ (0, 0, 0); (IZR width_px * (depth / IZR height_px), 0, 0);
           (0, depth, 0); (IZR width_px * (depth / IZR height_px), depth, 0)
         ]%R
    /\ observe (Imageless.ComputeCalibration fit (Some node))
       = Ok (Some
               (Some "Success!"%string,
                Some (Multiply4x4
                        (fit [ (0, 0, 0);
                               (IZR width_px * (depth / IZR height_px), 0, 0);
                               (0, depth, 0);
                               (IZR width_px * (depth / IZR height_px),
                                depth, 0) ]%R
                             (Imageless.probePoints
                                (Imageless.reconstruct
                                   (position m1) (position m2)
                                   (position u1) (position u2))
                                depth))
                        (ScaleMatrix (depth / IZR height_px)
                                     (depth / IZR height_px)
                                     (depth / IZR height_px))%R)))
    /\ Imageless.pixelsToMmScale 100%R (400, 500, dimZ)%Z = 0.2%R
    /\ Imageless.imagePoints_ImageMm 100%R (400, 500, dimZ)%Z
       = [ (0, 0, 0); (80, 0, 0); (0, 100, 0); (80, 100, 0) ]%R.
Proof.
  intros fit node m1 m2 u1 u2 ml ul depth img width_px height_px dimZ prior
         Em Eu Ed Ei Edim Hy Et.
  split; [reflexivity|]; split; [reflexivity|]; split; [|split].
  - rewrite (ComputeCalibration_on_corners fit node Em Eu).
    rewrite (calibrate_success fit node _ _ _ _ Ed Ei Edim
               (not_eq_sym (Z.lt_neq _ _ Hy)) Et).
    reflexivity.
  - unfold Imageless.pixelsToMmScale; real_ops; lra.
  - unfold Imageless.imagePoints_ImageMm, Imageless.pixelsToMmScale.
    real_ops; vec_eq; lra.
Qed.

Lemma scale_is_depth_over_height_on_sample :
  Imageless.pixelsToMmScale 100%R (400, 500, 1)%Z = (100 / 500)%R
  /\ Imageless.imagePoints_ImageMm 100%R (400, 500, 1)%Z
     = [ (0, 0, 0); (80, 0, 0); (0, 100, 0); (80, 100, 0) ]%R.
Proof.
  pose proof (@scale_is_depth_over_height Samples.identity_solver
                (Samples.imageless_node Samples.marked_corners
                   Samples.unmarked_corners (Some "100"%string))
                _ _ _ _ _ _ 100%R Samples.image_400_500 400%Z 500%Z 1%Z
                Identity eq_refl eq_refl float_hundred eq_refl eq_refl
                eq_refl eq_refl) as (Hscale & _ & _ & _ & Hpoints).
  split; [exact Hscale | exact Hpoints].
Defined.

Section Binary64.
Import PrimFloat.

(** The same numbers on binary64: 100 / 500 is the float nearest to 0.2,
    and 400 times it is the float 80. *)
Example scale_on_binary64 :
  Imageless.pixelsToMmScale 100%float (400, 500, 1)%Z
  = 0x1.999999999999ap-3%float
  /\ Imageless.imagePoints_ImageMm 100%float (400, 500, 1)%Z
     = [ (0, 0, 0); (80, 0, 0); (0, 100, 0); (80, 100, 0) ]%float.
Proof. split; vm_compute; reflexivity. Qed.

(** The conversions round once, to the nearest binary64 number: an int
    above 2^53, a literal of seventeen digits, and the depth texts of the
    samples. *)
Example conversions_on_binary64 :
  FloatScalar.float_of_Z 18014398509481987 = 18014398509481988%float
  /\ py_float (Some "449.49106478873813"%string)
     = Ok 0x1.c17db66c07d8fp+8%float
  /\ py_float (Some "100"%string) = Ok 100%float
  /\ py_float (Some "-5"%string) = Ok (-5)%float.
Proof. repeat split; vm_compute; reflexivity. Qed.

End Binary64.

(** ** The geometry of the probe landmarks *)



(** * Further properties of the calibration run *)

Section RunsOfComputeCalibration.
Context {F : Type} `{Scalar F}.
Variable fit : list (vec3 F) -> list (vec3 F) -> matrix4 F.
Import Imageless.
Implicit Types (node : usCalibrationNode F) (l ml ul : fiducialList F).
Local Open Scope string_scope.

Lemma calibrate_again node c1 c2 c3 c4 node' :
  calibrate fit node c1 c2 c3 c4 = Ok (Some node') ->
  calibrate fit node' c1 c2 c3 c4 = Ok (Some node').
Proof.
  unfold calibrate; intros E.
  destruct (py_float (Depth node)) as [depth|[]] eqn:Ed; try discriminate E.
  2: { injection E as <-; cbn [Depth SetOutputMessage]; now rewrite Ed. }
  destruct (UltrasoundImage node) as [img|] eqn:Ei.
  2: { injection E as <-; cbn [Depth UltrasoundImage SetOutputMessage].
       now rewrite Ed, Ei. }
  destruct (ImageData img) as [[[dimX dimY] dimZ]|] eqn:Edim.
  2: { injection E as <-; cbn [Depth UltrasoundImage SetOutputMessage].
       now rewrite Ed, Ei, Edim. }
  destruct (dimY =? 0)%Z eqn:Ey; try discriminate E.
  destruct (ImageToProbeTransform node) as [prior|] eqn:Et.
  - injection E as <-.
    cbn [Depth UltrasoundImage ImageToProbeTransform SetOutputMessage
         SetMatrixTransformToParent].
    now rewrite Ed, Ei, Edim, Ey.
  - injection E as <-.
    cbn [Depth UltrasoundImage ImageToProbeTransform SetOutputMessage].
    now rewrite Ed, Ei, Edim, Ey, Et.
Qed.

Lemma ComputeCalibration_again node r :
  ComputeCalibration fit (Some node) = Ok r ->
  ComputeCalibration fit r = Ok r.
Proof.
  destruct (MarkedPoints node) as [ml|] eqn:Em.
  2: { unfold ComputeCalibration at 1; rewrite Em; intros [= <-].
       unfold ComputeCalibration; now rewrite Em. }
  destruct (UnmarkedPoints node) as [ul|] eqn:Eu.
  2: { unfold ComputeCalibration at 1; rewrite Em, Eu; intros [= <-].
       unfold ComputeCalibration; now rewrite Em, Eu. }
  destruct (two_first_or_too_few ml) as [(m1 & m2 & mr & ->)|Hml].
  - destruct (two_first_or_too_few ul) as [(u1 & u2 & ur & ->)|Hul].
    + rewrite (ComputeCalibration_on_corners fit node Em Eu).
      intros E.
      destruct r as [node'|].
      * assert (MarkedPoints node' = Some (m1 :: m2 :: mr)
                /\ UnmarkedPoints node' = Some (u1 :: u2 :: ur)) as [Em' Eu'].
        { revert E; unfold calibrate.
          destruct (py_float (Depth node)) as [depth|[]]; try discriminate;
            [|now intros [= <-]].
          destruct (UltrasoundImage node) as [img|]; [|now intros [= <-]].
          destruct (ImageData img) as [[[dimX dimY] dimZ]|];
            [|now intros [= <-]].
          destruct (dimY =? 0)%Z; try discriminate.
          destruct (ImageToProbeTransform node); now intros [= <-]. }
        rewrite (ComputeCalibration_on_corners fit node' Em' Eu').
        exact (calibrate_again node _ _ _ _ E).
      * exfalso; revert E; unfold calibrate.
        destruct (py_float (Depth node)) as [depth|[]]; try discriminate.
        destruct (UltrasoundImage node) as [img|]; try discriminate.
        destruct (ImageData img) as [[[dimX dimY] dimZ]|]; try discriminate.
        destruct (dimY =? 0)%Z; try discriminate.
        destruct (ImageToProbeTransform node); discriminate.
    + rewrite (ComputeCalibration_few_unmarked fit node Em Eu Hul).
      intros [= <-].
      now rewrite (ComputeCalibration_few_unmarked fit
                     (SetOutputMessage node
                        "Insufficient number of unmarked corner points selected.")
                     Em Eu Hul).
  - rewrite (ComputeCalibration_few_marked fit node Em Eu Hml).
    intros [= <-].
    now rewrite (ComputeCalibration_few_marked fit
                   (SetOutputMessage node
                      "Insufficient number of marked corner points selected.")
                   Em Eu Hml).
Qed.

End RunsOfComputeCalibration.

(** X1.  A second run of [ComputeCalibration] on the node the first run
    left changes nothing: the node is a fixed point.  This is what stops
    the chain of ModifiedEvent notifications the run itself causes. *)
Theorem ComputeCalibration_is_idempotent :
  forall (F : Type) (num : Scalar F)
         (fit : list (vec3 F) -> list (vec3 F) -> matrix4 F)
         (node : Imageless.usCalibrationNode F)
         (after : option (Imageless.usCalibrationNode F)),
    Imageless.ComputeCalibration fit (Some node) = Ok after ->
    Imageless.ComputeCalibration fit after = Ok after.
Proof. intros F num fit node after; apply ComputeCalibration_again. Qed.

Lemma ComputeCalibration_is_idempotent_on_sample :
  Imageless.ComputeCalibration Samples.identity_solver
    (Some (Imageless.SetOutputMessage
             (Imageless.SetMatrixTransformToParent
                (Samples.imageless_node Samples.marked_corners
                   Samples.unmarked_corners (Some "100"%string))
                (Imageless.imageToProbeMatrix Samples.identity_solver
                   Samples.reconstruction_of_footprint 100%R (400, 500, 1)%Z))
             "Success!"%string))
  = Ok (Some (Imageless.SetOutputMessage
                (Imageless.SetMatrixTransformToParent
                   (Samples.imageless_node Samples.marked_corners
                      Samples.unmarked_corners (Some "100"%string))
                   (Imageless.imageToProbeMatrix Samples.identity_solver
                      Samples.reconstruction_of_footprint 100%R
                      (400, 500, 1)%Z))
                "Success!"%string)).
Proof.
  exact (@ComputeCalibration_is_idempotent R _ Samples.identity_solver
           (Samples.imageless_node Samples.marked_corners
              Samples.unmarked_corners (Some "100"%string))
           _
           (@sample_success Samples.identity_solver Samples.marked_corners
              Samples.unmarked_corners "100"%string 100%R _ _ _ _ _ _
              eq_refl eq_refl float_hundred)).
Defined.

Section StatusOfARun.
Context {F : Type} `{Scalar F}.
Variable fit : list (vec3 F) -> list (vec3 F) -> matrix4 F.
Import Imageless.
Implicit Types (node : usCalibrationNode F) (ml ul : fiducialList F).
Local Open Scope string_scope.

Lemma calibrate_success_inv node c1 c2 c3 c4 node' :
  calibrate fit node c1 c2 c3 c4 = Ok (Some node') ->
  OutputMessage node' = Some "Success!" ->
  (exists depth, py_float (Depth node) = Ok depth)
  /\ (exists img dimX dimY dimZ,
        UltrasoundImage node = Some img
        /\ ImageData img = Some (dimX, dimY, dimZ) /\ dimY <> 0%Z)
  /\ ImageToProbeTransform node <> None.
Proof.
  unfold calibrate; intros E Hs.
  destruct (py_float (Depth node)) as [depth|[]]; try discriminate E.
  2: { injection E as <-; discriminate Hs. }
  destruct (UltrasoundImage node) as [img|];
    [|injection E as <-; discriminate Hs].
  destruct (ImageData img) as [[[dimX dimY] dimZ]|] eqn:Edim;
    [|injection E as <-; discriminate Hs].
  destruct (dimY =? 0)%Z eqn:Ey; try discriminate E.
  destruct (ImageToProbeTransform node);
    [|injection E as <-; discriminate Hs].
  split; [now exists depth|]; split; [|discriminate].
  exists img, dimX, dimY, dimZ; repeat split; trivial.
  now apply Z.eqb_neq.
Qed.

Lemma success_iff node ml ul :
  MarkedPoints node = Some ml -> UnmarkedPoints node = Some ul ->
  (exists node',
      ComputeCalibration fit (Some node) = Ok (Some node')
      /\ OutputMessage node' = Some "Success!")
  <-> (2 <= List.length ml)%nat /\ (2 <= List.length ul)%nat
      /\ (exists depth, py_float (Depth node) = Ok depth)
      /\ (exists img dimX dimY dimZ,
            UltrasoundImage node = Some img
            /\ ImageData img = Some (dimX, dimY, dimZ) /\ dimY <> 0%Z)
      /\ ImageToProbeTransform node <> None.
Proof.
  intros Em Eu; split.
  - intros (node' & E & Hs).
    destruct (two_first_or_too_few ml) as [(m1 & m2 & mr & ->)|Hml].
    2: { rewrite (ComputeCalibration_few_marked fit node Em Eu Hml) in E.
         injection E as <-; discriminate Hs. }
    destruct (two_first_or_too_few ul) as [(u1 & u2 & ur & ->)|Hul].
    2: { rewrite (ComputeCalibration_few_unmarked fit node Em Eu Hul) in E.
         injection E as <-; discriminate Hs. }
    rewrite (ComputeCalibration_on_corners fit node Em Eu) in E.
    split; [simpl; lia|]; split; [simpl; lia|].
    exact (calibrate_success_inv node _ _ _ _ E Hs).
  - intros (Hml & Hul & (depth & Ed) & (img & dimX & dimY & dimZ & Ei & Edim & Hy)
            & Ht).
    destruct ml as [|m1 [|m2 mr]]; simpl in Hml; try lia.
    destruct ul as [|u1 [|u2 ur]]; simpl in Hul; try lia.
    destruct (ImageToProbeTransform node) as [prior|] eqn:Et;
      [|now elim Ht].
    rewrite (ComputeCalibration_on_corners fit node Em Eu).
    rewrite (calibrate_success fit node _ _ _ _ Ed Ei Edim Hy Et).
    eexists; split; reflexivity.
Qed.

Lemma no_rows_raise node m1 m2 ml u1 u2 ul (depth : F) img dimX dimZ :
  MarkedPoints node = Some (m1 :: m2 :: ml) ->
  UnmarkedPoints node = Some (u1 :: u2 :: ul) ->
  py_float (Depth node) = Ok depth ->
  UltrasoundImage node = Some img ->
  ImageData img = Some (dimX, 0%Z, dimZ) ->
  ComputeCalibration fit (Some node) = Raise ZeroDivisionError.
Proof.
  intros Em Eu Ed Ei Edim.
  rewrite (ComputeCalibration_on_corners fit node Em Eu).
  unfold calibrate; now rewrite Ed, Ei, Edim.
Qed.

Lemma corners_come_first node ml ul :
  MarkedPoints node = Some ml -> UnmarkedPoints node = Some ul ->
  (List.length ml < 2)%nat \/ (List.length ul < 2)%nat ->
  ComputeCalibration fit (Some node)
  = Ok (Some (SetOutputMessage node
                (if Nat.ltb (List.length ml) 2
                 then "Insufficient number of marked corner points selected."
                 else "Insufficient number of unmarked corner points selected."))).
Proof.
  intros Em Eu Hfew.
  destruct (Nat.ltb_spec (List.length ml) 2) as [Hml|Hml].
  - apply (ComputeCalibration_few_marked fit node Em Eu Hml).
  - destruct Hfew as [Hfew|Hul]; [lia|].
    destruct ml as [|m1 [|m2 mr]]; simpl in Hml; try lia.
    apply (ComputeCalibration_few_unmarked fit node Em Eu Hul).
Qed.

End StatusOfARun.

(** X2.  On a node with both corner lists, a run ends in "Success!"
    exactly when each list holds two corners or more, the depth attribute
    is a number, an image with a height other than 0 is there and an
    output transform node is set. *)
Theorem success_exactly_when_inputs_are_in_place :
  forall (F : Type) (num : Scalar F)
         (fit : list (vec3 F) -> list (vec3 F) -> matrix4 F)
         (node : Imageless.usCalibrationNode F) (ml ul : fiducialList F),
    Imageless.MarkedPoints node = Some ml ->
    Imageless.UnmarkedPoints node = Some ul ->
    (exists node',
        Imageless.ComputeCalibration fit (Some node) = Ok (Some node')
        /\ Imageless.OutputMessage node' = Some "Success!"%string)
    <-> (2 <= List.length ml)%nat /\ (2 <= List.length ul)%nat
        /\ (exists depth, py_float (Imageless.Depth node) = Ok depth)
        /\ (exists img dimX dimY dimZ,
              Imageless.UltrasoundImage node = Some img
              /\ Imageless.ImageData img = Some (dimX, dimY, dimZ)
              /\ dimY <> 0%Z)
        /\ Imageless.ImageToProbeTransform node <> None.
Proof. intros F num fit node ml ul; apply success_iff. Qed.

Lemma success_exactly_when_inputs_are_in_place_on_sample :
  exists node',
    Imageless.ComputeCalibration Samples.identity_solver
      (Some (Samples.imageless_node Samples.marked_corners
               Samples.unmarked_corners (Some "100"%string)))
    = Ok (Some node')
    /\ Imageless.OutputMessage node' = Some "Success!"%string.
Proof.
  apply (proj2 (@success_exactly_when_inputs_are_in_place R _
                  Samples.identity_solver
                  (Samples.imageless_node Samples.marked_corners
                     Samples.unmarked_corners (Some "100"%string))
                  Samples.marked_corners Samples.unmarked_corners
                  eq_refl eq_refl)).
  split; [apply le_n|]; split; [apply le_n|]; split; [|split].
  - exists 100%R; exact float_hundred.
  - exists Samples.image_400_500, 400%Z, 500%Z, 1%Z.
    split; [reflexivity|]; split; [reflexivity|discriminate].
  - discriminate.
Defined.

(** X3.  With both corner pairs there, a depth that is a number and an
    image whose height is 0 pixels, the run ends in a ZeroDivisionError,
    whether an output transform is set or not: the division comes before
    that check, and no status is written. *)
Theorem image_without_rows_raises :
  forall (F : Type) (num : Scalar F)
         (fit : list (vec3 F) -> list (vec3 F) -> matrix4 F)
         (node : Imageless.usCalibrationNode F)
         (m1 m2 u1 u2 : fiducial F) (ml ul : fiducialList F)
         (depth : F) (img : Imageless.usImageNode) (dimX dimZ : Z),
    Imageless.MarkedPoints node = Some (m1 :: m2 :: ml) ->
    Imageless.UnmarkedPoints node = Some (u1 :: u2 :: ul) ->
    py_float (Imageless.Depth node) = Ok depth ->
    Imageless.UltrasoundImage node = Some img ->
    Imageless.ImageData img = Some (dimX, 0%Z, dimZ) ->
    Imageless.ComputeCalibration fit (Some node) = Raise ZeroDivisionError.
Proof.
  intros F num fit node m1 m2 u1 u2 ml ul depth img dimX dimZ.
  apply no_rows_raise.
Qed.

Lemma image_without_rows_raises_on_sample :
  Imageless.ComputeCalibration Samples.identity_solver
    (Some Samples.node_without_rows)
  = Raise ZeroDivisionError.
Proof.
  exact (@image_without_rows_raises R _ Samples.identity_solver
           Samples.node_without_rows _ _ _ _ _ _ 100%R
           Samples.image_without_rows 400%Z 1%Z
           eq_refl eq_refl float_hundred eq_refl eq_refl).
Defined.

(** X4.  While a side has fewer than two corners the run returns with the
    status of the first such side, marked before unmarked, and reads
    nothing else: whatever the depth attribute, the image and the output
    are, no exception is raised and the output transform stays. *)
Theorem missing_corners_are_reported_first :
  forall (F : Type) (num : Scalar F)
         (fit : list (vec3 F) -> list (vec3 F) -> matrix4 F)
         (node : Imageless.usCalibrationNode F) (ml ul : fiducialList F),
    Imageless.MarkedPoints node = Some ml ->
    Imageless.UnmarkedPoints node = Some ul ->
    (List.length ml < 2)%nat \/ (List.length ul < 2)%nat ->
    Imageless.ComputeCalibration fit (Some node)
    = Ok (Some (Imageless.SetOutputMessage node
                  (if Nat.ltb (List.length ml) 2
                   then "Insufficient number of marked corner points selected."
                   else "Insufficient number of unmarked corner points selected.")%string))
    /\ Imageless.ImageToProbeTransform
         (Imageless.SetOutputMessage node
            (if Nat.ltb (List.length ml) 2
             then "Insufficient number of marked corner points selected."
             else "Insufficient number of unmarked corner points selected.")%string)
       = Imageless.ImageToProbeTransform node.
Proof.
  intros F num fit node ml ul Em Eu Hfew; split; [|reflexivity].
  now apply corners_come_first with (ul := ul).
Qed.

Lemma missing_corners_are_reported_first_on_sample :
  Imageless.ComputeCalibration Samples.identity_solver
    (Some (Samples.imageless_node Samples.marked_corners []
             (Some "abc"%string)))
  = Ok (Some (Imageless.SetOutputMessage
                (Samples.imageless_node Samples.marked_corners []
                   (Some "abc"%string))
                "Insufficient number of unmarked corner points selected."%string)).
Proof.
  exact (proj1 (@missing_corners_are_reported_first R _
                  Samples.identity_solver
                  (Samples.imageless_node Samples.marked_corners []
                     (Some "abc"%string))
                  Samples.marked_corners [] eq_refl eq_refl
                  (or_intror (le_n_S 0 1 (le_S 0 0 (le_n 0)))))).
Defined.

(** * Further properties of the reconstruction *)

Section MoreRealGeometry.
Local Open Scope R_scope.
Implicit Types a b c p : vec3 R.

Lemma Distance_along_unit_any p c (d : R) :
  c <> (0, 0, 0) ->
  Distance p (Add p (MultiplyScalar (Normalize c) d)) = Rabs d.
Proof.
  intros Hc; pose proof (Norm_positive Hc) as Hpos.
  pose proof (Norm_square c) as Hsq.
  rewrite (Normalize_nonzero Hc).
  unfold Distance.
  destruct c as [[c0 c1] c2], p as [[p0 p1] p2]; simpl in *; real_ops.
  set (n := sqrt (c0 * c0 + c1 * c1 + c2 * c2)) in *.
  replace ((p0 - (p0 + c0 / n * d)) * (p0 - (p0 + c0 / n * d))
           + (p1 - (p1 + c1 / n * d)) * (p1 - (p1 + c1 / n * d))
           + (p2 - (p2 + c2 / n * d)) * (p2 - (p2 + c2 / n * d)))
    with (d * d * ((c0 * c0 + c1 * c1 + c2 * c2) / (n * n)))
    by (field; lra).
  rewrite <- Hsq.
  replace (d * d * (n * n / (n * n))) with (Rsqr d)
    by (unfold Rsqr; field; lra).
  apply sqrt_Rsqr_abs.
Qed.

Lemma Add_nothing p (d : R) :
  Add p (MultiplyScalar (Normalize (0, 0, 0)) d) = p.
Proof.
  rewrite Normalize_zero; destruct p as [[p0 p1] p2].
  cbn [Add MultiplyScalar]; real_ops; vec_eq; ring.
Qed.

Lemma Cross_no_edge a p : Cross a (Subtract p p) = ((0, 0, 0) : vec3 R).
Proof.
  destruct a as [[a0 a1] a2], p as [[p0 p1] p2].
  cbn [Cross Subtract]; real_ops; vec_eq; ring.
Qed.

Lemma Norm_opp (c0 c1 c2 : R) : Norm (- c0, - c1, - c2) = Norm (c0, c1, c2).
Proof. unfold Norm; real_ops; f_equal; ring. Qed.

Lemma Normalize_opp (c0 c1 c2 : R) :
  Normalize (- c0, - c1, - c2)
  = (- fst (fst (Normalize (c0, c1, c2))),
     - snd (fst (Normalize (c0, c1, c2))),
     - snd (Normalize (c0, c1, c2))).
Proof.
  unfold Normalize; cbv zeta; rewrite Norm_opp.
  destruct (fnonzero (Norm (c0, c1, c2))); cbn [fst snd]; trivial.
  real_ops; unfold Rdiv; vec_eq; ring.
Qed.

Lemma Cross_opp_right a (b0 b1 b2 : R) :
  Cross a (- b0, - b1, - b2)
  = (- fst (fst (Cross a (b0, b1, b2))),
     - snd (fst (Cross a (b0, b1, b2))),
     - snd (Cross a (b0, b1, b2))).
Proof.
  destruct a as [[a0 a1] a2]; cbn [Cross fst snd]; real_ops; vec_eq; ring.
Qed.

Lemma midpoint_sym a b :
  MultiplyScalar (Add b a) fhalf = MultiplyScalar (Add a b) fhalf.
Proof.
  destruct a as [[a0 a1] a2], b as [[b0 b1] b2].
  cbn [Add MultiplyScalar]; real_ops; vec_eq; ring.
Qed.

Lemma Subtract_swapped a b :
  Subtract a b
  = (- fst (fst (Subtract b a)), - snd (fst (Subtract b a)),
     - snd (Subtract b a)).
Proof.
  destruct a as [[a0 a1] a2], b as [[b0 b1] b2].
  cbn [Subtract fst snd]; real_ops; vec_eq; ring.
Qed.

Lemma Add_opp_scaled p (n0 n1 n2 d : R) :
  Add p (MultiplyScalar (- n0, - n1, - n2) d)
  = Add p (MultiplyScalar (n0, n1, n2) (- d)).
Proof.
  destruct p as [[p0 p1] p2].
  cbn [Add MultiplyScalar]; real_ops; vec_eq; ring.
Qed.

Lemma midpoint_equidistant a b :
  Distance (MultiplyScalar (Add a b) fhalf) a
  = Distance (MultiplyScalar (Add a b) fhalf) b.
Proof.
  unfold Distance; real_ops; f_equal.
  destruct a as [[a0 a1] a2], b as [[b0 b1] b2].
  cbn [Add MultiplyScalar Distance2BetweenPoints]; real_ops; field.
Qed.

Lemma far_points_differ_by_across p q u (d : R) :
  Subtract (Add q (MultiplyScalar u d)) (Add p (MultiplyScalar u d))
  = Subtract q p.
Proof.
  destruct p as [[p0 p1] p2], q as [[q0 q1] q2], u as [[u0 u1] u2].
  cbn [Add Subtract MultiplyScalar]; real_ops; vec_eq; ring.
Qed.

End MoreRealGeometry.

(** X5.  For every depth [d], of either sign, a side whose cross product
    is not zero has its far point at distance [|d|] from its near point;
    a depth of 0 puts the far point on the near point. *)
Theorem far_point_at_absolute_depth :
  forall (markedCorner1 markedCorner2 unmarkedCorner1 unmarkedCorner2 : vec3 R)
         (d : R) (r : Imageless.reconstruction R),
    r = Imageless.reconstruct markedCorner1 markedCorner2
                              unmarkedCorner1 unmarkedCorner2 ->
    (Cross (Imageless.markedUnmarkedVector r) (Imageless.markedCornerVector r)
     <> (0, 0, 0)%R ->
     Distance (Imageless.markedNearPoint r) (Imageless.markedFarPoint r d)
     = Rabs d)
    /\ (Cross (Imageless.markedUnmarkedVector r)
              (Imageless.unmarkedCornerVector r)
        <> (0, 0, 0)%R ->
        Distance (Imageless.unmarkedNearPoint r) (Imageless.unmarkedFarPoint r d)
        = Rabs d).
Proof.
  intros mc1 mc2 uc1 uc2 d r ->.
  unfold Imageless.markedFarPoint, Imageless.unmarkedFarPoint,
    Imageless.reconstruct.
  cbn [Imageless.markedNearPoint Imageless.unmarkedNearPoint
       Imageless.markedUnmarkedVector Imageless.markedCornerVector
       Imageless.unmarkedCornerVector Imageless.markedFarVector
       Imageless.unmarkedFarVector].
  split; intros Hc; now apply Distance_along_unit_any.
Qed.

Lemma far_point_at_absolute_depth_on_sample :
  Distance (Imageless.markedNearPoint Samples.reconstruction_of_footprint)
           (Imageless.markedFarPoint Samples.reconstruction_of_footprint
                                     (-5)%R)
  = Rabs (-5)%R.
Proof.
  apply (proj1 (@far_point_at_absolute_depth
                  (0, 0, 0)%R (0, 2, 0)%R (4, 0, 0)%R (4, 2, 0)%R (-5)%R
                  Samples.reconstruction_of_footprint eq_refl)).
  intros E.
  unfold Samples.reconstruction_of_footprint, Imageless.reconstruct in E.
  cbn [Imageless.markedUnmarkedVector Imageless.markedCornerVector
       Cross Subtract MultiplyScalar Add] in E.
  real_ops_in E; injection E as _ _ E; lra.
Defined.

(** X6.  A side whose two corners coincide, or whose edge is parallel to
    the across vector, has a zero cross product: [Normalize] leaves it
    zero, and the far point of that side is its near point at every
    depth. *)
Theorem degenerate_side_has_no_depth :
  forall (markedCorner1 markedCorner2 unmarkedCorner1 unmarkedCorner2 : vec3 R)
         (d : R) (r : Imageless.reconstruction R),
    r = Imageless.reconstruct markedCorner1 markedCorner2
                              unmarkedCorner1 unmarkedCorner2 ->
    markedCorner1 = markedCorner2
    \/ Cross (Imageless.markedUnmarkedVector r) (Imageless.markedCornerVector r)
       = (0, 0, 0)%R ->
    Imageless.markedFarPoint r d = Imageless.markedNearPoint r.
Proof.
  intros mc1 mc2 uc1 uc2 d r -> Hdeg.
  unfold Imageless.markedFarPoint, Imageless.reconstruct in *.
  cbn [Imageless.markedNearPoint Imageless.unmarkedNearPoint
       Imageless.markedUnmarkedVector Imageless.markedCornerVector
       Imageless.markedFarVector] in *.
  destruct Hdeg as [<-|Hzero].
  - rewrite Cross_no_edge; apply Add_nothing.
  - rewrite Hzero; apply Add_nothing.
Qed.

Lemma degenerate_side_has_no_depth_on_sample :
  Imageless.markedFarPoint
    (Imageless.reconstruct (1, 1, 1)%R (1, 1, 1)%R (4, 0, 0)%R (4, 2, 0)%R)
    100%R
  = Imageless.markedNearPoint
      (Imageless.reconstruct (1, 1, 1)%R (1, 1, 1)%R (4, 0, 0)%R (4, 2, 0)%R).
Proof.
  exact (@degenerate_side_has_no_depth
           (1, 1, 1)%R (1, 1, 1)%R (4, 0, 0)%R (4, 2, 0)%R 100%R _ eq_refl
           (or_introl eq_refl)).
Defined.

(** X7.  The order in which the two corners of a side are selected
    decides the side of the probe face the image plane goes to: with the
    two marked corners swapped the near points and the unmarked far point
    stay, and the marked far point is the one of the opposite depth. *)
Theorem swapped_corners_flip_the_far_point :
  forall (markedCorner1 markedCorner2 unmarkedCorner1 unmarkedCorner2 : vec3 R)
         (d : R),
    Imageless.markedNearPoint
      (Imageless.reconstruct markedCorner2 markedCorner1
                             unmarkedCorner1 unmarkedCorner2)
    = Imageless.markedNearPoint
        (Imageless.reconstruct markedCorner1 markedCorner2
                               unmarkedCorner1 unmarkedCorner2)
    /\ Imageless.unmarkedFarPoint
         (Imageless.reconstruct markedCorner2 markedCorner1
                                unmarkedCorner1 unmarkedCorner2) d
       = Imageless.unmarkedFarPoint
           (Imageless.reconstruct markedCorner1 markedCorner2
                                  unmarkedCorner1 unmarkedCorner2) d
    /\ Imageless.markedFarPoint
         (Imageless.reconstruct markedCorner2 markedCorner1
                                unmarkedCorner1 unmarkedCorner2) d
       = Imageless.markedFarPoint
           (Imageless.reconstruct markedCorner1 markedCorner2
                                  unmarkedCorner1 unmarkedCorner2) (- d)%R.
Proof.
  intros mc1 mc2 uc1 uc2 d.
  unfold Imageless.markedFarPoint, Imageless.unmarkedFarPoint,
    Imageless.reconstruct.
  cbn [Imageless.markedNearPoint Imageless.unmarkedNearPoint
       Imageless.markedUnmarkedVector Imageless.markedCornerVector
       Imageless.unmarkedCornerVector Imageless.markedFarVector
       Imageless.unmarkedFarVector].
  rewrite (midpoint_sym mc1 mc2).
  split; [reflexivity|]; split; [reflexivity|].
  rewrite (Subtract_swapped mc1 mc2).
  destruct (Subtract mc2 mc1) as [[e0 e1] e2]; cbn [fst snd].
  rewrite Cross_opp_right.
  destruct (Cross _ (e0, e1, e2)) as [[c0 c1] c2]; cbn [fst snd].
  rewrite Normalize_opp.
  destruct (Normalize (c0, c1, c2)) as [[n0 n1] n2]; cbn [fst snd].
  apply Add_opp_scaled.
Qed.

(** X8.  When the two sides have the same edge vector (the footprint is a
    parallelogram), both sides get the same depth direction, and the far
    points differ by the across vector as the near points do: the four
    landmarks are the corners of a parallelogram. *)
Theorem parallel_sides_give_a_parallelogram :
  forall (markedCorner1 markedCorner2 unmarkedCorner1 unmarkedCorner2 : vec3 R)
         (d : R) (r : Imageless.reconstruction R),
    r = Imageless.reconstruct markedCorner1 markedCorner2
                              unmarkedCorner1 unmarkedCorner2 ->
    Subtract markedCorner2 markedCorner1
    = Subtract unmarkedCorner2 unmarkedCorner1 ->
    Imageless.markedFarVector r = Imageless.unmarkedFarVector r
    /\ Subtract (Imageless.unmarkedFarPoint r d) (Imageless.markedFarPoint r d)
       = Subtract (Imageless.unmarkedNearPoint r) (Imageless.markedNearPoint r).
Proof.
  intros mc1 mc2 uc1 uc2 d r -> Hedge.
  unfold Imageless.markedFarPoint, Imageless.unmarkedFarPoint,
    Imageless.reconstruct.
  cbn [Imageless.markedNearPoint Imageless.unmarkedNearPoint
       Imageless.markedUnmarkedVector Imageless.markedCornerVector
       Imageless.unmarkedCornerVector Imageless.markedFarVector
       Imageless.unmarkedFarVector].
  rewrite Hedge; split; [reflexivity|].
  apply far_points_differ_by_across.
Qed.

Lemma parallel_sides_give_a_parallelogram_on_sample :
  Imageless.markedFarVector Samples.reconstruction_of_footprint
  = Imageless.unmarkedFarVector Samples.reconstruction_of_footprint.
Proof.
  refine (proj1 (@parallel_sides_give_a_parallelogram
                   (0, 0, 0)%R (0, 2, 0)%R (4, 0, 0)%R (4, 2, 0)%R 100%R
                   Samples.reconstruction_of_footprint eq_refl _)).
  cbn [Subtract]; real_ops; vec_eq; ring.
Defined.

(** X9.  The near point of a side is the midpoint of its two corners: it
    lies at the same distance from both. *)
Theorem near_point_is_equidistant :
  forall (markedCorner1 markedCorner2 unmarkedCorner1 unmarkedCorner2 : vec3 R),
    Distance (Imageless.markedNearPoint
                (Imageless.reconstruct markedCorner1 markedCorner2
                                       unmarkedCorner1 unmarkedCorner2))
             markedCorner1
    = Distance (Imageless.markedNearPoint
                  (Imageless.reconstruct markedCorner1 markedCorner2
                                         unmarkedCorner1 unmarkedCorner2))
               markedCorner2
    /\ Distance (Imageless.unmarkedNearPoint
                   (Imageless.reconstruct markedCorner1 markedCorner2
                                          unmarkedCorner1 unmarkedCorner2))
                unmarkedCorner1
       = Distance (Imageless.unmarkedNearPoint
                     (Imageless.reconstruct markedCorner1 markedCorner2
                                            unmarkedCorner1 unmarkedCorner2))
                  unmarkedCorner2.
Proof.
  intros mc1 mc2 uc1 uc2; unfold Imageless.reconstruct.
  cbn [Imageless.markedNearPoint Imageless.unmarkedNearPoint].
  split; apply midpoint_equidistant.
Qed.

(** * Further properties of the residual table *)

Section MoreOfTheErrorTable.
Context {F : Type} `{Scalar F}.
Import PointerBased.
Implicit Types (node : frwNode F) (from to : fiducialList F).

Lemma range_In (n i : Z) :
  In i (range n) <-> exists k : nat, i = Z.of_nat k /\ (k < Z.to_nat n)%nat.
Proof.
  unfold range; rewrite in_map_iff; split.
  - intros (k & <- & Hk); apply in_seq in Hk; exists k; split; [trivial | lia].
  - intros (k & -> & Hk); exists k; split; [trivial | apply in_seq; lia].
Qed.

Lemma rows_have_three_cells (frw : option (frwNode F)) (row : list (cell F)) :
  In row (ComputeErrors frw) ->
  exists (a b : string) (e : F), row = [Text a; Text b; Number e].
Proof.
  unfold ComputeErrors.
  destruct frw as [node|]; [|now intros []].
  destruct (FromFiducialListNode node) as [from|]; [|now intros []].
  destruct (ToFiducialListNode node) as [to|]; [|now intros []].
  destruct (OutputTransformNode node) as [out|]; [|now intros []].
  destruct (negb _ || _)%bool eqn:G; [now intros []|].
  apply guard_spec in G; destruct G as [Hlen H3].
  intros Hin; apply in_map_iff in Hin; destruct Hin as (i & <- & Hi).
  apply range_In in Hi; destruct Hi as (k & -> & Hk).
  unfold GetNumberOfFiducials in Hk; rewrite <- Hlen, Z.max_id, Nat2Z.id in Hk.
  destruct (nth_error from k) as [f|] eqn:Ef;
    [|apply nth_error_None in Ef; lia].
  destruct (nth_error to k) as [t|] eqn:Et;
    [|apply nth_error_None in Et; lia].
  rewrite (errorElement_at out from to k Ef Et); eauto.
Qed.

Lemma combine_without_row {A B : Type} (l : list A) (l' : list B) (i : nat) :
  List.length l = List.length l' ->
  combine (without_row i l) (without_row i l') = without_row i (combine l l').
Proof.
  unfold without_row; revert l' i.
  induction l as [|a l IH]; intros [|b l'] [|i] Hlen; simpl in *;
    try discriminate; trivial.
  f_equal; apply IH; lia.
Qed.

Lemma map_without_row {A B : Type} (f : A -> B) (l : list A) (i : nat) :
  map f (without_row i l) = without_row i (map f l).
Proof. unfold without_row; now rewrite map_app, firstn_map, skipn_map. Qed.

Lemma DeleteAt_without_row (i : nat) (l : fiducialList F) :
  DeleteAt i l = without_row i l.
Proof.
  unfold DeleteAt, without_row.
  destruct (Nat.ltb_spec i (List.length l)) as [Hlt|Hge]; trivial.
  rewrite firstn_all2, skipn_all2 by lia; now rewrite app_nil_r.
Qed.

Lemma ComputeErrors_too_few from to out probe :
  (List.length from < 3)%nat ->
  ComputeErrors (Some (Build_frwNode (Some from) (Some to) (Some out) probe))
  = [].
Proof.
  intros Hfew; unfold ComputeErrors; simpl.
  destruct (negb _ || _)%bool eqn:G; trivial.
  apply guard_spec in G; lia.
Qed.

Lemma delete_a_row from to out probe (i : nat) :
  List.length from = List.length to -> (i < List.length from)%nat ->
  ComputeErrors
    (DeleteNthPoint
       (Some (Build_frwNode (Some from) (Some to) (Some out) probe))
       (Z.of_nat i))
  = if Nat.leb 4 (List.length from)
    then without_row i
           (ComputeErrors
              (Some (Build_frwNode (Some from) (Some to) (Some out) probe)))
    else [].
Proof.
  intros Hlen Hi.
  assert (DeleteNthPoint
            (Some (Build_frwNode (Some from) (Some to) (Some out) probe))
            (Z.of_nat i)
          = Some (Build_frwNode (Some (DeleteAt i from)) (Some (DeleteAt i to))
                                (Some out) probe)) as ->.
  { unfold DeleteNthPoint; simpl; now rewrite !delete_one_list. }
  assert (List.length (DeleteAt i from) = pred (List.length from)) as Lf.
  { rewrite DeleteAt_length.
    now rewrite (proj2 (Nat.ltb_lt i (List.length from)) Hi). }
  assert (List.length (DeleteAt i to) = pred (List.length to)) as Lt.
  { rewrite DeleteAt_length.
    replace (Nat.ltb i (List.length to)) with true; trivial.
    symmetry; apply Nat.ltb_lt; lia. }
  destruct (Nat.leb_spec 4 (List.length from)) as [H4|H4].
  - rewrite !ComputeErrors_rows by lia.
    rewrite !DeleteAt_without_row, combine_without_row by trivial.
    apply map_without_row.
  - apply ComputeErrors_too_few; lia.
Qed.

End MoreOfTheErrorTable.

(** X10.  Whatever the state, every row [ComputeErrors] returns has three
    cells: a label, a label and a number.  The results table can round
    the third cell of each row it is given. *)
Theorem every_row_ends_in_a_number :
  forall (F : Type) (num : Scalar F) (frw : option (PointerBased.frwNode F))
         (row : list (PointerBased.cell F)),
    In row (PointerBased.ComputeErrors frw) ->
    exists (a b : string) (e : F),
      row = [PointerBased.Text a; PointerBased.Text b; PointerBased.Number e].
Proof. intros F num; apply rows_have_three_cells. Qed.

(** X11.  The delete button of row [i] of the results table: with the
    output transform as it is, the table of the node after
    [DeleteNthPoint] is the old table without row [i] when four pairs or
    more were there, and empty when three or fewer were: taking one pair
    away from three leaves no table. *)
Theorem deleting_a_row_of_the_table :
  forall (F : Type) (num : Scalar F) (source target : fiducialList F)
         (out : matrix4 F) (probe : option (matrix4 F)) (i : nat),
    List.length source = List.length target ->
    (i < List.length source)%nat ->
    PointerBased.ComputeErrors
      (PointerBased.DeleteNthPoint
         (Some (PointerBased.Build_frwNode (Some source) (Some target)
                                           (Some out) probe))
         (Z.of_nat i))
    = if Nat.leb 4 (List.length source)
      then without_row i
             (PointerBased.ComputeErrors
                (Some (PointerBased.Build_frwNode (Some source) (Some target)
                                                  (Some out) probe)))
      else [].
Proof. intros F num; apply delete_a_row. Qed.

Lemma deleting_a_row_of_the_table_on_sample :
  PointerBased.ComputeErrors
    (PointerBased.DeleteNthPoint (Some Samples.pointer_node) 1%Z)
  = [].
Proof.
  exact (@deleting_a_row_of_the_table R _ Samples.image_points
           Samples.probe_points Identity (Some Identity) 1 eq_refl
           (le_n_S 1 2 (le_S 1 1 (le_n 1)))).
Defined.

Lemma every_row_ends_in_a_number_on_sample :
  exists (a b : string) (e : R),
    nth 0 (PointerBased.ComputeErrors (Some Samples.pointer_node)) []
    = [PointerBased.Text a; PointerBased.Text b; PointerBased.Number e].
Proof.
  apply (@every_row_ends_in_a_number R _ (Some Samples.pointer_node)).
  left; reflexivity.
Defined.

Section ExactFit.
Local Open Scope R_scope.

Lemma Distance_zero (p q : vec3 R) : Distance p q = 0 <-> p = q.
Proof.
  unfold Distance; real_ops; split.
  - intros E; apply sqrt_eq_0 in E; [|apply Distance2_nonneg].
    destruct p as [[p0 p1] p2], q as [[q0 q1] q2].
    cbn [Distance2BetweenPoints] in E; real_ops_in E.
    assert (sum_of_squares (p0 - q0, p1 - q1, p2 - q2) = 0) as E' by exact E.
    apply sum_of_squares_zero in E'; injection E' as E0 E1 E2.
    vec_eq; lra.
  - intros ->.
    destruct q as [[q0 q1] q2]; cbn [Distance2BetweenPoints]; real_ops.
    replace ((q0 - q0) * (q0 - q0) + (q1 - q1) * (q1 - q1)
             + (q2 - q2) * (q2 - q2)) with 0 by ring.
    apply sqrt_0.
Qed.

End ExactFit.

(** X12.  The residual of a pair is 0 exactly when the output transform
    sends the source point onto the target point. *)
Theorem residual_is_zero_on_an_exact_fit :
  forall (source target : fiducialList R) (out : matrix4 R)
         (probe : option (matrix4 R)) (i : nat) (s t : fiducial R),
    List.length source = List.length target ->
    (3 <= List.length source)%nat ->
    nth_error source i = Some s ->
    nth_error target i = Some t ->
    nth_error
      (PointerBased.ComputeErrors
         (Some (PointerBased.Build_frwNode (Some source) (Some target)
                                           (Some out) probe))) i
    = Some [ PointerBased.Text (label s); PointerBased.Text (label t);
             PointerBased.Number 0%R ]
    <-> TransformPoint out (position s) = position t.
Proof.
  intros source target out probe i s t Hlen H3 Hs Ht.
  rewrite ComputeErrors_rows by trivial.
  rewrite nth_error_map, combine_nth, Hs, Ht; cbn [option_map fst snd].
  split.
  - intros [= E]; symmetry; now apply Distance_zero.
  - intros E.
    now rewrite (proj2 (Distance_zero (position t)
                          (TransformPoint out (position s))) (eq_sym E)).
Qed.

Lemma residual_is_zero_on_an_exact_fit_on_sample :
  nth_error
    (PointerBased.ComputeErrors
       (Some (PointerBased.Build_frwNode (Some Samples.image_points)
                (Some Samples.image_points) (Some Identity) None))) 0
  = Some [ PointerBased.Text "Image_Points-1"%string;
           PointerBased.Text "Image_Points-1"%string;
           PointerBased.Number 0%R ]
  <-> TransformPoint Identity (0, 0, 0)%R = (0, 0, 0)%R.
Proof.
  exact (@residual_is_zero_on_an_exact_fit Samples.image_points
           Samples.image_points Identity None 0 _ _ eq_refl (le_n 3)
           eq_refl eq_refl).
Defined.

(** * Further properties of the pairing of points *)

Section Pairing.
Context {F : Type} `{Scalar F}.
Import PointerBased.
Implicit Types (node : frwNode F) (from to : fiducialList F).

Lemma pairing_from node from to (m : matrix4 F) (newLabel : string) :
  FromFiducialListNode node = Some from ->
  ToFiducialListNode node = Some to ->
  ProbeTransformToNode node = Some m ->
  List.length from = S (List.length to) ->
  AddPointToCalibration newLabel (Some node) FromList
  = (Some (with_lists node from
             (to ++ [ {| label := newLabel; position := Origin m |} ])), []).
Proof.
  intros Ef Et Em Hlen; unfold AddPointToCalibration.
  rewrite Ef, Et, Em; unfold GetNumberOfFiducials.
  replace (Z.of_nat (List.length from) - Z.of_nat (List.length to) =? 1)%Z
    with true by (symmetry; apply Z.eqb_eq; lia).
  reflexivity.
Qed.

Lemma pairing_to node from to (m : matrix4 F) (newLabel : string) :
  FromFiducialListNode node = Some from ->
  ToFiducialListNode node = Some to ->
  ProbeTransformToNode node = Some m ->
  List.length to = S (List.length from) ->
  AddPointToCalibration newLabel (Some node) ToList
  = (Some (with_lists node
             (from ++ [ {| label := newLabel; position := Origin m |} ]) to),
     []).
Proof.
  intros Ef Et Em Hlen; unfold AddPointToCalibration.
  rewrite Ef, Et, Em; unfold GetNumberOfFiducials.
  replace (Z.of_nat (List.length to) - Z.of_nat (List.length from) =? 1)%Z
    with true by (symmetry; apply Z.eqb_eq; lia).
  reflexivity.
Qed.

Lemma out_of_step node from to (newLabel : string) :
  FromFiducialListNode node = Some from ->
  ToFiducialListNode node = Some to ->
  (List.length from <> S (List.length to) ->
   AddPointToCalibration newLabel (Some node) FromList
   = (Some node, [unsynchronized]))
  /\ (List.length to <> S (List.length from) ->
      AddPointToCalibration newLabel (Some node) ToList
      = (Some node, [unsynchronized])).
Proof.
  intros Ef Et; split; intros Hlen; unfold AddPointToCalibration;
    rewrite Ef, Et; unfold GetNumberOfFiducials.
  - replace (Z.of_nat (List.length from) - Z.of_nat (List.length to) =? 1)%Z
      with false by (symmetry; apply Z.eqb_neq; lia).
    reflexivity.
  - replace (Z.of_nat (List.length to) - Z.of_nat (List.length from) =? 1)%Z
      with false by (symmetry; apply Z.eqb_neq; lia).
    reflexivity.
Qed.

End Pairing.

(** X13.  The observer of an added markup: when the list the markup went
    to is one entry ahead of the other and a pointer transform is set,
    the other list gets one entry, at the place the transform sends the
    origin to, nothing is logged, and the two lists have equal length
    again. *)
Theorem pairing_restores_equal_length :
  forall (F : Type) (num : Scalar F) (node : PointerBased.frwNode F)
         (from to : fiducialList F) (m : matrix4 F) (newLabel : string),
    PointerBased.FromFiducialListNode node = Some from ->
    PointerBased.ToFiducialListNode node = Some to ->
    PointerBased.ProbeTransformToNode node = Some m ->
    (List.length from = S (List.length to) ->
     PointerBased.AddPointToCalibration newLabel (Some node)
                                        PointerBased.FromList
     = (Some (PointerBased.with_lists node from
                (to ++ [ {| label := newLabel; position := Origin m |} ])),
        [])
     /\ synchronized
          (fst (PointerBased.AddPointToCalibration newLabel (Some node)
                                                   PointerBased.FromList))
        = true)
    /\ (List.length to = S (List.length from) ->
        PointerBased.AddPointToCalibration newLabel (Some node)
                                           PointerBased.ToList
        = (Some (PointerBased.with_lists node
                   (from ++ [ {| label := newLabel; position := Origin m |} ])
                   to),
           [])
        /\ synchronized
             (fst (PointerBased.AddPointToCalibration newLabel (Some node)
                                                      PointerBased.ToList))
           = true).
Proof.
  intros F num node from to m newLabel Ef Et Em; split; intros Hlen.
  - rewrite (pairing_from node newLabel Ef Et Em Hlen); split; trivial.
    cbn [fst]; rewrite synchronized_with_lists, length_app; simpl.
    apply Nat.eqb_eq; lia.
  - rewrite (pairing_to node newLabel Ef Et Em Hlen); split; trivial.
    cbn [fst]; rewrite synchronized_with_lists, length_app; simpl.
    apply Nat.eqb_eq; lia.
Qed.

(** X14.  When the list the markup went to is not exactly one entry ahead
    of the other, the observer changes nothing and logs that the lists
    have become unsynchronized.  So a second notification of one added
    markup, after the first has paired it, adds no second point. *)
Theorem pairing_refuses_lists_out_of_step :
  forall (F : Type) (num : Scalar F) (node : PointerBased.frwNode F)
         (from to : fiducialList F) (newLabel : string),
    PointerBased.FromFiducialListNode node = Some from ->
    PointerBased.ToFiducialListNode node = Some to ->
    (List.length from <> S (List.length to) ->
     PointerBased.AddPointToCalibration newLabel (Some node)
                                        PointerBased.FromList
     = (Some node, [PointerBased.unsynchronized]))
    /\ (List.length to <> S (List.length from) ->
        PointerBased.AddPointToCalibration newLabel (Some node)
                                           PointerBased.ToList
        = (Some node, [PointerBased.unsynchronized])).
Proof. intros F num node from to newLabel; apply out_of_step. Qed.

Lemma pairing_restores_equal_length_on_sample :
  synchronized
    (fst (PointerBased.AddPointToCalibration "Probe_Points-3"
            (Some (PointerBased.with_lists Samples.pointer_node
                     Samples.image_points (removelast Samples.probe_points)))
            PointerBased.FromList))
  = true.
Proof.
  exact (proj2 (proj1 (@pairing_restores_equal_length R _
                         (PointerBased.with_lists Samples.pointer_node
                            Samples.image_points
                            (removelast Samples.probe_points))
                         Samples.image_points
                         (removelast Samples.probe_points)
                         Identity "Probe_Points-3" eq_refl eq_refl eq_refl)
                      eq_refl)).
Defined.

Lemma pairing_refuses_lists_out_of_step_on_sample :
  PointerBased.AddPointToCalibration "Probe_Points-4"
    (Some Samples.pointer_node) PointerBased.FromList
  = (Some Samples.pointer_node, [PointerBased.unsynchronized]).
Proof.
  exact (proj1 (@pairing_refuses_lists_out_of_step R _ Samples.pointer_node
                  Samples.image_points Samples.probe_points "Probe_Points-4"
                  eq_refl eq_refl)
               ltac:(discriminate)).
Defined.

(** X15.  [UndoPoints] takes an entry from both lists whenever both have
    one, so it never brings lists of different lengths back in step:
    with both lists non-empty the lists are aligned after the call
    exactly when they were before. *)
Theorem undo_keeps_a_mismatch :
  forall (F : Type) (num : Scalar F) (node : PointerBased.frwNode F)
         (from to : fiducialList F),
    from <> [] -> to <> [] ->
    synchronized
      (PointerBased.UndoPoints (Some (PointerBased.with_lists node from to)))
    = synchronized (Some (PointerBased.with_lists node from to)).
Proof.
  intros F num node from to Hf Ht.
  rewrite UndoPoints_lists, !synchronized_with_lists, !removelast_length.
  destruct from as [|x from]; [now elim Hf|].
  destruct to as [|y to]; [now elim Ht|].
  reflexivity.
Qed.

Lemma undo_keeps_a_mismatch_on_sample :
  synchronized
    (PointerBased.UndoPoints
       (Some (PointerBased.with_lists Samples.pointer_node
                Samples.image_points (removelast Samples.probe_points))))
  = synchronized
      (Some (PointerBased.with_lists Samples.pointer_node
               Samples.image_points (removelast Samples.probe_points))).
Proof.
  exact (@undo_keeps_a_mismatch R _ Samples.pointer_node Samples.image_points
           (removelast Samples.probe_points)
           ltac:(discriminate) ltac:(discriminate)).
Defined.

(** * The depth, from the spin box to the run *)

Section DepthRoundTrip.

(** The characters of a run of digits. *)
Let chars (u : Decimal.uint) : list ascii :=
  list_ascii_of_string (DecimalString.NilEmpty.string_of_uint u).

Lemma digits_step (c : ascii) (t : list ascii) (acc d : N) (count : nat) :
  PyFloat.digit c = Some d ->
  PyFloat.digits (c :: t) acc count
  = PyFloat.digits t (10 * acc + d)%N (S count).
Proof. intros E; cbn [PyFloat.digits]; now rewrite E. Qed.

Lemma digits_of_chars (u : Decimal.uint) (acc : N) (count : nat) :
  PyFloat.digits (chars u) acc count
  = (uint_value u acc, (count + Decimal.nb_digits u)%nat, []).
Proof.
  revert acc count; induction u; intros acc count; unfold chars in *;
    cbn [DecimalString.NilEmpty.string_of_uint list_ascii_of_string
         uint_value Decimal.nb_digits];
    [ cbn [PyFloat.digits]; now rewrite Nat.add_0_r
    | erewrite digits_step by reflexivity; rewrite IHu;
      f_equal; f_equal; lia .. ].
Qed.

Lemma uint_value_acc (u : Decimal.uint) (acc : positive) :
  uint_value u (Npos acc) = Npos (Pos.of_uint_acc u acc).
Proof.
  revert acc; induction u; intros acc; cbn [uint_value Pos.of_uint_acc];
    trivial; rewrite <- IHu; f_equal; lia.
Qed.

Lemma uint_value_0 (u : Decimal.uint) : uint_value u 0 = Pos.of_uint u.
Proof.
  induction u; cbn [uint_value Pos.of_uint]; trivial;
    change (10 * 0 + 0)%N with 0%N; trivial;
    rewrite <- uint_value_acc; reflexivity.
Qed.

Lemma uint_value_of_positive (p : positive) :
  uint_value (Pos.to_uint p) 0 = Npos p.
Proof. rewrite uint_value_0; apply DecimalPos.Unsigned.of_to. Qed.

Lemma chars_have_no_space (u : Decimal.uint) :
  Forall (fun c => PyFloat.is_space c = false) (chars u).
Proof.
  induction u; unfold chars in *;
    cbn [DecimalString.NilEmpty.string_of_uint list_ascii_of_string];
    constructor; trivial.
Qed.

Lemma lstrip_no_space (l : list ascii) :
  Forall (fun c => PyFloat.is_space c = false) l -> PyFloat.lstrip l = l.
Proof.
  intros Hl; destruct Hl as [|c t Hc Ht]; trivial.
  cbn [PyFloat.lstrip]; now rewrite Hc.
Qed.

Lemma strip_no_space (l : list ascii) :
  Forall (fun c => PyFloat.is_space c = false) l -> PyFloat.strip l = l.
Proof.
  intros Hl; unfold PyFloat.strip.
  rewrite (lstrip_no_space Hl), lstrip_no_space by now apply Forall_rev.
  apply rev_involutive.
Qed.

Lemma sign_of_chars (u : Decimal.uint) : PyFloat.sign (chars u) = (false, chars u).
Proof. destruct u; reflexivity. Qed.

Lemma special_of_chars (neg : bool) (u : Decimal.uint) :
  u <> Decimal.Nil -> PyFloat.special neg (chars u) = None.
Proof. destruct u; [now intros E; elim E | reflexivity ..]. Qed.

Lemma decimal_of_chars (neg : bool) (u : Decimal.uint) :
  u <> Decimal.Nil ->
  PyFloat.decimal neg (chars u) = Some (Decimal neg (uint_value u 0) 0).
Proof.
  intros Hu; unfold PyFloat.decimal.
  rewrite digits_of_chars; cbn [PyFloat.exponent Nat.add].
  destruct u; [now elim Hu | reflexivity ..].
Qed.

(** The text of an int is read back as that int. *)
Lemma parse_py_str_int (n : Z) :
  PyFloat.parse (py_str_int n)
  = Some (Decimal (n <? 0)%Z (Z.abs_N n) 0).
Proof.
  unfold py_str_int, PyFloat.parse.
  destruct n as [|p|p]; [reflexivity| |];
    cbn [Z.to_int DecimalString.NilZero.string_of_int Z.ltb Z.compare Z.abs_N];
    pose proof (DecimalPos.Unsigned.to_uint_nonnil p) as Hp;
    assert (DecimalString.NilZero.string_of_uint (Pos.to_uint p)
            = DecimalString.NilEmpty.string_of_uint (Pos.to_uint p)) as ->
      by (destruct (Pos.to_uint p); [now elim Hp | reflexivity ..]).
  - fold (chars (Pos.to_uint p)).
    rewrite strip_no_space by apply chars_have_no_space.
    rewrite sign_of_chars, special_of_chars, decimal_of_chars by trivial.
    now rewrite uint_value_of_positive.
  - cbn [list_ascii_of_string]; fold (chars (Pos.to_uint p)).
    rewrite strip_no_space
      by (constructor; [reflexivity | apply chars_have_no_space]).
    cbn [PyFloat.sign].
    rewrite special_of_chars, decimal_of_chars by trivial.
    now rewrite uint_value_of_positive.
Qed.

Lemma real_of_int_text (n : Z) :
  of_literal (Decimal (n <? 0)%Z (Z.abs_N n) 0) = IZR n.
Proof.
  real_ops; unfold RealScalar.real_of_literal, RealScalar.real_of_decimal.
  cbn [powerRZ]; rewrite N2Z.inj_abs_N.
  destruct (Z.ltb_spec n 0) as [Hneg|Hpos].
  - rewrite Z.abs_neq by lia; rewrite opp_IZR; lra.
  - rewrite Z.abs_eq by lia; lra.
Qed.

End DepthRoundTrip.

Section DepthFromTheSpinBox.
Import Imageless.
Local Open Scope string_scope.

Lemma float_of_py_str_int (n : Z) : py_float (Some (py_str_int n)) = Ok (IZR n).
Proof.
  unfold py_float; rewrite parse_py_str_int; f_equal; apply real_of_int_text.
Qed.

Lemma calibrate_with_a_number (fit : list (vec3 R) -> list (vec3 R) -> matrix4 R)
    (node : usCalibrationNode R) (depth : R) c1 c2 c3 c4 :
  py_float (Depth node) = Ok depth ->
  (forall e, calibrate fit node c1 c2 c3 c4 = Raise e -> e = ZeroDivisionError)
  /\ (forall after,
        calibrate fit node c1 c2 c3 c4 = Ok (Some after) ->
        OutputMessage after <> Some "Depth improperly specified.").
Proof.
  intros Ed; unfold calibrate; rewrite Ed.
  destruct (UltrasoundImage node) as [img|].
  2: { split; [discriminate | intros after [= <-]; discriminate]. }
  destruct (ImageData img) as [[[dimX dimY] dimZ]|].
  2: { split; [discriminate | intros after [= <-]; discriminate]. }
  destruct (dimY =? 0)%Z.
  { split; [now intros e [= <-] | discriminate]. }
  destruct (ImageToProbeTransform node);
    (split; [discriminate | intros after [= <-]; discriminate]).
Qed.

End DepthFromTheSpinBox.

(** X16.  The depth goes from the spin box to the run as the text of an
    int, and comes back as that int: after [SetDepth n] the depth read by
    [ComputeCalibration] is [n].  So on a node with both corner lists the
    run after [SetDepth] never ends in "Depth improperly specified.", and
    the only exception it can raise is the ZeroDivisionError of an image
    without rows. *)
Theorem depth_of_the_spin_box_is_read_back :
  forall (fit : list (vec3 R) -> list (vec3 R) -> matrix4 R) (n : Z)
         (node : Imageless.usCalibrationNode R) (ml ul : fiducialList R),
    Imageless.MarkedPoints node = Some ml ->
    Imageless.UnmarkedPoints node = Some ul ->
    exists node' : Imageless.usCalibrationNode R,
      Imageless.SetDepth n (Some node) = Some node'
      /\ py_float (Imageless.Depth node') = Ok (IZR n)
      /\ (forall e, Imageless.ComputeCalibration fit (Some node') = Raise e ->
                    e = ZeroDivisionError)
      /\ (forall after,
            Imageless.ComputeCalibration fit (Some node') = Ok (Some after) ->
            Imageless.OutputMessage after
            <> Some "Depth improperly specified."%string).
Proof.
  intros fit n node ml ul Em Eu.
  eexists; split; [reflexivity|].
  cbn [Imageless.Depth].
  split; [apply float_of_py_str_int|].
  assert (forall P : result (option (Imageless.usCalibrationNode R)) -> Prop,
            (forall msg node0,
                msg <> "Depth improperly specified."%string ->
                P (Ok (Some (Imageless.SetOutputMessage node0 msg)))) ->
            (forall node0 c1 c2 c3 c4,
                Imageless.Depth node0 = Some (py_str_int n) ->
                P (Imageless.calibrate fit node0 c1 c2 c3 c4)) ->
            P (Imageless.ComputeCalibration fit
                 (Imageless.SetDepth n (Some node)))) as Hcases.
  { intros P Hfew Hrun; cbn [Imageless.SetDepth].
    match goal with
    | |- P (Imageless.ComputeCalibration fit (Some ?x)) => set (node' := x)
    end.
    assert (Imageless.MarkedPoints node' = Some ml) as Em' by exact Em.
    assert (Imageless.UnmarkedPoints node' = Some ul) as Eu' by exact Eu.
    destruct (two_first_or_too_few ml) as [(m1 & m2 & mr & ->)|Hml].
    - destruct (two_first_or_too_few ul) as [(u1 & u2 & ur & ->)|Hul].
      + rewrite (ComputeCalibration_on_corners fit node' Em' Eu').
        now apply Hrun.
      + rewrite (ComputeCalibration_few_unmarked fit node' Em' Eu' Hul).
        apply Hfew; discriminate.
    - rewrite (ComputeCalibration_few_marked fit node' Em' Eu' Hml).
      apply Hfew; discriminate. }
  cbn [Imageless.SetDepth] in Hcases.
  split.
  - apply Hcases.
    + discriminate.
    + intros node0 c1 c2 c3 c4 Ed e.
      apply (calibrate_with_a_number fit node0 (depth := IZR n)).
      rewrite Ed; apply float_of_py_str_int.
  - apply Hcases.
    + intros msg node0 Hmsg after [= <-]; cbn; congruence.
    + intros node0 c1 c2 c3 c4 Ed after.
      apply (calibrate_with_a_number fit node0 (depth := IZR n)).
      rewrite Ed; apply float_of_py_str_int.
Qed.

Lemma depth_of_the_spin_box_is_read_back_on_sample :
  exists node' : Imageless.usCalibrationNode R,
    Imageless.SetDepth 100
      (Some (Samples.imageless_node Samples.marked_corners
               Samples.unmarked_corners None))
    = Some node'
    /\ py_float (Imageless.Depth node') = Ok 100%R.
Proof.
  destruct (@depth_of_the_spin_box_is_read_back Samples.identity_solver 100%Z
              (Samples.imageless_node Samples.marked_corners
                 Samples.unmarked_corners None)
              Samples.marked_corners Samples.unmarked_corners
              eq_refl eq_refl) as (node' & Hset & Hread & _).
  exists node'; split; [exact Hset | exact Hread].
Defined.

(** * The search of the scene by name *)

Section SceneSearch.
Import Scene.
Local Open Scope string_scope.

Lemma prefix_spec (p s : string) :
  String.prefix p s = true <-> exists rest, s = p ++ rest.
Proof.
  revert s; induction p as [|a p IH]; intros s.
  - destruct s; simpl; (split; [intros _; eexists; reflexivity | trivial]).
  - destruct s as [|b s]; simpl;
      [split; [discriminate | intros [rest [=]]]|].
    destruct (ascii_dec a b) as [<-|Hab].
    + rewrite IH; split; intros [rest E]; exists rest.
      * now rewrite E.
      * now injection E.
    + split; [discriminate | intros [rest [= E _]]; now elim Hab].
Qed.

Lemma contains_spec (sub s : string) :
  contains sub s = true <-> exists before after, s = before ++ sub ++ after.
Proof.
  induction s as [|c s IH]; cbn [contains].
  - destruct (String.prefix sub "") eqn:P.
    + split; trivial; intros _.
      apply prefix_spec in P; destruct P as [rest E].
      exists "", rest; exact E.
    + split; [discriminate|]; intros (before & after & E).
      destruct before; [|discriminate E]; simpl in E.
      assert (String.prefix sub "" = true) as P'
        by (apply prefix_spec; now exists after).
      congruence.
  - destruct (String.prefix sub (String c s)) eqn:P.
    + split; trivial; intros _.
      apply prefix_spec in P; destruct P as [rest E].
      exists "", rest; exact E.
    + rewrite IH; split; intros (before & after & E).
      * exists (String c before), after; simpl; now rewrite E.
      * destruct before as [|c' before]; simpl in E.
        -- assert (String.prefix sub (String c s) = true) as P'
             by (apply prefix_spec; now exists after).
           congruence.
        -- injection E as _ E; now exists before, after.
Qed.

Lemma contains_false (sub s : string) :
  contains sub s = false <-> ~ exists before after, s = before ++ sub ++ after.
Proof.
  rewrite <- contains_spec; destruct (contains sub s); split; intros E;
    try discriminate; trivial; now elim E.
Qed.

Lemma any_prefix_named (prefixes : list string) (name : string) :
  any_prefix_in prefixes (Some name)
  = Ok (existsb (fun prefix => contains prefix name) prefixes).
Proof.
  induction prefixes as [|p ps IH]; cbn [any_prefix_in existsb]; trivial.
  destruct (contains p name); trivial.
Qed.

Lemma any_prefix_true (prefixes : list string) (node : mrmlNode) :
  any_prefix_in prefixes (GetName node) = Ok true
  <-> holds_a_prefix prefixes node.
Proof.
  unfold holds_a_prefix; destruct (GetName node) as [name|].
  - rewrite any_prefix_named; split.
    + intros [= E]; apply existsb_exists in E; destruct E as (p & Hp & Hc).
      apply contains_spec in Hc; destruct Hc as (before & after & E).
      now exists p, name, before, after.
    + intros (p & name' & before & after & Hp & [= <-] & E).
      f_equal; apply existsb_exists; exists p; split; trivial.
      apply contains_spec; now exists before, after.
  - split.
    + destruct prefixes; discriminate.
    + intros (p & name' & before & after & _ & E & _); discriminate E.
Qed.

Lemma any_prefix_false (prefixes : list string) (node : mrmlNode) :
  any_prefix_in prefixes (GetName node) = Ok false
  <-> prefixes = [] \/ named_without_prefix prefixes node.
Proof.
  unfold named_without_prefix; destruct (GetName node) as [name|].
  - rewrite any_prefix_named; split.
    + intros [= E]; right; exists name; split; trivial.
      intros p Hp; apply contains_false.
      destruct (contains p name) eqn:Hc; trivial.
      assert (existsb (fun prefix => contains prefix name) prefixes = true)
        as E' by (apply existsb_exists; now exists p).
      congruence.
    + intros [->|(name' & [= <-] & Hnone)]; trivial.
      f_equal; destruct (existsb _ prefixes) eqn:E; trivial.
      apply existsb_exists in E; destruct E as (p & Hp & Hc).
      apply contains_spec in Hc; now elim (Hnone p Hp).
  - destruct prefixes as [|p ps]; cbn [any_prefix_in].
    + split; [now left | trivial].
    + split; [discriminate|].
      intros [E|(name & E & _)]; discriminate E.
Qed.

Lemma first_node_found (nodes : list mrmlNode) (prefixes : list string)
    (node : mrmlNode) :
  first_node_by_prefix nodes prefixes = Ok (Some node)
  <-> exists before after,
        nodes = (before ++ node :: after)%list
        /\ holds_a_prefix prefixes node
        /\ Forall (named_without_prefix prefixes) before.
Proof.
  induction nodes as [|c nodes IH]; cbn [first_node_by_prefix].
  - split; [discriminate|].
    intros (before & after & E & _); now destruct before.
  - destruct (any_prefix_in prefixes (GetName c)) as [[|]|e] eqn:Ec.
    + split.
      * intros [= <-]; exists [], nodes; repeat split; trivial.
        now apply any_prefix_true.
      * intros (before & after & E & Hm & Hbefore).
        destruct before as [|c' before]; [now injection E as ->|].
        injection E as <- _.
        apply Forall_inv in Hbefore.
        assert (any_prefix_in prefixes (GetName c) = Ok false) as Ec'
          by (apply any_prefix_false; now right).
        congruence.
    + rewrite IH; split.
      * intros (before & after & -> & Hm & Hbefore).
        exists (c :: before), after; repeat split; trivial.
        constructor; trivial.
        apply any_prefix_false in Ec; destruct Ec as [->|Hc]; trivial.
        destruct Hm as (p & _ & _ & _ & [] & _).
      * intros (before & after & E & Hm & Hbefore).
        destruct before as [|c' before].
        -- injection E as <- _.
           apply any_prefix_true in Hm; congruence.
        -- injection E as _ ->; apply Forall_inv_tail in Hbefore.
           now exists before, after.
    + split; [discriminate|].
      intros (before & after & E & Hm & Hbefore).
      destruct before as [|c' before].
      * injection E as <- _; apply any_prefix_true in Hm; congruence.
      * injection E as <- _; apply Forall_inv in Hbefore.
        assert (any_prefix_in prefixes (GetName c) = Ok false) as Ec'
          by (apply any_prefix_false; now right).
        congruence.
Qed.

Lemma first_node_none (nodes : list mrmlNode) (prefixes : list string) :
  first_node_by_prefix nodes prefixes = Ok None
  <-> prefixes = [] \/ Forall (named_without_prefix prefixes) nodes.
Proof.
  induction nodes as [|c nodes IH]; cbn [first_node_by_prefix].
  - split; [now right | trivial].
  - destruct (any_prefix_in prefixes (GetName c)) as [[|]|e] eqn:Ec.
    + split; [discriminate|].
      intros [->|Hall]; [destruct (GetName c); discriminate Ec|].
      apply Forall_inv in Hall.
      assert (any_prefix_in prefixes (GetName c) = Ok false) as Ec'
        by (apply any_prefix_false; now right).
      congruence.
    + rewrite IH; apply any_prefix_false in Ec; split.
      * intros [->|Hall]; [now left|].
        destruct Ec as [->|Hc]; [now left | right; now constructor].
      * intros [->|Hall]; [now left | right; now apply Forall_inv_tail in Hall].
    + split; [discriminate|].
      intros [->|Hall]; [destruct (GetName c); discriminate Ec|].
      apply Forall_inv in Hall.
      assert (any_prefix_in prefixes (GetName c) = Ok false) as Ec'
        by (apply any_prefix_false; now right).
      congruence.
Qed.

End SceneSearch.

(** X17.  [GetFirstNodeByClassByPrefix] answers a node exactly when that
    node is the first one of the class, in the order of the scene, whose
    name holds one of the prefixes, and every node of the class before it
    has a name: the prefix may stand anywhere in the name, not only at its
    start.  The node answered is a node of the scene and of the class. *)
Theorem first_node_holding_a_prefix :
  forall (scene : list Scene.mrmlNode) (className : string)
         (prefixes : list string) (node : Scene.mrmlNode),
    (Scene.GetFirstNodeByClassByPrefix scene className prefixes
     = Ok (Some node)
     <-> exists before after,
           Scene.GetNodesByClass className scene
           = (before ++ node :: after)%list
           /\ holds_a_prefix prefixes node
           /\ Forall (named_without_prefix prefixes) before)
    /\ (Scene.GetFirstNodeByClassByPrefix scene className prefixes
        = Ok (Some node) ->
        In node scene /\ Scene.IsA className node = true).
Proof.
  intros scene className prefixes node.
  unfold Scene.GetFirstNodeByClassByPrefix; split.
  - apply first_node_found.
  - intros E; apply first_node_found in E.
    destruct E as (before & after & E & _).
    apply (filter_In (Scene.IsA className) node scene).
    unfold Scene.GetNodesByClass in E; rewrite E.
    apply in_or_app; right; now left.
Qed.

(** X18.  [GetFirstNodeByClassByPrefix] answers [None] exactly when there
    is no prefix to look for, or every node of the class has a name and no
    name holds a prefix. *)
Theorem no_node_holding_a_prefix :
  forall (scene : list Scene.mrmlNode) (className : string)
         (prefixes : list string),
    Scene.GetFirstNodeByClassByPrefix scene className prefixes = Ok None
    <-> prefixes = []
        \/ Forall (named_without_prefix prefixes)
                  (Scene.GetNodesByClass className scene).
Proof.
  intros scene className prefixes; apply first_node_none.
Qed.

(** * The Apply button *)

(** X19.  [ApplyTransformToImage] toggles: an image under the ImageToProbe
    transform is put under none, and any other image is put under it.  Two
    presses give the image back as it was exactly when it started under
    no transform or under ImageToProbe; an image that started under
    another transform ends under none.  From the first press on, the
    presses repeat with period two. *)
Theorem apply_button_toggles :
  forall (id : string) (image : Scene.volumeNode),
    id <> EmptyString ->
    (Scene.GetTransformNodeID image = id ->
     Scene.ApplyTransformToImage (Some id) (Some image)
     = Some {| Scene.GetTransformNodeID := EmptyString |})
    /\ (Scene.GetTransformNodeID image <> id ->
        Scene.ApplyTransformToImage (Some id) (Some image)
        = Some {| Scene.GetTransformNodeID := id |})
    /\ (Scene.ApplyTransformToImage (Some id)
          (Scene.ApplyTransformToImage (Some id) (Some image))
        = Some image
        <-> Scene.GetTransformNodeID image = EmptyString
            \/ Scene.GetTransformNodeID image = id)
    /\ (Scene.GetTransformNodeID image <> EmptyString ->
        Scene.GetTransformNodeID image <> id ->
        Scene.ApplyTransformToImage (Some id)
          (Scene.ApplyTransformToImage (Some id) (Some image))
        = Some {| Scene.GetTransformNodeID := EmptyString |})
    /\ Scene.ApplyTransformToImage (Some id)
         (Scene.ApplyTransformToImage (Some id)
            (Scene.ApplyTransformToImage (Some id) (Some image)))
       = Scene.ApplyTransformToImage (Some id) (Some image).
Proof.
  intros id [current] Hid; cbn [Scene.GetTransformNodeID].
  assert (String.eqb EmptyString id = false) as Hempty
    by (apply String.eqb_neq; congruence).
  unfold Scene.ApplyTransformToImage, Scene.SetAndObserveTransformNodeID.
  cbn [Scene.GetTransformNodeID].
  destruct (String.eqb_spec current id) as [->|Hne];
    cbn [Scene.GetTransformNodeID];
    rewrite ?String.eqb_refl, ?Hempty; cbn [Scene.GetTransformNodeID];
    rewrite ?String.eqb_refl, ?Hempty.
  - repeat split; trivial; try congruence; auto.
  - repeat split; trivial; try congruence.
    + intros [= E]; left; congruence.
    + intros [->|E]; [reflexivity | congruence].
Qed.

Lemma apply_button_toggles_on_sample :
  Scene.ApplyTransformToImage (Some "vtkMRMLLinearTransformNode4"%string)
    (Scene.ApplyTransformToImage (Some "vtkMRMLLinearTransformNode4"%string)
       (Some {| Scene.GetTransformNodeID :=
                  "vtkMRMLLinearTransformNode7"%string |}))
  = Some {| Scene.GetTransformNodeID := EmptyString |}.
Proof.
  exact (proj1 (proj2 (proj2 (proj2
           (@apply_button_toggles "vtkMRMLLinearTransformNode4"%string
              {| Scene.GetTransformNodeID :=
                   "vtkMRMLLinearTransformNode7"%string |}
              ltac:(discriminate)))))
           ltac:(discriminate) ltac:(discriminate)).
Defined.

(** * Starting the placement of a point *)

(** X20.  [StartMarkPoint] gives its warning only when both the selection
    node and the interaction node are missing.  With the image list there
    and exactly one of the two missing, the guard lets the call through
    and it ends in an AttributeError; with both there, the image list
    becomes the active place node and the mode becomes Place. *)
Theorem mark_point_needs_both_nodes :
  forall (fromFiducialList : option string) (app : MarkPoint.applicationLogic),
    ((exists app', MarkPoint.StartMarkPoint fromFiducialList app
                   = MarkPoint.AttributeError app')
     <-> fromFiducialList <> None
         /\ ((MarkPoint.GetSelectionNode app = None
              /\ MarkPoint.GetInteractionNode app <> None)
             \/ (MarkPoint.GetSelectionNode app <> None
                 /\ MarkPoint.GetInteractionNode app = None)))
    /\ ((exists app', MarkPoint.StartMarkPoint fromFiducialList app
                      = MarkPoint.Returned app' [MarkPoint.not_found])
        <-> fromFiducialList <> None
            /\ MarkPoint.GetSelectionNode app = None
            /\ MarkPoint.GetInteractionNode app = None)
    /\ (forall id,
          fromFiducialList = Some id ->
          MarkPoint.GetSelectionNode app <> None ->
          MarkPoint.GetInteractionNode app <> None ->
          MarkPoint.StartMarkPoint fromFiducialList app
          = MarkPoint.Returned
              {| MarkPoint.GetSelectionNode := Some id;
                 MarkPoint.GetInteractionNode := Some MarkPoint.Place |} []).
Proof.
  intros [id|] [[sel|] [mode|]]; unfold MarkPoint.StartMarkPoint;
    cbn [MarkPoint.GetSelectionNode MarkPoint.GetInteractionNode];
    (split; [|split]);
    try (split; [intros [app' E]; discriminate E | intuition congruence]);
    try (intros id' E Hs Hi; congruence);
    try (split; [intros _ | intros _; eexists; reflexivity]);
    try (intros id' [= <-] _ _; reflexivity);
    repeat split; try congruence; auto; try (left; split; congruence);
    try (right; split; congruence).
Qed.

(** * Setting a node up, selecting and resetting corners *)

Section CornersOfANode.
Context {F : Type} `{Scalar F}.
Variable fit : list (vec3 F) -> list (vec3 F) -> matrix4 F.
Import Imageless.
Implicit Types (node : usCalibrationNode F) (ml ul : fiducialList F).
Local Open Scope string_scope.

Lemma run_with_lists_sets_a_status node ml ul after :
  MarkedPoints node = Some ml -> UnmarkedPoints node = Some ul ->
  ComputeCalibration fit (Some node) = Ok (Some after) ->
  exists msg, OutputMessage after = Some msg.
Proof.
  intros Em Eu.
  destruct (two_first_or_too_few ml) as [(m1 & m2 & mr & ->)|Hml].
  - destruct (two_first_or_too_few ul) as [(u1 & u2 & ur & ->)|Hul].
    + rewrite (ComputeCalibration_on_corners fit node Em Eu).
      unfold calibrate.
      destruct (py_float (Depth node)) as [depth|[]]; try discriminate;
        [|intros [= <-]; eexists; reflexivity].
      destruct (UltrasoundImage node) as [img|];
        [|intros [= <-]; eexists; reflexivity].
      destruct (ImageData img) as [[[dimX dimY] dimZ]|];
        [|intros [= <-]; eexists; reflexivity].
      destruct (dimY =? 0)%Z; try discriminate.
      destruct (ImageToProbeTransform node);
        intros [= <-]; eexists; reflexivity.
    + rewrite (ComputeCalibration_few_unmarked fit node Em Eu Hul).
      intros [= <-]; eexists; reflexivity.
  - rewrite (ComputeCalibration_few_marked fit node Em Eu Hml).
    intros [= <-]; eexists; reflexivity.
Qed.

Lemma SelectUnmarkedPoint_beyond_two (newLabel : string) node u1 u2 ul :
  UnmarkedPoints node = Some (u1 :: u2 :: ul) ->
  snd (SelectUnmarkedPoint newLabel (Some node)) = [points_not_used]
  /\ exists node',
       fst (SelectUnmarkedPoint newLabel (Some node)) = Some node'
       /\ UnmarkedPoints node'
          = Some (AddFiducial newLabel (StylusTipToProbeTransform node)
                              (u1 :: u2 :: ul))
       /\ observe (ComputeCalibration fit (Some node'))
          = observe (ComputeCalibration fit (Some node)).
Proof.
  intros Eu; unfold SelectUnmarkedPoint; rewrite Eu.
  replace (GetNumberOfFiducials (u1 :: u2 :: ul) >=? 2)%Z with true
    by (symmetry; apply Z.geb_le; unfold GetNumberOfFiducials;
        simpl List.length; lia).
  split; [reflexivity|].
  eexists; split; [reflexivity|]; split; [reflexivity|].
  apply ComputeCalibration_reads_first_two; trivial.
  cbn [UnmarkedPoints SetUnmarkedPoints]; rewrite Eu.
  unfold AddFiducial; now destruct (StylusTipToProbeTransform node).
Qed.

End CornersOfANode.

(** X21.  [SetupCalibrationNode] of the imageless logic gives the node both
    corner lists: a list that was missing is there and empty, a list that
    was there keeps its corners, and nothing else of the node changes.
    Every call adds three observers that run [ComputeCalibration], on the
    unmarked list, the marked list and the node: a second call leaves the
    node as the first left it and adds the three observers once more.
    After the call every run that returns leaves a status message, and on
    a node that had no marked list the status is that marked corners are
    missing. *)
Theorem setup_gives_both_corner_lists :
  forall (F : Type) (num : Scalar F)
         (fit : list (vec3 F) -> list (vec3 F) -> matrix4 F)
         (node : Imageless.usCalibrationNode F),
    exists node' : Imageless.usCalibrationNode F,
      Imageless.SetupCalibrationNode (Some node)
      = (Some node',
         [ Imageless.UnmarkedPointsList; Imageless.MarkedPointsList;
           Imageless.CalibrationNode ])
      /\ Imageless.MarkedPoints node'
         = Some (match Imageless.MarkedPoints node with
                 | Some corners => corners
                 | None => []
                 end)
      /\ Imageless.UnmarkedPoints node'
         = Some (match Imageless.UnmarkedPoints node with
                 | Some corners => corners
                 | None => []
                 end)
      /\ (Imageless.StylusTipToProbeTransform node',
          Imageless.ImageToProbeTransform node',
          Imageless.UltrasoundImage node', Imageless.Depth node',
          Imageless.OutputMessage node')
         = (Imageless.StylusTipToProbeTransform node,
            Imageless.ImageToProbeTransform node,
            Imageless.UltrasoundImage node, Imageless.Depth node,
            Imageless.OutputMessage node)
      /\ Imageless.SetupCalibrationNode (Some node')
         = (Some node',
            [ Imageless.UnmarkedPointsList; Imageless.MarkedPointsList;
              Imageless.CalibrationNode ])
      /\ (forall after,
            Imageless.ComputeCalibration fit (Some node') = Ok (Some after) ->
            exists msg, Imageless.OutputMessage after = Some msg)
      /\ (Imageless.MarkedPoints node = None ->
          Imageless.ComputeCalibration fit (Some node')
          = Ok (Some (Imageless.SetOutputMessage node'
                  "Insufficient number of marked corner points selected."%string))).
Proof.
  intros F num fit node.
  unfold Imageless.SetupCalibrationNode.
  destruct (Imageless.MarkedPoints node) as [ml|] eqn:Em;
    cbn [Imageless.UnmarkedPoints Imageless.SetMarkedPoints];
    destruct (Imageless.UnmarkedPoints node) as [ul|] eqn:Eu;
    eexists; (split; [reflexivity|]);
    cbn [Imageless.MarkedPoints Imageless.UnmarkedPoints
         Imageless.SetMarkedPoints Imageless.SetUnmarkedPoints];
    rewrite ?Em, ?Eu;
    (split; [reflexivity|]); (split; [reflexivity|]);
    (split; [reflexivity|]); (split; [reflexivity|]); split.
  all: try (intros after; eapply run_with_lists_sets_a_status;
            cbn [Imageless.MarkedPoints Imageless.UnmarkedPoints
                 Imageless.SetMarkedPoints Imageless.SetUnmarkedPoints];
            eassumption || reflexivity).
  all: try discriminate.
  all: intros _;
    match goal with
    | |- Imageless.ComputeCalibration ?f (Some ?x) = _ =>
        eapply (ComputeCalibration_few_marked f x (ml := []))
    end;
    cbn [Imageless.MarkedPoints Imageless.UnmarkedPoints
         Imageless.SetMarkedPoints Imageless.SetUnmarkedPoints];
    try eassumption; try reflexivity; simpl; lia.
Qed.

(** X22.  [SetupCalibrationNode] of the pointer-based logic gives the node
    both correspondence lists: a missing list is there and empty, a list
    that was there keeps its points, and the transforms stay.  Every call
    sets the registration mode to similarity and adds an observer of
    added markups to the image list: a second call leaves the node as the
    first left it and adds the observer once more.  A node that had
    neither list starts with aligned lists and an empty table of
    residuals. *)
Theorem setup_gives_both_point_lists :
  forall (F : Type) (num : Scalar F) (node : PointerBased.frwNode F),
    exists node' : PointerBased.frwNode F,
      PointerBased.SetupCalibrationNode (Some node)
      = (Some node',
         [ PointerBased.SetRegistrationModeToSimilarity;
           PointerBased.AddObserver_MarkupAddedEvent PointerBased.FromList ])
      /\ PointerBased.FromFiducialListNode node'
         = Some (match PointerBased.FromFiducialListNode node with
                 | Some points => points
                 | None => []
                 end)
      /\ PointerBased.ToFiducialListNode node'
         = Some (match PointerBased.ToFiducialListNode node with
                 | Some points => points
                 | None => []
                 end)
      /\ PointerBased.OutputTransformNode node'
         = PointerBased.OutputTransformNode node
      /\ PointerBased.ProbeTransformToNode node'
         = PointerBased.ProbeTransformToNode node
      /\ PointerBased.SetupCalibrationNode (Some node')
         = (Some node',
            [ PointerBased.SetRegistrationModeToSimilarity;
              PointerBased.AddObserver_MarkupAddedEvent PointerBased.FromList ])
      /\ (PointerBased.FromFiducialListNode node = None ->
          PointerBased.ToFiducialListNode node = None ->
          synchronized (Some node') = true
          /\ PointerBased.ComputeErrors (Some node') = []).
Proof.
  intros F num node; unfold PointerBased.SetupCalibrationNode.
  eexists; split; [reflexivity|].
  cbn [PointerBased.FromFiducialListNode PointerBased.ToFiducialListNode
       PointerBased.OutputTransformNode PointerBased.ProbeTransformToNode].
  destruct (PointerBased.FromFiducialListNode node) as [from|];
    destruct (PointerBased.ToFiducialListNode node) as [to|];
    repeat split; trivial; try discriminate.
  unfold PointerBased.ComputeErrors;
    cbn [PointerBased.FromFiducialListNode PointerBased.ToFiducialListNode
         PointerBased.OutputTransformNode].
  now destruct (PointerBased.OutputTransformNode node).
Qed.

(** X23.  A corner selected on a side that has its two corners is added
    to the list of that side, under the warning that it is not used, and
    the next run answers as the run before the selection: the same
    status, the same output transform or the same exception. *)
Theorem corner_selected_beyond_two_is_not_used :
  forall (F : Type) (num : Scalar F)
         (fit : list (vec3 F) -> list (vec3 F) -> matrix4 F)
         (node : Imageless.usCalibrationNode F) (newLabel : string)
         (m1 m2 u1 u2 : fiducial F) (ml ul : fiducialList F),
    Imageless.MarkedPoints node = Some (m1 :: m2 :: ml) ->
    Imageless.UnmarkedPoints node = Some (u1 :: u2 :: ul) ->
    (snd (Imageless.SelectMarkedPoint newLabel (Some node))
     = [Imageless.points_not_used]
     /\ exists node',
          fst (Imageless.SelectMarkedPoint newLabel (Some node)) = Some node'
          /\ Imageless.MarkedPoints node'
             = Some (AddFiducial newLabel
                       (Imageless.StylusTipToProbeTransform node)
                       (m1 :: m2 :: ml))
          /\ observe (Imageless.ComputeCalibration fit (Some node'))
             = observe (Imageless.ComputeCalibration fit (Some node)))
    /\ (snd (Imageless.SelectUnmarkedPoint newLabel (Some node))
        = [Imageless.points_not_used]
        /\ exists node',
             fst (Imageless.SelectUnmarkedPoint newLabel (Some node))
             = Some node'
             /\ Imageless.UnmarkedPoints node'
                = Some (AddFiducial newLabel
                          (Imageless.StylusTipToProbeTransform node)
                          (u1 :: u2 :: ul))
             /\ observe (Imageless.ComputeCalibration fit (Some node'))
                = observe (Imageless.ComputeCalibration fit (Some node))).
Proof.
  intros F num fit node newLabel m1 m2 u1 u2 ml ul Em Eu; split.
  - now apply SelectMarkedPoint_beyond_two.
  - now apply SelectUnmarkedPoint_beyond_two.
Qed.

Lemma corner_selected_beyond_two_on_sample :
  snd (Imageless.SelectMarkedPoint "MarkedPoints-3"
         (Some (Samples.imageless_node Samples.marked_corners
                  Samples.unmarked_corners (Some "100"%string))))
  = [Imageless.points_not_used].
Proof.
  exact (proj1 (proj1 (@corner_selected_beyond_two_is_not_used R _
                         Samples.identity_solver
                         (Samples.imageless_node Samples.marked_corners
                            Samples.unmarked_corners (Some "100"%string))
                         "MarkedPoints-3" _ _ _ _ _ _ eq_refl eq_refl))).
Defined.

(** X24.  Resetting the corners of a side empties its list, and the next
    run reports that corners of that side are missing (of the marked side
    first).  The reset does not touch the output transform: the matrix of
    the last calibration stays in the output node. *)
Theorem reset_corners_then_run :
  forall (F : Type) (num : Scalar F)
         (fit : list (vec3 F) -> list (vec3 F) -> matrix4 F)
         (node : Imageless.usCalibrationNode F)
         (m1 m2 : fiducial F) (ml ul : fiducialList F),
    Imageless.MarkedPoints node = Some (m1 :: m2 :: ml) ->
    Imageless.UnmarkedPoints node = Some ul ->
    (exists after,
        Imageless.ComputeCalibration fit
          (Imageless.ResetMarkedPoints (Some node)) = Ok (Some after)
        /\ Imageless.MarkedPoints after = Some []
        /\ Imageless.OutputMessage after
           = Some "Insufficient number of marked corner points selected."%string
        /\ Imageless.ImageToProbeTransform after
           = Imageless.ImageToProbeTransform node)
    /\ (exists after,
           Imageless.ComputeCalibration fit
             (Imageless.ResetUnmarkedPoints (Some node)) = Ok (Some after)
           /\ Imageless.UnmarkedPoints after = Some []
           /\ Imageless.OutputMessage after
              = Some "Insufficient number of unmarked corner points selected."%string
           /\ Imageless.ImageToProbeTransform after
              = Imageless.ImageToProbeTransform node).
Proof.
  intros F num fit node m1 m2 ml ul Em Eu; split.
  - unfold Imageless.ResetMarkedPoints; rewrite Em.
    eexists; split.
    + apply (ComputeCalibration_few_marked fit
               (Imageless.SetMarkedPoints node (RemoveAllMarkups (m1 :: m2 :: ml)))
               (ml := []) (ul := ul)); trivial; simpl; lia.
    + repeat split.
  - unfold Imageless.ResetUnmarkedPoints; rewrite Eu.
    eexists; split.
    + apply (ComputeCalibration_few_unmarked fit
               (Imageless.SetUnmarkedPoints node (RemoveAllMarkups ul))
               (m1 := m1) (m2 := m2) (ml := ml) (ul := [])); trivial;
        simpl; lia.
    + repeat split.
Qed.

Lemma reset_corners_then_run_on_sample :
  exists after,
    Imageless.ComputeCalibration Samples.identity_solver
      (Imageless.ResetMarkedPoints
         (Some (Samples.imageless_node Samples.marked_corners
                  Samples.unmarked_corners (Some "100"%string))))
    = Ok (Some after)
    /\ Imageless.MarkedPoints after = Some []
    /\ Imageless.OutputMessage after
       = Some "Insufficient number of marked corner points selected."%string
    /\ Imageless.ImageToProbeTransform after = Some Identity.
Proof.
  exact (proj1 (@reset_corners_then_run R _ Samples.identity_solver
                  (Samples.imageless_node Samples.marked_corners
                     Samples.unmarked_corners (Some "100"%string))
                  _ _ _ _ eq_refl eq_refl)).
Defined.

(** * The matrix the run writes *)

Section WrittenMatrix.
Local Open Scope R_scope.

Lemma scale_then_transform (L : matrix4 R) (s x y z : R) :
  TransformPoint (Multiply4x4 L (ScaleMatrix s s s)) (x, y, z)
  = TransformPoint L (x * s, y * s, z * s).
Proof.
  destruct L as [[[[[[a0 a1] a2] a3] [[[b0 b1] b2] b3]] [[[c0 c1] c2] c3]]
                 [[[d0 d1] d2] d3]].
  unfold TransformPoint, Multiply4x4, ScaleMatrix, MultiplyPoint, row_times,
    column.
  real_ops; vec_eq; ring.
Qed.

Lemma pixel_to_mm (fit : list (vec3 R) -> list (vec3 R) -> matrix4 R)
    (r : Imageless.reconstruction R) (depth : R) (dims : Z * Z * Z)
    (x y z : R) :
  TransformPoint (Imageless.imageToProbeMatrix fit r depth dims) (x, y, z)
  = TransformPoint
      (fit (Imageless.imagePoints_ImageMm depth dims)
           (Imageless.probePoints r depth))
      (x * Imageless.pixelsToMmScale depth dims,
       y * Imageless.pixelsToMmScale depth dims,
       z * Imageless.pixelsToMmScale depth dims).
Proof. unfold Imageless.imageToProbeMatrix; apply scale_then_transform. Qed.

End WrittenMatrix.

(** X25.  The matrix the run writes scales first and fits second: it sends
    the pixel (x, y, z) where the solver's matrix sends the point
    (x*scale, y*scale, z*scale).  So, for an image whose height is not 0,
    the four corners of the image in pixels go where the solver's matrix
    sends the four source landmarks. *)
Theorem written_matrix_scales_then_fits :
  forall (fit : list (vec3 R) -> list (vec3 R) -> matrix4 R)
         (r : Imageless.reconstruction R) (depth : R)
         (width_px height_px dimZ : Z),
    height_px <> 0%Z ->
    (forall x y z : R,
        TransformPoint
          (Imageless.imageToProbeMatrix fit r depth
             (width_px, height_px, dimZ)) (x, y, z)
        = TransformPoint
            (fit (Imageless.imagePoints_ImageMm depth
                    (width_px, height_px, dimZ))
                 (Imageless.probePoints r depth))
            (x * (depth / IZR height_px), y * (depth / IZR height_px),
             z * (depth / IZR height_px))%R)
    /\ map (TransformPoint
              (Imageless.imageToProbeMatrix fit r depth
                 (width_px, height_px, dimZ)))
           [ (0, 0, 0); (IZR width_px, 0, 0); (0, IZR height_px, 0);
             (IZR width_px, IZR height_px, 0) ]%R
       = map (TransformPoint
                (fit (Imageless.imagePoints_ImageMm depth
                        (width_px, height_px, dimZ))
                     (Imageless.probePoints r depth)))
             (Imageless.imagePoints_ImageMm depth (width_px, height_px, dimZ)).
Proof.
  intros fit r depth width_px height_px dimZ Hy.
  assert (IZR height_px <> 0)%R as Hy' by (now apply not_0_IZR).
  split.
  - intros x y z; apply pixel_to_mm.
  - cbn [map]; rewrite !pixel_to_mm.
    set (L := fit _ _).
    unfold Imageless.imagePoints_ImageMm, Imageless.pixelsToMmScale.
    cbn [map]; real_ops.
    repeat (apply (f_equal2 cons); [f_equal; vec_eq; field; trivial|]).
    reflexivity.
Qed.

Lemma written_matrix_scales_then_fits_on_sample :
  map (TransformPoint
         (Imageless.imageToProbeMatrix Samples.identity_solver
            Samples.reconstruction_of_footprint 100%R (400, 500, 1)%Z))
      [ (0, 0, 0); (400, 0, 0); (0, 500, 0); (400, 500, 0) ]%R
  = map (TransformPoint
           (Samples.identity_solver
              (Imageless.imagePoints_ImageMm 100%R (400, 500, 1)%Z)
              (Imageless.probePoints Samples.reconstruction_of_footprint
                                     100%R)))
        (Imageless.imagePoints_ImageMm 100%R (400, 500, 1)%Z).
Proof.
  exact (proj2 (@written_matrix_scales_then_fits Samples.identity_solver
                  Samples.reconstruction_of_footprint 100%R 400%Z 500%Z 1%Z
                  ltac:(discriminate))).
Defined.

(** X26.  A depth of 0, the value the depth spin box starts with, is taken
    as any other number: with the corners, an image and an output in
    place the run reports "Success!", and the matrix it writes sends
    every pixel to one and the same point. *)
Theorem depth_zero_collapses_the_image :
  forall (fit : list (vec3 R) -> list (vec3 R) -> matrix4 R)
         (node : Imageless.usCalibrationNode R)
         (m1 m2 u1 u2 : fiducial R) (ml ul : fiducialList R)
         (img : Imageless.usImageNode) (width_px height_px dimZ : Z)
         (prior : matrix4 R),
    Imageless.MarkedPoints node = Some (m1 :: m2 :: ml) ->
    Imageless.UnmarkedPoints node = Some (u1 :: u2 :: ul) ->
    Imageless.UltrasoundImage node = Some img ->
    Imageless.ImageData img = Some (width_px, height_px, dimZ) ->
    height_px <> 0%Z ->
    Imageless.ImageToProbeTransform node = Some prior ->
    exists (after : Imageless.usCalibrationNode R) (written : matrix4 R),
      Imageless.ComputeCalibration fit (Imageless.SetDepth 0 (Some node))
      = Ok (Some after)
      /\ Imageless.OutputMessage after = Some "Success!"%string
      /\ Imageless.ImageToProbeTransform after = Some written
      /\ forall p q : vec3 R,
           TransformPoint written p = TransformPoint written q.
Proof.
  intros fit node m1 m2 u1 u2 ml ul img width_px height_px dimZ prior
         Em Eu Ei Edim Hy Et.
  cbn [Imageless.SetDepth].
  match goal with
  | |- context [Imageless.ComputeCalibration fit (Some ?x)] => set (node0 := x)
  end.
  assert (py_float (Imageless.Depth node0) = Ok 0%R) as Ed
    by apply (float_of_py_str_int 0).
  rewrite (@ComputeCalibration_on_corners R _ fit node0 m1 m2 ml u1 u2 ul
             Em Eu).
  rewrite (@calibrate_success R _ fit node0 _ _ _ _ 0%R img width_px height_px
             dimZ prior Ed Ei Edim Hy Et).
  eexists; eexists; split; [reflexivity|]; split; [reflexivity|].
  split; [reflexivity|].
  assert (IZR height_px <> 0)%R as Hy' by (now apply not_0_IZR).
  assert (forall p : vec3 R,
            TransformPoint
              (Imageless.imageToProbeMatrix fit
                 (Imageless.reconstruct (position m1) (position m2)
                                        (position u1) (position u2))
                 0%R (width_px, height_px, dimZ)) p
            = TransformPoint
                (fit (Imageless.imagePoints_ImageMm 0%R
                        (width_px, height_px, dimZ))
                     (Imageless.probePoints
                        (Imageless.reconstruct (position m1) (position m2)
                                               (position u1) (position u2))
                        0%R))
                (0, 0, 0)%R) as Hone.
  { intros [[x y] z]; rewrite pixel_to_mm.
    unfold Imageless.pixelsToMmScale; real_ops.
    f_equal; vec_eq; field; trivial. }
  intros p q; now rewrite !Hone.
Qed.

Lemma depth_zero_collapses_the_image_on_sample :
  exists (after : Imageless.usCalibrationNode R) (written : matrix4 R),
    Imageless.ComputeCalibration Samples.identity_solver
      (Imageless.SetDepth 0
         (Some (Samples.imageless_node Samples.marked_corners
                  Samples.unmarked_corners None)))
    = Ok (Some after)
    /\ Imageless.OutputMessage after = Some "Success!"%string
    /\ Imageless.ImageToProbeTransform after = Some written
    /\ forall p q : vec3 R,
         TransformPoint written p = TransformPoint written q.
Proof.
  exact (@depth_zero_collapses_the_image Samples.identity_solver
           (Samples.imageless_node Samples.marked_corners
              Samples.unmarked_corners None)
           _ _ _ _ _ _ Samples.image_400_500 400%Z 500%Z 1%Z Identity
           eq_refl eq_refl eq_refl eq_refl ltac:(discriminate) eq_refl).
Defined.

(** X27.  On lists of equal length that are not empty, the delete button
    of the last row does what the undo button does. *)
Theorem deleting_the_last_row_is_undo :
  forall (F : Type) (num : Scalar F) (node : PointerBased.frwNode F)
         (from to : fiducialList F),
    List.length from = List.length to ->
    from <> [] ->
    PointerBased.DeleteNthPoint
      (Some (PointerBased.with_lists node from to))
      (Z.of_nat (List.length from) - 1)
    = PointerBased.UndoPoints (Some (PointerBased.with_lists node from to)).
Proof.
  intros F num node from to Hlen Hne.
  destruct from as [|x from]; [now elim Hne|].
  unfold PointerBased.DeleteNthPoint, PointerBased.UndoPoints.
  cbn [PointerBased.with_lists PointerBased.FromFiducialListNode
       PointerBased.ToFiducialListNode].
  unfold GetNumberOfFiducials; rewrite <- Hlen.
  replace (Z.of_nat (List.length (x :: from))
           >? Z.of_nat (List.length (x :: from)) - 1)%Z with true
    by (symmetry; apply Z.gtb_lt; lia).
  replace (Z.of_nat (List.length (x :: from)) >? 0)%Z with true
    by (symmetry; apply Z.gtb_lt; simpl List.length; lia).
  reflexivity.
Qed.

Lemma deleting_the_last_row_is_undo_on_sample :
  PointerBased.DeleteNthPoint (Some Samples.pointer_node) 2
  = PointerBased.UndoPoints (Some Samples.pointer_node).
Proof.
  exact (@deleting_the_last_row_is_undo R _ Samples.pointer_node
           Samples.image_points Samples.probe_points eq_refl
           ltac:(discriminate)).
Defined.

(** X28.  An image list with two observers (as after two calls of
    [SetupCalibrationNode]) calls [AddPointToCalibration] twice for one
    added markup.  With a pointer transform set and the image list one
    entry ahead, the first call pairs the markup and logs nothing; the
    second call, on the node the first left, adds no second point and
    logs that the lists have become unsynchronized. *)
Theorem second_notification_adds_no_point :
  forall (F : Type) (num : Scalar F) (node : PointerBased.frwNode F)
         (from to : fiducialList F) (m : matrix4 F)
         (newLabel otherLabel : string),
    PointerBased.FromFiducialListNode node = Some from ->
    PointerBased.ToFiducialListNode node = Some to ->
    PointerBased.ProbeTransformToNode node = Some m ->
    List.length from = S (List.length to) ->
    exists paired : PointerBased.frwNode F,
      PointerBased.AddPointToCalibration newLabel (Some node)
                                         PointerBased.FromList
      = (Some paired, [])
      /\ PointerBased.FromFiducialListNode paired = Some from
      /\ PointerBased.ToFiducialListNode paired
         = Some (to ++ [ {| label := newLabel; position := Origin m |} ])%list
      /\ PointerBased.AddPointToCalibration otherLabel (Some paired)
                                            PointerBased.FromList
         = (Some paired, [PointerBased.unsynchronized]).
Proof.
  intros F num node from to m newLabel otherLabel Ef Et Em Hlen.
  rewrite (pairing_from node newLabel Ef Et Em Hlen).
  eexists; split; [reflexivity|].
  split; [reflexivity|]; split; [reflexivity|].
  apply (proj1 (@out_of_step F
                  (PointerBased.with_lists node from
                     (to ++ [ {| label := newLabel; position := Origin m |} ]))
                  from
                  (to ++ [ {| label := newLabel; position := Origin m |} ])
                  otherLabel eq_refl eq_refl)).
  rewrite length_app; simpl List.length; lia.
Qed.

Lemma second_notification_adds_no_point_on_sample :
  exists paired : PointerBased.frwNode R,
    PointerBased.AddPointToCalibration "Probe_Points-3"%string
      (Some (PointerBased.with_lists Samples.pointer_node
               Samples.image_points (removelast Samples.probe_points)))
      PointerBased.FromList
    = (Some paired, [])
    /\ PointerBased.AddPointToCalibration "Probe_Points-4"%string
         (Some paired) PointerBased.FromList
       = (Some paired, [PointerBased.unsynchronized]).
Proof.
  destruct (@second_notification_adds_no_point R _
              (PointerBased.with_lists Samples.pointer_node
                 Samples.image_points (removelast Samples.probe_points))
              Samples.image_points (removelast Samples.probe_points)
              Identity "Probe_Points-3"%string "Probe_Points-4"%string
              eq_refl eq_refl eq_refl eq_refl)
    as (paired & Hfirst & _ & _ & Hsecond).
  exists paired; split; [exact Hfirst | exact Hsecond].
Defined.
